(** * Maintenance-log assistant: a shallow embedding of the query core

    The development follows the layout of the Python package:
    - [Py]        the handful of [str] / list primitives the code relies on;
    - [Regex]     a backtracking matcher for the fragment of [re] used by
                  [src/app.py] (literals, classes, alternation, greedy
                  option, [\s+], [\b]);
    - [Analytics] [src/analytics.py]: [Filters], [filter_work_orders] and the
                  aggregation functions;
    - [Data]      [src/data.py]: [build_work_orders];
    - [App]       [src/app.py]: filter extraction and intent detection;
    - [Webapp]    [src/webapp.py]: [answer_question], next to the handler
                  cascade of the command-line loop of [src/app.py].

    Conventions.  Text is modelled by [string] restricted to ASCII, where
    [str.lower] only touches [A-Z] and comparison is by code point.  A pandas
    DataFrame is a list of row records together with the schema facts the
    code tests ([has_technicians]); a pandas Timestamp is a number of
    nanoseconds since the epoch.  Python exceptions are values of [exn] in
    the [result] monad.  [incidents_over_time], the retrieval and synthesis
    modules and the HTTP layer of the web front end are not represented. *)

From Stdlib Require Import List String Ascii ZArith Bool Arith Lia.
From Stdlib Require Import Sorting.Sorted Sorting.Permutation.
From Stdlib Require Import Structures.OrdersEx Numbers.DecimalString.
From Stdlib Require Import RelationClasses.
Import ListNotations.

Local Open Scope string_scope.
Local Open Scope list_scope.

(** ** Exceptions as values *)

Inductive exn : Type :=
| ValueError (msg : string)
| KeyError (key : string).

Inductive result (A : Type) : Type :=
| Ok (a : A)
| Raise (e : exn).

Arguments Ok {A} a.
Arguments Raise {A} e.

Definition bind {A B : Type} (m : result A) (k : A -> result B) : result B :=
  match m with
  | Ok a => k a
  | Raise e => Raise e
  end.

Notation "x <- m ;; k" := (bind m (fun x => k))
  (at level 61, m at next level, right associativity).

(** ** Python primitives *)

Module Py.

(** [str.isspace] on one ASCII character: TAB, LF, VT, FF, CR, the four
    separators 0x1c-0x1f and the blank. *)
Definition is_space (c : ascii) : bool :=
  let n := nat_of_ascii c in
  ((9 <=? n)%nat && (n <=? 13)%nat) || ((28 <=? n)%nat && (n <=? 32)%nat).

Definition is_digit (c : ascii) : bool :=
  let n := nat_of_ascii c in (48 <=? n)%nat && (n <=? 57)%nat.

Definition is_upper (c : ascii) : bool :=
  let n := nat_of_ascii c in (65 <=? n)%nat && (n <=? 90)%nat.

Definition is_lower_letter (c : ascii) : bool :=
  let n := nat_of_ascii c in (97 <=? n)%nat && (n <=? 122)%nat.

(** [\w] of the [re] module on ASCII text. *)
Definition is_word (c : ascii) : bool :=
  is_digit c || is_upper c || is_lower_letter c || Ascii.eqb c "_"%char.

Definition lower_char (c : ascii) : ascii :=
  if is_upper c then ascii_of_nat (nat_of_ascii c + 32) else c.

(** [s.lower()] *)
Fixpoint lower (s : string) : string :=
  match s with
  | EmptyString => EmptyString
  | String c r => String (lower_char c) (lower r)
  end.

(** [s.lstrip()], [s.rstrip()], [s.strip()] *)
Fixpoint lstrip (s : string) : string :=
  match s with
  | EmptyString => EmptyString
  | String c r => if is_space c then lstrip r else s
  end.

Fixpoint rstrip (s : string) : string :=
  match s with
  | EmptyString => EmptyString
  | String c r =>
      match rstrip r with
      | EmptyString => if is_space c then EmptyString else String c EmptyString
      | r' => String c r'
      end
  end.

Definition strip (s : string) : string := rstrip (lstrip s).

(** [s.startswith(p)] *)
Definition startswith (s p : string) : bool := String.prefix p s.

(** [sub in s] *)
Fixpoint contains (sub s : string) : bool :=
  String.prefix sub s ||
  match s with
  | EmptyString => false
  | String _ r => contains sub r
  end.

(** [s.isdigit()] on ASCII text: non-empty and made of digits only. *)
Fixpoint all_digits (s : string) : bool :=
  match s with
  | EmptyString => true
  | String c r => is_digit c && all_digits r
  end.

Definition isdigit (s : string) : bool :=
  match s with
  | EmptyString => false
  | _ => all_digits s
  end.

(** truthiness of a [str]: [bool(s)] *)
Definition nonempty (s : string) : bool :=
  match s with
  | EmptyString => false
  | String _ _ => true
  end.

(** [str(n)] for an [int] *)
Definition str_of_Z (n : Z) : string := NilZero.string_of_int (Z.to_int n).
Definition str_of_nat (n : nat) : string := str_of_Z (Z.of_nat n).

(** [int(s)] for a string of decimal digits *)
Definition digit_val (c : ascii) : Z := Z.of_nat (nat_of_ascii c) - 48.

Fixpoint int_of_digits (acc : Z) (s : string) : Z :=
  match s with
  | EmptyString => acc
  | String c r => int_of_digits (10 * acc + digit_val c) r
  end.

(** [sep.join(l)] *)
Fixpoint join (sep : string) (l : list string) : string :=
  match l with
  | [] => ""
  | [x] => x
  | x :: r => (x ++ sep ++ join sep r)%string
  end.

(** Slice [l[:n]], the meaning of [DataFrame.head(n)]: for a negative [n],
    everything except the last [|n|] entries. *)
Definition head {A : Type} (n : Z) (l : list A) : list A :=
  if (0 <=? n)%Z then firstn (Z.to_nat n) l
  else firstn (List.length l - Z.to_nat (- n)) l.

(** Code-point order on [str], as used by [sorted], [list.sort] and
    [sort_values] on an object column. *)
Definition str_lt (a b : string) : Prop := String_as_OT.lt a b.

Definition str_ltb (a b : string) : bool :=
  match String_as_OT.compare a b with Lt => true | _ => false end.

Definition str_leb (a b : string) : bool :=
  match String_as_OT.compare a b with Gt => false | _ => true end.

(** [pandas.unique] / [set] membership: the distinct values in order of
    first appearance. *)
Definition unique {A : Type} (dec : forall x y : A, {x = y} + {x <> y})
    (l : list A) : list A :=
  rev (nodup dec (rev l)).

(** [Series.nunique()] *)
Definition nunique {A : Type} (dec : forall x y : A, {x = y} + {x <> y})
    (l : list A) : nat :=
  List.length (unique dec l).

(** A stable insertion sort: the model of [sort_values], [sorted] and
    [list.sort] for a comparison [le]. *)
Section Sort.
Context {A : Type} (le : A -> A -> bool).

Fixpoint insert (x : A) (l : list A) : list A :=
  match l with
  | [] => [x]
  | y :: r => if le x y then x :: l else y :: insert x r
  end.

Fixpoint sort (l : list A) : list A :=
  match l with
  | [] => []
  | x :: r => insert x (sort r)
  end.
End Sort.

End Py.

(** ** The fragment of [re] used by the parsing helpers *)

Module Regex.

Inductive re : Type :=
| Lit (c : ascii)              (* one literal character *)
| Cls (p : ascii -> bool)      (* one character of a class: \d, \s, [...] *)
| Star (p : ascii -> bool)     (* greedy  [...]*  *)
| Cat (r1 r2 : re)
| Alt (r1 r2 : re)             (* r1|r2, left alternative first *)
| Opt (r : re)                 (* greedy  (?:r)?  *)
| Grp (r : re)                 (* the capturing group  (r)  *)
| WordB.                       (* \b *)

(** [Str "abc"] is the concatenation of its characters. *)
Fixpoint Str (s : string) : re :=
  match s with
  | EmptyString => Opt (Cls (fun _ => false))
  | String c EmptyString => Lit c
  | String c r => Cat (Lit c) (Str r)
  end.

Definition Plus (p : ascii -> bool) : re := Cat (Cls p) (Star p).

Definition wordish (o : option ascii) : bool :=
  match o with
  | Some c => Py.is_word c
  | None => false
  end.

Definition peek (s : string) : option ascii :=
  match s with
  | EmptyString => None
  | String c _ => Some c
  end.

(** The text consumed between two suffixes of the same string. *)
Definition consumed (from rest : string) : string :=
  String.substring 0 (String.length from - String.length rest) from.

(** Continuations receive the character before the position, the
    remaining text and the text of group 1 if it has been closed. *)
Definition cont : Type := option ascii -> string -> option string -> option string.

Fixpoint star (p : ascii -> bool) (prev : option ascii) (s : string)
    (cap : option string) (k : cont) : option string :=
  match s with
  | EmptyString => k prev s cap
  | String c r =>
      if p c then
        match star p (Some c) r cap k with
        | Some x => Some x
        | None => k prev s cap
        end
      else k prev s cap
  end.

(** Backtracking match of [r] at the current position; the answer is the
    text of group 1 of the first successful path. *)
Fixpoint run (r : re) (prev : option ascii) (s : string)
    (cap : option string) (k : cont) : option string :=
  match r with
  | Lit c =>
      match s with
      | String d s' => if Ascii.eqb c d then k (Some d) s' cap else None
      | EmptyString => None
      end
  | Cls p =>
      match s with
      | String d s' => if p d then k (Some d) s' cap else None
      | EmptyString => None
      end
  | Star p => star p prev s cap k
  | Cat r1 r2 => run r1 prev s cap (fun prev' s' cap' => run r2 prev' s' cap' k)
  | Alt r1 r2 =>
      match run r1 prev s cap k with
      | Some x => Some x
      | None => run r2 prev s cap k
      end
  | Opt r1 =>
      match run r1 prev s cap k with
      | Some x => Some x
      | None => k prev s cap
      end
  | Grp r1 => run r1 prev s cap (fun prev' s' _ => k prev' s' (Some (consumed s s')))
  | WordB =>
      if xorb (wordish prev) (wordish (peek s)) then k prev s cap else None
  end.

Definition match_here (r : re) (prev : option ascii) (s : string) : option string :=
  run r prev s None
    (fun _ _ cap => match cap with Some g => Some g | None => Some "" end).

(** [re.search(r, s)]: the leftmost position where [r] matches; the value
    is [m.group(1)], [None] when there is no match. *)
Fixpoint search_from (r : re) (prev : option ascii) (s : string) : option string :=
  match match_here r prev s with
  | Some g => Some g
  | None =>
      match s with
      | EmptyString => None
      | String c s' => search_from r (Some c) s'
      end
  end.

Definition search (r : re) (s : string) : option string := search_from r None s.

End Regex.

(** ** src/analytics.py *)

Module Analytics.

(** A pandas Timestamp: nanoseconds since 1970-01-01T00:00:00. *)
Definition Timestamp : Type := Z.

(** One row of the [work_orders] frame.  A cell of the [technicians]
    column is a list whose entries may be missing ([None] / NaN). *)
Record WorkOrder : Type := mkWorkOrder {
  work_order_id : Z;
  equipment_id : string;
  product_line : string;
  symptom_code : string;
  description : string;
  start_ts : Timestamp;
  end_ts : Timestamp;
  technicians : list (option string);
  comments : string;
  n_updates : nat
}.

(** The frame: its rows, and whether the [technicians] column exists. *)
Record DataFrame : Type := mkDataFrame {
  has_technicians : bool;
  rows : list WorkOrder
}.

Definition with_rows (df : DataFrame) (l : list WorkOrder) : DataFrame :=
  mkDataFrame (has_technicians df) l.

(** [df.empty] *)
Definition empty (df : DataFrame) : bool :=
  match rows df with
  | [] => true
  | _ :: _ => false
  end.

(** The dataclass [Filters].  Its three text fields carry the prefix [f_]
    because the row record already has projections of the same names. *)
Record Filters : Type := mkFilters {
  f_equipment_id : option string;
  f_product_line : option string;
  f_symptom_code : option string;
  start_ts_min : option Timestamp;
  start_ts_max : option Timestamp
}.

(** [Filters()] *)
Definition no_filter : Filters := mkFilters None None None None None.

(** [f or Filters()]: an instance of the dataclass is always truthy. *)
Definition or_default (f : option Filters) : Filters :=
  match f with
  | Some g => g
  | None => no_filter
  end.

(** [if f.field:] followed by [df = df[df[col] == f.field]] *)
Definition keep_str (o : option string) (col : WorkOrder -> string)
    (l : list WorkOrder) : list WorkOrder :=
  match o with
  | Some v => if Py.nonempty v then filter (fun r => String.eqb (col r) v) l else l
  | None => l
  end.

(** [if f.bound is not None:] followed by the comparison mask *)
Definition keep_ts (o : option Timestamp) (test : Timestamp -> Timestamp -> bool)
    (l : list WorkOrder) : list WorkOrder :=
  match o with
  | Some b => filter (fun r => test (start_ts r) b) l
  | None => l
  end.

Definition filter_work_orders (work_orders : DataFrame) (f : Filters) : DataFrame :=
  let df := rows work_orders in
  let df := keep_str (f_equipment_id f) equipment_id df in
  let df := keep_str (f_product_line f) product_line df in
  let df := keep_str (f_symptom_code f) symptom_code df in
  let df := keep_ts (start_ts_min f) Z.geb df in
  let df := keep_ts (start_ts_max f) Z.ltb df in
  with_rows work_orders df.

Definition count_incidents (work_orders : DataFrame) (f : option Filters) : nat :=
  let df := filter_work_orders work_orders (or_default f) in
  List.length (rows df).

Definition count_distinct_equipment (work_orders : DataFrame) (f : option Filters) : nat :=
  let df := filter_work_orders work_orders (or_default f) in
  if empty df then 0
  else Py.nunique string_dec (map equipment_id (rows df)).

Definition count_distinct_product_lines (work_orders : DataFrame) (f : option Filters) : nat :=
  let df := filter_work_orders work_orders (or_default f) in
  if empty df then 0
  else Py.nunique string_dec (map product_line (rows df)).

(** [sort_values([count, name], ascending=[False, True])] *)
Definition rank_leb (a b : string * nat) : bool :=
  (snd b <? snd a)%nat || ((snd a =? snd b)%nat && Py.str_leb (fst a) (fst b)).

(** [groupby(col).size()]: one entry per distinct key, keys ascending. *)
Definition groupby_size (keys : list string) : list (string * nat) :=
  map (fun k => (k, count_occ string_dec keys k))
      (Py.sort Py.str_leb (Py.unique string_dec keys)).

Definition top_equipment (work_orders : DataFrame) (n : Z) (f : option Filters)
    : list (string * nat) :=
  let df := filter_work_orders work_orders (or_default f) in
  if empty df then []
  else Py.head n (Py.sort rank_leb (groupby_size (map equipment_id (rows df)))).

Definition top_symptoms (work_orders : DataFrame) (n : Z) (f : option Filters)
    : list (string * nat) :=
  let df := filter_work_orders work_orders (or_default f) in
  if empty df then []
  else Py.head n (Py.sort rank_leb (groupby_size (map symptom_code (rows df)))).

(** The haystack of one row: description, newline, comments, lower-cased. *)
Definition newline : string := String (ascii_of_nat 10) EmptyString.

Definition hay (r : WorkOrder) : string :=
  Py.lower (description r ++ newline ++ comments r)%string.

(** [hay.str.contains(re.escape(kw), regex=True)]: the escaped pattern
    matches exactly the literal text [kw]. *)
Definition count_mentions (work_orders : DataFrame) (keyword : string)
    (f : option Filters) : nat :=
  let kw := Py.lower (Py.strip keyword) in
  if negb (Py.nonempty kw) then 0
  else
    let df := filter_work_orders work_orders (or_default f) in
    if empty df then 0
    else List.length (filter (fun r => Py.contains kw (hay r)) (rows df)).

(** [df[[...]].explode("technicians")]: one row per list entry; an empty
    list yields a single row with a missing value. *)
Definition explode_row {K : Type} (key : K) (cell : list (option string))
    : list (K * option string) :=
  match cell with
  | [] => [(key, None)]
  | _ => map (fun t => (key, t)) cell
  end.

(** [dropna], then [astype(str).str.strip()], then [!= ""] *)
Definition clean {K : Type} (l : list (K * option string)) : list (K * string) :=
  filter (fun p => Py.nonempty (snd p))
    (flat_map (fun p => match snd p with
                        | Some t => [(fst p, Py.strip t)]
                        | None => []
                        end) l).

Definition missing_technicians : exn :=
  ValueError "work_orders missing expected 'technicians' list column.".

(** [groupby("technicians")["work_order_id"].nunique()] *)
Definition groupby_nunique (l : list (Z * string)) : list (string * nat) :=
  map (fun k => (k, Py.nunique Z.eq_dec
                      (map fst (filter (fun p => String.eqb (snd p) k) l))))
      (Py.sort Py.str_leb (Py.unique string_dec (map snd l))).

Definition top_technicians (work_orders : DataFrame) (n : Z) (f : option Filters)
    : result (list (string * nat)) :=
  let df := filter_work_orders work_orders (or_default f) in
  if empty df then Ok []
  else if negb (has_technicians df) then Raise missing_technicians
  else
    let exploded :=
      flat_map (fun r => explode_row (work_order_id r) (technicians r)) (rows df) in
    let exploded := clean exploded in
    Ok (Py.head n (Py.sort rank_leb (groupby_nunique exploded))).

Definition count_distinct_technicians (work_orders : DataFrame) (f : option Filters)
    : result nat :=
  let df := filter_work_orders work_orders (or_default f) in
  if empty df then Ok 0
  else if negb (has_technicians df) then Raise missing_technicians
  else
    let exploded := flat_map (fun r => explode_row tt (technicians r)) (rows df) in
    let vals := map snd (clean exploded) in
    Ok (Py.nunique string_dec vals).

(** [Series.value_counts()]: distinct values with their number of
    occurrences, most frequent first. *)
Definition value_counts (l : list string) : list (string * nat) :=
  Py.sort (fun a b => (snd b <=? snd a)%nat)
    (map (fun k => (k, count_occ string_dec l k)) (Py.unique string_dec l)).

Definition most_common_symptoms (work_orders : DataFrame) (f : option Filters)
    : list (string * nat) :=
  let df := filter_work_orders work_orders (or_default f) in
  if empty df then []
  else
    let vc := value_counts (map symptom_code (rows df)) in
    match vc with
    | [] => []
    | (_, max_count) :: _ =>
        let tied := filter (fun p => (snd p =? max_count)%nat) vc in
        Py.sort (fun x y => Py.str_leb (fst x) (fst y)) tied
    end.

End Analytics.

(** ** src/data.py *)

Module Data.

(** One row of the event frame returned by [load_events]. *)
Record Event : Type := mkEvent {
  work_order_id : Z;
  equipment_id : string;
  product_line : string;
  symptom_code : string;
  description : string;
  technician : string;
  comment : string;
  start_ts : Analytics.Timestamp;
  end_ts : Analytics.Timestamp
}.

Record EventFrame : Type := mkEventFrame {
  columns : list string;
  rows : list Event
}.

Definition REQUIRED_COLUMNS : list string :=
  [ "work_order_id"; "equipment_id"; "product_line"; "start_date";
    "start_time"; "end_date"; "end_time"; "description"; "technician";
    "comment"; "symptom_code" ].

Definition has_column (df : EventFrame) (c : string) : bool :=
  existsb (String.eqb c) (columns df).

(** [repr] of a list of column names, for the error message. *)
Definition repr_list (l : list string) : string :=
  ("[" ++ Py.join ", " (map (fun c => "'" ++ c ++ "'")%string l) ++ "]")%string.

Definition _validate_columns (df : EventFrame) : result unit :=
  let missing := filter (fun c => negb (has_column df c)) REQUIRED_COLUMNS in
  match missing with
  | [] => Ok tt
  | _ => Raise (ValueError ("CSV is missing required columns: " ++ repr_list missing)%string)
  end.

(** [sort_values(["work_order_id", "start_ts", "end_ts"])] *)
Definition event_leb (a b : Event) : bool :=
  (work_order_id a <? work_order_id b)%Z
  || ((work_order_id a =? work_order_id b)%Z
      && ((start_ts a <? start_ts b)%Z
          || ((start_ts a =? start_ts b)%Z && (end_ts a <=? end_ts b)%Z))).

(** [str(x).strip()] is truthy *)
Definition nonblank (x : string) : bool := Py.nonempty (Py.strip x).

(** The loop of [_concat_comments]: [cleaned] in reverse and [last]. *)
Definition concat_step (st : list string * option string) (x : string)
    : list string * option string :=
  let t := Py.strip x in
  if negb (Py.nonempty t) then st
  else
    match snd st with
    | Some l => if String.eqb t l then st else (t :: fst st, Some t)
    | None => (t :: fst st, Some t)
    end.

Definition _concat_comments (s : list string) : string :=
  Py.join Analytics.newline (rev (fst (fold_left concat_step s ([], None)))).

Definition min_ts (x : Analytics.Timestamp) (l : list Analytics.Timestamp) :=
  fold_left Z.min l x.

Definition max_ts (x : Analytics.Timestamp) (l : list Analytics.Timestamp) :=
  fold_left Z.max l x.

(** The aggregation of one group, [e] being its first row. *)
Definition aggregate (e : Event) (g : list Event) : Analytics.WorkOrder :=
  let grp := e :: g in
  Analytics.mkWorkOrder
    (work_order_id e)
    (equipment_id e)
    (product_line e)
    (symptom_code e)
    (description e)
    (min_ts (start_ts e) (map start_ts g))
    (max_ts (end_ts e) (map end_ts g))
    (map Some (Py.sort Py.str_leb
                 (Py.unique string_dec (filter nonblank (map technician grp)))))
    (_concat_comments (map comment grp))
    (List.length grp).

(** [ev.groupby("work_order_id", as_index=False).agg(...)]: one group per
    distinct key, keys ascending, rows of a group in the order of [ev]. *)
Definition groupby_agg (ev : list Event) : list Analytics.WorkOrder :=
  let keys := Py.sort Z.leb (Py.unique Z.eq_dec (map work_order_id ev)) in
  flat_map (fun k =>
              match filter (fun e => (work_order_id e =? k)%Z) ev with
              | [] => []
              | e :: g => [aggregate e g]
              end) keys.

(** The convenience columns [start_date] and [end_date] are projections of
    [start_ts] and [end_ts] and are not represented. *)
Definition build_work_orders (events : EventFrame) : result Analytics.DataFrame :=
  _ <- _validate_columns events ;;
  if negb (has_column events "start_ts") then Raise (KeyError "start_ts")
  else if negb (has_column events "end_ts") then Raise (KeyError "end_ts")
  else
    let ev := Py.sort event_leb (rows events) in
    let agg := groupby_agg ev in
    Ok (Analytics.mkDataFrame true agg).

End Data.

(** ** src/app.py *)

Module App.
Import Regex.

(** The environment of the optional paraphrase step: the [USE_LLM]
    switch, the reachability of the endpoint, and the rewrite itself. *)
Record LLM : Type := mkLLM {
  USE_LLM : bool;
  llm_available : bool;
  synthesize_with_llm : string -> string -> string
}.

Definition maybe_llm (env : LLM) (user_question deterministic_answer : string) : string :=
  if negb (Py.nonempty deterministic_answer) then deterministic_answer
  else if Py.isdigit (Py.strip deterministic_answer) then deterministic_answer
  else if USE_LLM env && llm_available env
       then synthesize_with_llm env user_question deterministic_answer
       else deterministic_answer.

Definition _MONTH_MAP : list (string * Z) :=
  [ ("jan", 1); ("january", 1);
    ("feb", 2); ("february", 2);
    ("mar", 3); ("march", 3);
    ("apr", 4); ("april", 4);
    ("may", 5);
    ("jun", 6); ("june", 6);
    ("jul", 7); ("july", 7);
    ("aug", 8); ("august", 8);
    ("sep", 9); ("sept", 9); ("september", 9);
    ("oct", 10); ("october", 10);
    ("nov", 11); ("november", 11);
    ("dec", 12); ("december", 12) ]%Z.

(** [d[key]] on a dict: [KeyError] when the key is absent. *)
Fixpoint getitem (d : list (string * Z)) (key : string) : result Z :=
  match d with
  | [] => Raise (KeyError key)
  | (k, v) :: r => if String.eqb k key then Ok v else getitem r key
  end.

(** Concatenation and alternation of several expressions. *)
Fixpoint seq (l : list re) : re :=
  match l with
  | [] => Str ""
  | [r] => r
  | r :: t => Cat r (seq t)
  end.

Fixpoint alts (l : list re) : re :=
  match l with
  | [] => Cls (fun _ => false)
  | [r] => r
  | r :: t => Alt r (alts t)
  end.

(** [\b(20\d{2})\b] *)
Definition year_re : re :=
  seq [WordB; Grp (seq [Str "20"; Cls Py.is_digit; Cls Py.is_digit]); WordB].

Definition _year_from_query (ql : string) (default_year : Z) : Z :=
  match search year_re ql with
  | Some g => Py.int_of_digits 0 g
  | None => default_year
  end.

(** [pd.Timestamp(year=y, month=m, day=d)]: midnight of the civil date
    of the proleptic Gregorian calendar, in nanoseconds since the epoch.
    The years are those pandas accepts (1 to 9999; outside of them the
    constructor raises [ValueError], which is not modelled): a year read
    from the question lies in 2000..2099, and both front ends pass as
    [default_year] the modal year of the parsed [start_ts] column. *)
Definition days_from_civil (y m d : Z) : Z :=
  let y' := if (m <=? 2)%Z then (y - 1)%Z else y in
  let era := (y' / 400)%Z in
  let yoe := (y' - era * 400)%Z in
  let mp := if (2 <? m)%Z then (m - 3)%Z else (m + 9)%Z in
  let doy := ((153 * mp + 2) / 5 + d - 1)%Z in
  let doe := (yoe * 365 + yoe / 4 - yoe / 100 + doy)%Z in
  (era * 146097 + doe - 719468)%Z.

Definition Timestamp (y m d : Z) : Analytics.Timestamp :=
  (days_from_civil y m d * 86400000000000)%Z.

(** [pd.Timestamp(year=y, month=mon, day=1) + pd.offsets.MonthBegin(1)] *)
Definition next_month_begin (y mon : Z) : Analytics.Timestamp :=
  if (mon =? 12)%Z then Timestamp (y + 1) 1 1 else Timestamp y (mon + 1) 1.

Definition range : Type := option Analytics.Timestamp * option Analytics.Timestamp.

(** [\b(first\s+half|1st\s+half|h1)\b] *)
Definition h1_re : re :=
  seq [WordB;
       Grp (alts [seq [Str "first"; Plus Py.is_space; Str "half"];
                  seq [Str "1st"; Plus Py.is_space; Str "half"];
                  Str "h1"]);
       WordB].

(** [\b(second\s+half|2nd\s+half|h2)\b] *)
Definition h2_re : re :=
  seq [WordB;
       Grp (alts [seq [Str "second"; Plus Py.is_space; Str "half"];
                  seq [Str "2nd"; Plus Py.is_space; Str "half"];
                  Str "h2"]);
       WordB].

Definition is_match (o : option string) : bool :=
  match o with
  | Some _ => true
  | None => false
  end.

Definition _half_year_range_from_query (q : string) (default_year : Z) : range :=
  let ql := Py.lower q in
  let y := _year_from_query ql default_year in
  if is_match (search h1_re ql) then
    (Some (Timestamp y 1 1), Some (Timestamp y 7 1))
  else if is_match (search h2_re ql) then
    (Some (Timestamp y 7 1), Some (Timestamp (y + 1) 1 1))
  else (None, None).

(** [\b(jan(?:uary)?|feb(?:ruary)?|mar(?:ch)?|apr(?:il)?|may|jun(?:e)?|
      jul(?:y)?|aug(?:ust)?|sep(?:t)?(?:ember)?|oct(?:ober)?|
      nov(?:ember)?|dec(?:ember)?)\b] *)
Definition month_re : re :=
  seq [WordB;
       Grp (alts [seq [Str "jan"; Opt (Str "uary")];
                  seq [Str "feb"; Opt (Str "ruary")];
                  seq [Str "mar"; Opt (Str "ch")];
                  seq [Str "apr"; Opt (Str "il")];
                  Str "may";
                  seq [Str "jun"; Opt (Str "e")];
                  seq [Str "jul"; Opt (Str "y")];
                  seq [Str "aug"; Opt (Str "ust")];
                  seq [Str "sep"; Opt (Str "t"); Opt (Str "ember")];
                  seq [Str "oct"; Opt (Str "ober")];
                  seq [Str "nov"; Opt (Str "ember")];
                  seq [Str "dec"; Opt (Str "ember")]]);
       WordB].

Definition _month_range_from_query (q : string) (default_year : Z) : result range :=
  let ql := Py.lower q in
  match search month_re ql with
  | None => Ok (None, None)
  | Some g =>
      mon <- getitem _MONTH_MAP g ;;
      let y := _year_from_query ql default_year in
      let start := Timestamp y mon 1 in
      let end_ := next_month_begin y mon in
      Ok (Some start, Some end_)
  end.

(** The three extractors iterate over a [set]; the list argument is the
    order in which the iteration visits it. *)
Fixpoint first_known (ql : string) (known : list string) : option string :=
  match known with
  | [] => None
  | v :: r => if Py.contains (Py.lower v) ql then Some v else first_known ql r
  end.

Definition _extract_equipment_id (q : string) (known_equipment : list string)
    : option string :=
  first_known (Py.lower q) known_equipment.

Definition _extract_product_line (q : string) (known_product_lines : list string)
    : option string :=
  first_known (Py.lower q) known_product_lines.

Definition phrase_map : list (string * string) :=
  [ ("pressure fault", "PRESSURE_FAULT");
    ("spindle timeout", "SPINDLE_TIMEOUT");
    ("bearing wear", "BEARING_WEAR");
    ("hydraulic leak", "HYDRAULIC_LEAK");
    ("alignment drift", "ALIGNMENT_DRIFT");
    ("sensor failure", "SENSOR_FAILURE") ].

Fixpoint first_phrase (ql : string) (known : list string)
    (m : list (string * string)) : option string :=
  match m with
  | [] => None
  | (phrase, code) :: r =>
      if Py.contains phrase ql && existsb (String.eqb code) known
      then Some code
      else first_phrase ql known r
  end.

Definition _extract_symptom_code (q : string) (known_symptoms : list string)
    : option string :=
  let ql := Py.lower q in
  match first_known ql known_symptoms with
  | Some s => Some s
  | None => first_phrase ql known_symptoms phrase_map
  end.

Definition dquote : ascii := ascii_of_nat 34.

Definition is_quote (c : ascii) : bool :=
  Ascii.eqb c "'"%char || Ascii.eqb c dquote.

(** [Q([^Q]+)Q], where the class [Q] holds the single and the double
    quote character *)
Definition quoted_re : re :=
  seq [Cls is_quote; Grp (Plus (fun c => negb (is_quote c))); Cls is_quote].

Definition is_kw_char (c : ascii) : bool :=
  Py.is_lower_letter c || Py.is_digit c || Ascii.eqb c "_"%char || Ascii.eqb c "-"%char.

(** [\b(?:mention|mentions|contain|contains|containing)\b\s+(?:a|an|the)?\s*([a-z0-9_-]+)] *)
Definition mention_re : re :=
  seq [WordB;
       alts [Str "mention"; Str "mentions"; Str "contain"; Str "contains";
             Str "containing"];
       WordB;
       Plus Py.is_space;
       Opt (alts [Str "a"; Str "an"; Str "the"]);
       Star Py.is_space;
       Grp (Plus is_kw_char)].

Definition extract_mention_keyword (q : string) : string :=
  match search quoted_re q with
  | Some g => Py.strip g
  | None =>
      let ql := Py.lower q in
      if Py.contains "leak" ql then "leak"
      else if Py.contains "bearing" ql then "bearing"
      else
        match search mention_re ql with
        | Some g => Py.strip g
        | None => ""
        end
  end.

Definition extract_filters (q : string)
    (known_equipment known_product_lines known_symptoms : list string)
    (default_year : Z) : result Analytics.Filters :=
  let eq := _extract_equipment_id q known_equipment in
  let pl := _extract_product_line q known_product_lines in
  let sym := _extract_symptom_code q known_symptoms in
  let '(start_min, start_max) := _half_year_range_from_query q default_year in
  r <- match start_min, start_max with
       | None, None => _month_range_from_query q default_year
       | _, _ => Ok (start_min, start_max)
       end ;;
  Ok (Analytics.mkFilters eq pl sym (fst r) (snd r)).

(** The tags returned by [intent]; [tag_name] gives the Python string. *)
Inductive Intent : Type :=
| CountMentions | CompareEquipment | TopTechnician | CountDistinctTechnicians
| CountDistinctEquipment | MostCommonSymptom | TopEquipment | CountIncidents
| WhatAbout | Unknown.

Definition tag_name (t : Intent) : string :=
  match t with
  | CountMentions => "count_mentions"
  | CompareEquipment => "compare_equipment"
  | TopTechnician => "top_technician"
  | CountDistinctTechnicians => "count_distinct_technicians"
  | CountDistinctEquipment => "count_distinct_equipment"
  | MostCommonSymptom => "most_common_symptom"
  | TopEquipment => "top_equipment"
  | CountIncidents => "count_incidents"
  | WhatAbout => "what_about"
  | Unknown => "unknown"
  end.

Definition intent (q : string) : Intent :=
  let ql := Py.lower q in
  if Py.contains "mention" ql || Py.contains "mentions" ql
     || Py.contains "contain" ql || Py.contains "contains" ql
     || Py.contains "containing" ql
  then CountMentions
  else if Py.contains "which one had more" ql then CompareEquipment
  else if Py.contains "which technician handled the most" ql then TopTechnician
  else if Py.contains "how many different technicians" ql then CountDistinctTechnicians
  else if Py.contains "distinct equipment" ql || Py.contains "different equipment" ql
  then CountDistinctEquipment
  else if Py.contains "most common symptom" ql then MostCommonSymptom
  else if Py.contains "which equipment has the most incidents" ql then TopEquipment
  else if Py.contains "how many" ql || Py.contains "number of" ql then CountIncidents
  else if Py.startswith (Py.strip ql) "what about" then WhatAbout
  else Unknown.

End App.

(** ** The handler cascades: the loop of src/app.py and src/webapp.py *)

(** The module-level values both front ends compute once at start-up. *)
Record Context : Type := mkContext {
  work_orders : Analytics.DataFrame;
  known_equipment : list string;
  known_product_lines : list string;
  known_symptoms : list string;
  default_year : Z;
  llm : App.LLM
}.

Module Render.

(** [f"{name} with {n} work orders"] *)
Definition with_count (name : string) (n : nat) : string :=
  (name ++ " with " ++ Py.str_of_nat n ++ " work orders")%string.

(** The rendering of the [most_common_symptom] branch. *)
Definition tied_answer (tied : list (string * nat)) : option string :=
  match tied with
  | [] => None
  | (_, n) :: _ =>
      let names := map fst tied in
      match names with
      | [name] => Some (with_count name n)
      | _ => Some (Py.join " and " names ++ ", each with "
                     ++ Py.str_of_nat n ++ " work orders")%string
      end
  end.

(** The rendering of the [top_equipment] / [top_technician] branches:
    [None] stands for [df.empty]. *)
Definition top_answer (df : list (string * nat)) : option string :=
  match df with
  | [] => None
  | (name, n) :: _ => Some (with_count name n)
  end.

End Render.

Module AppMain.
Import App.

(** What one iteration of the [while True] loop does with a line. *)
Inductive Turn : Type :=
| Continue                 (* blank input: nothing is printed *)
| Break                    (* exit / quit *)
| Print (line : string).

Definition print_opt (env : LLM) (user : string) (o : option string) : Turn :=
  match o with
  | Some ans => Print (maybe_llm env user ans)
  | None => Print ""
  end.

Definition turn (ctx : Context) (line : string) : result Turn :=
  let user := Py.strip line in
  if negb (Py.nonempty user) then Ok Continue
  else if String.eqb (Py.lower user) "exit" || String.eqb (Py.lower user) "quit"
  then Ok Break
  else
    f <- extract_filters user (known_equipment ctx) (known_product_lines ctx)
           (known_symptoms ctx) (default_year ctx) ;;
    let wo := work_orders ctx in
    match intent user with
    | CountMentions =>
        let kw := extract_mention_keyword user in
        let n := Analytics.count_mentions wo kw (Some f) in
        Ok (Print (maybe_llm (llm ctx) user (Py.str_of_nat n)))
    | CountIncidents =>
        let n := Analytics.count_incidents wo (Some f) in
        Ok (Print (maybe_llm (llm ctx) user (Py.str_of_nat n)))
    | CountDistinctEquipment =>
        let df := Analytics.rows wo in
        let df := Analytics.keep_str (Analytics.f_equipment_id f) Analytics.equipment_id df in
        let df := Analytics.keep_str (Analytics.f_product_line f) Analytics.product_line df in
        let df := Analytics.keep_str (Analytics.f_symptom_code f) Analytics.symptom_code df in
        let df := Analytics.keep_ts (Analytics.start_ts_min f) Z.geb df in
        let df := Analytics.keep_ts (Analytics.start_ts_max f) Z.ltb df in
        let n := Py.nunique string_dec (map Analytics.equipment_id df) in
        Ok (Print (maybe_llm (llm ctx) user (Py.str_of_nat n)))
    | CountDistinctTechnicians =>
        n <- Analytics.count_distinct_technicians wo (Some f) ;;
        Ok (Print (maybe_llm (llm ctx) user (Py.str_of_nat n)))
    | MostCommonSymptom =>
        let tied := Analytics.most_common_symptoms wo (Some f) in
        Ok (print_opt (llm ctx) user (Render.tied_answer tied))
    | TopEquipment =>
        let df := Analytics.top_equipment wo 1 (Some Analytics.no_filter) in
        Ok (print_opt (llm ctx) user (Render.top_answer df))
    | TopTechnician =>
        df <- Analytics.top_technicians wo 1 (Some Analytics.no_filter) ;;
        Ok (print_opt (llm ctx) user (Render.top_answer df))
    | CompareEquipment | WhatAbout | Unknown => Ok (Print "")
    end.

End AppMain.

Module Webapp.
Import App.

Definition reply (env : LLM) (user : string) (o : option string) : string :=
  match o with
  | Some ans => maybe_llm env user ans
  | None => ""
  end.

Definition answer_question (ctx : Context) (user : string) : result string :=
  let user := Py.strip user in
  if negb (Py.nonempty user) then Ok ""
  else
    f <- extract_filters user (known_equipment ctx) (known_product_lines ctx)
           (known_symptoms ctx) (default_year ctx) ;;
    let wo := work_orders ctx in
    match intent user with
    | CountMentions =>
        let kw := extract_mention_keyword user in
        let n := Analytics.count_mentions wo kw (Some f) in
        Ok (maybe_llm (llm ctx) user (Py.str_of_nat n))
    | CountIncidents =>
        let n := Analytics.count_incidents wo (Some f) in
        Ok (maybe_llm (llm ctx) user (Py.str_of_nat n))
    | CountDistinctTechnicians =>
        n <- Analytics.count_distinct_technicians wo (Some f) ;;
        Ok (maybe_llm (llm ctx) user (Py.str_of_nat n))
    | MostCommonSymptom =>
        let tied := Analytics.most_common_symptoms wo (Some f) in
        Ok (reply (llm ctx) user (Render.tied_answer tied))
    | TopEquipment =>
        let df := Analytics.top_equipment wo 1 (Some Analytics.no_filter) in
        Ok (reply (llm ctx) user (Render.top_answer df))
    | TopTechnician =>
        df <- Analytics.top_technicians wo 1 (Some Analytics.no_filter) ;;
        Ok (reply (llm ctx) user (Render.top_answer df))
    | CountDistinctEquipment | CompareEquipment | WhatAbout | Unknown => Ok ""
    end.

End Webapp.

(** ** src/retrieval.py *)

Module Retrieval.

(** [str.replace(r"\s+", " ", regex=True)]: every maximal run of whitespace
    becomes one blank; [in_run] tells that the previous character was
    whitespace. *)
Fixpoint squeeze (in_run : bool) (s : string) : string :=
  match s with
  | EmptyString => EmptyString
  | String c r =>
      if Py.is_space c
      then if in_run then squeeze true r else String " " (squeeze true r)
      else String c (squeeze false r)
  end.

(** The entry of [build_search_text] for one row. *)
Definition build_search_text (r : Analytics.WorkOrder) : string :=
  let equipment := Py.strip (Analytics.equipment_id r) in
  let product := Py.strip (Analytics.product_line r) in
  let symptom := Py.strip (Analytics.symptom_code r) in
  let desc := Py.strip (Analytics.description r) in
  let comm := Py.strip (Analytics.comments r) in
  let text :=
    Py.lower (equipment ++ " " ++ product ++ " " ++ symptom ++ Analytics.newline
              ++ desc ++ Analytics.newline ++ comm)%string in
  Py.strip (squeeze false text).

(** The class [[a-z0-9]] of [_WORD_RE]. *)
Definition is_tok_char (c : ascii) : bool := Py.is_lower_letter c || Py.is_digit c.

(** [_WORD_RE.findall(s)]: the maximal runs of [[a-z0-9]], left to right;
    [cur] is the run being read. *)
Fixpoint findall (cur : string) (s : string) : list string :=
  match s with
  | EmptyString => if Py.nonempty cur then [cur] else []
  | String c r =>
      if is_tok_char c then findall (cur ++ String c EmptyString) r
      else if Py.nonempty cur then cur :: findall EmptyString r
           else findall EmptyString r
  end.

Definition _tokenize (text : string) : list string := findall EmptyString (Py.lower text).

(** The loop over [set(query_tokens)] adds 2 per token found; the order in
    which the set is visited does not matter for the sum. *)
Definition _score_text (doc_text : string) (query_tokens : list string)
    (query_phrase : string) : nat :=
  let score :=
    fold_left (fun score tok =>
                 if Py.nonempty tok && Py.contains tok doc_text then score + 2 else score)
      (Py.unique string_dec query_tokens) 0 in
  if Py.nonempty query_phrase && Py.contains query_phrase doc_text
  then score + 5 else score.

(** [s.find(sub)]: the index of the first occurrence, or -1. *)
Fixpoint find_from (i : Z) (sub s : string) : Z :=
  if String.prefix sub s then i
  else match s with
       | EmptyString => (-1)%Z
       | String _ r => find_from (i + 1) sub r
       end.

Definition find (s sub : string) : Z := find_from 0 sub s.

(** [s[start:stop]] with Python's treatment of negative and out-of-range
    indices. *)
Definition clamp (len i : Z) : Z :=
  if (i <? 0)%Z then Z.max 0 (i + len) else Z.min i len.

Definition slice (s : string) (start stop : Z) : string :=
  let len := Z.of_nat (String.length s) in
  let a := clamp len start in
  let b := clamp len stop in
  String.substring (Z.to_nat a) (Z.to_nat (b - a)) s.

Fixpoint snippet_loop (doc_text : string) (toks : list string) (window : Z)
    : option string :=
  match toks with
  | [] => None
  | tok :: rest =>
      let pos := find doc_text tok in
      if negb (pos =? -1)%Z then
        let start := Z.max 0 (pos - window) in
        let end_ := Z.min (Z.of_nat (String.length doc_text)) (pos + window) in
        Some (Py.strip (slice doc_text start end_))
      else snippet_loop doc_text rest window
  end.

Definition _make_snippet (doc_text : string) (query_tokens : list string)
    (window : Z) : string :=
  match snippet_loop doc_text query_tokens window with
  | Some s => s
  | None => Py.strip (slice doc_text 0 (2 * window))
  end.

(** One row of the frame [search_work_orders] returns. *)
Record Hit : Type := mkHit {
  work_order_id : Z;
  equipment_id : string;
  symptom_code : string;
  start_ts : Analytics.Timestamp;
  score : nat;
  snippet : string
}.

(** [sort_values(["score", "start_ts"], ascending=[False, False])] *)
Definition hit_leb (a b : Hit) : bool :=
  (score b <? score a)%nat
  || ((score a =? score b)%nat && (start_ts b <=? start_ts a)%Z).

Definition empty_query : exn := ValueError "Query is empty after tokenization.".

(** [k] is [None] or an [int], [f] is [None] or a [Filters]. *)
Definition search_work_orders (work_orders : Analytics.DataFrame) (query : string)
    (k : option Z) (f : option Analytics.Filters) : result (list Hit) :=
  let f := Analytics.or_default f in
  let df := Analytics.filter_work_orders work_orders f in
  if Analytics.empty df then Ok []
  else
    let query := Py.lower (Py.strip query) in
    let query_tokens := _tokenize query in
    match query_tokens with
    | [] => Raise empty_query
    | _ :: _ =>
        let query_tokens :=
          match Analytics.f_equipment_id f with
          | Some e =>
              if Py.nonempty e
              then filter (fun t => negb (String.eqb t (Py.lower e))) query_tokens
              else query_tokens
          | None => query_tokens
          end in
        let scored :=
          map (fun r =>
                 let doc_text := build_search_text r in
                 mkHit (Analytics.work_order_id r) (Analytics.equipment_id r)
                   (Analytics.symptom_code r) (Analytics.start_ts r)
                   (_score_text doc_text query_tokens query)
                   (_make_snippet doc_text query_tokens 120))
              (Analytics.rows df) in
        let min_score :=
          if (2 <=? List.length (Py.unique string_dec query_tokens))%nat then 4 else 2 in
        let ranked :=
          Py.sort hit_leb (filter (fun h => (min_score <=? score h)%nat) scored) in
        let ranked :=
          match k with
          | Some n => Py.head n ranked
          | None => ranked
          end in
        Ok ranked
    end.

End Retrieval.

(** ** The question history of src/webapp.py *)

Module History.

(** One entry of [session["history"]]. *)
Record Entry : Type := mkEntry {
  ts : string;
  q : string;
  a : string
}.

(** The session holds a list under "history", or nothing usable
    ([None]: the key is absent or its value is not a list). *)
Definition Session : Type := option (list Entry).

Definition get_history (session : Session) : list Entry :=
  match session with
  | Some hist => hist
  | None => []
  end.

(** [hist[-n:]] for a positive [n] *)
Definition last_n {A : Type} (n : nat) (l : list A) : list A :=
  skipn (List.length l - n) l.

(** [now] is the text of [datetime.now().strftime(...)]. *)
Definition push_history (session : Session) (now q a : string) : Session :=
  let hist := get_history session in
  let hist := hist ++ [mkEntry now q a] in
  let hist := last_n 30 hist in
  Some hist.

Definition clear_history (session : Session) : Session := Some [].

(** The POST branch of [home]: the form field, the clock and the session
    in, the session out. *)
Definition home_post (answer_question : string -> result string)
    (session : Session) (now form_question : string) : result Session :=
  let question := Py.strip form_question in
  if Py.nonempty question then
    answer <- answer_question question ;;
    Ok (push_history session now question answer)
  else Ok session.

End History.

(** * Specification vocabulary

    The notions the statements below are phrased with. *)

(** The identifiers of the incidents of a frame. *)
Definition ids (df : Analytics.DataFrame) : list Z :=
  map Analytics.work_order_id (Analytics.rows df).

(** The test a text field of a filter imposes on a cell: none when the
    field is unset (or holds the empty string, which [if f.field:] skips). *)
Definition str_test (o : option string) (v : string) : bool :=
  match o with
  | Some s => if Py.nonempty s then String.eqb v s else true
  | None => true
  end.

Definition ts_test (o : option Analytics.Timestamp)
    (test : Analytics.Timestamp -> Analytics.Timestamp -> bool)
    (v : Analytics.Timestamp) : bool :=
  match o with
  | Some b => test v b
  | None => true
  end.

(** The conjunction of the five tests. *)
Definition matches (f : Analytics.Filters) (r : Analytics.WorkOrder) : bool :=
  str_test (Analytics.f_equipment_id f) (Analytics.equipment_id r)
  && str_test (Analytics.f_product_line f) (Analytics.product_line r)
  && str_test (Analytics.f_symptom_code f) (Analytics.symptom_code r)
  && ts_test (Analytics.start_ts_min f) Z.geb (Analytics.start_ts r)
  && ts_test (Analytics.start_ts_max f) Z.ltb (Analytics.start_ts r).

(** [carries n w]: every field populated in [w] is populated in [n] with
    the same value. *)
Definition carries_field {V : Type} (n w : option V) : Prop :=
  forall v, w = Some v -> n = Some v.

Definition carries (n w : Analytics.Filters) : Prop :=
  carries_field (Analytics.f_equipment_id n) (Analytics.f_equipment_id w)
  /\ carries_field (Analytics.f_product_line n) (Analytics.f_product_line w)
  /\ carries_field (Analytics.f_symptom_code n) (Analytics.f_symptom_code w)
  /\ carries_field (Analytics.start_ts_min n) (Analytics.start_ts_min w)
  /\ carries_field (Analytics.start_ts_max n) (Analytics.start_ts_max w).

(** The number of populated fields of a filter. *)
Definition populated {V : Type} (o : option V) : nat :=
  match o with
  | Some _ => 1
  | None => 0
  end.

Definition n_populated (f : Analytics.Filters) : nat :=
  populated (Analytics.f_equipment_id f) + populated (Analytics.f_product_line f)
  + populated (Analytics.f_symptom_code f) + populated (Analytics.start_ts_min f)
  + populated (Analytics.start_ts_max f).

(** [n] is strictly narrower than [w]: it carries the fields of [w] and
    populates at least one more. *)
Definition narrower (n w : Analytics.Filters) : Prop :=
  carries n w /\ n_populated w < n_populated n.

(** The frequency of a symptom code among the rows of a frame. *)
Definition freq (df : Analytics.DataFrame) (c : string) : nat :=
  count_occ string_dec (map Analytics.symptom_code (Analytics.rows df)) c.

(** Alphabetical order on the code of a (code, count) pair. *)
Definition code_lt (a b : string * nat) : Prop := Py.str_lt (fst a) (fst b).

(** The technician names of an incident: missing entries dropped, the others
    stripped, blank ones dropped. *)
Definition names (r : Analytics.WorkOrder) : list string :=
  filter Py.nonempty
    (flat_map (fun t => match t with
                        | Some s => [Py.strip s]
                        | None => []
                        end) (Analytics.technicians r)).

Definition worked_on (name : string) (r : Analytics.WorkOrder) : bool :=
  existsb (String.eqb name) (names r).

(** The number of distinct work_order_ids among the incidents of [l] a
    technician took part in. *)
Definition distinct_orders (l : list Analytics.WorkOrder) (name : string) : nat :=
  Py.nunique Z.eq_dec (map Analytics.work_order_id (filter (worked_on name) l)).

(** The number of (incident, technician) rows of the exploded frame that
    carry the technician: the count [top_technicians] does not use. *)
Definition exploded_rows (l : list Analytics.WorkOrder) (name : string) : nat :=
  list_sum (map (fun r => count_occ string_dec (names r) name) l).

(** Count descending, then name ascending. *)
Definition rank_lt (a b : string * nat) : Prop :=
  snd b < snd a \/ (snd a = snd b /\ Py.str_lt (fst a) (fst b)).

(** [count_mentions] read with the keyword taken as it is given: the
    number of filtered incidents whose text contains the keyword as a
    case-insensitive literal substring, and 0 for the empty keyword. *)
Definition count_mentions_verbatim (wo : Analytics.DataFrame) (keyword : string)
    (f : option Analytics.Filters) : nat :=
  if negb (Py.nonempty keyword) then 0
  else
    List.length
      (filter (fun r => Py.contains (Py.lower keyword) (Analytics.hay r))
         (Analytics.rows (Analytics.filter_work_orders wo (Analytics.or_default f)))).

(** The text searched for one incident, before lower-casing. *)
Definition text_of (r : Analytics.WorkOrder) : string :=
  (Analytics.description r ++ Analytics.newline ++ Analytics.comments r)%string.

(** [ci_substring key t]: some slice of [t] equals [key] up to case. *)
Definition ci_substring (key t : string) : Prop :=
  exists p m q, t = (p ++ m ++ q)%string /\ Py.lower m = Py.lower key.

(** An ordered cascade of (test, tag) rules over the lower-cased text, the
    first matching rule winning and [Unknown] being the default. *)
Fixpoint first_match (rules : list ((string -> bool) * App.Intent)) (ql : string)
    : App.Intent :=
  match rules with
  | [] => App.Unknown
  | (test, tag) :: rest => if test ql then tag else first_match rest ql
  end.

Definition any_of (subs : list string) (ql : string) : bool :=
  existsb (fun s => Py.contains s ql) subs.

(** The nine rules; the test of the last one is a parameter. *)
Definition cascade (what_about : string -> bool)
    : list ((string -> bool) * App.Intent) :=
  [ (any_of ["mention"; "mentions"; "contain"; "contains"; "containing"],
     App.CountMentions);
    (any_of ["which one had more"], App.CompareEquipment);
    (any_of ["which technician handled the most"], App.TopTechnician);
    (any_of ["how many different technicians"], App.CountDistinctTechnicians);
    (any_of ["distinct equipment"; "different equipment"], App.CountDistinctEquipment);
    (any_of ["most common symptom"], App.MostCommonSymptom);
    (any_of ["which equipment has the most incidents"], App.TopEquipment);
    (any_of ["how many"; "number of"], App.CountIncidents);
    (what_about, App.WhatAbout) ].

(** The last rule as worded: the text starts with "what about". *)
Definition intent_verbatim (q : string) : App.Intent :=
  first_match (cascade (fun ql => Py.startswith ql "what about")) (Py.lower q).

(** The last rule as coded: the text starts with "what about" once the
    surrounding whitespace is removed. *)
Definition intent_cascade (q : string) : App.Intent :=
  first_match (cascade (fun ql => Py.startswith (Py.strip ql) "what about"))
    (Py.lower q).

(** A valid event frame carries the required columns and the two parsed
    timestamp columns, as [load_events] returns it. *)
Definition valid_events (events : Data.EventFrame) : Prop :=
  forallb (Data.has_column events) (Data.REQUIRED_COLUMNS ++ ["start_ts"; "end_ts"]) = true.

(** The source events of an incident. *)
Definition events_of (events : Data.EventFrame) (id : Z) : list Data.Event :=
  filter (fun e => (Data.work_order_id e =? id)%Z) (Data.rows events).

(** The answer when the paraphrase step is off. *)
Definition plain (o : option string) : string :=
  match o with
  | Some ans => ans
  | None => ""
  end.

(** The two intents whose handlers pass [Filters()] to the aggregation. *)
Definition global_intent (t : App.Intent) : bool :=
  match t with
  | App.TopEquipment | App.TopTechnician => true
  | _ => false
  end.

(** ** Sample data used by the examples *)

Definition demo_rows : list Analytics.WorkOrder :=
  [ Analytics.mkWorkOrder 1 "CNC-01" "Line A" "BEARING_WEAR" "Spindle bearing noise"
      (App.Timestamp 2024 7 3) (App.Timestamp 2024 7 4)
      [Some "Alice"; Some "Bob"] "Replaced bearing" 2;
    Analytics.mkWorkOrder 2 "CNC-02" "Line A" "SPINDLE_TIMEOUT" "Spindle timeout on start"
      (App.Timestamp 2024 7 10) (App.Timestamp 2024 7 10)
      [Some "Alice"] "Oil LEAK near pump" 1;
    Analytics.mkWorkOrder 3 "CNC-01" "Line B" "BEARING_WEAR" "Bearing worn"
      (App.Timestamp 2024 8 1) (App.Timestamp 2024 8 2)
      [Some "Carol"; None; Some "  "] "" 1;
    Analytics.mkWorkOrder 4 "PRESS-07" "Line B" "SPINDLE_TIMEOUT" "Timeout"
      (App.Timestamp 2023 7 15) (App.Timestamp 2023 7 15)
      [] "checked" 1;
    Analytics.mkWorkOrder 5 "CNC-02" "Line A" "HYDRAULIC_LEAK" "Hydraulic leak"
      (App.Timestamp 2024 9 9) (App.Timestamp 2024 9 9)
      [Some " Bob "; Some "Bob"] "Tightened fitting" 2 ].

Definition demo_orders : Analytics.DataFrame := Analytics.mkDataFrame true demo_rows.

(** The same incidents in a frame that has no technicians column. *)
Definition legacy_orders : Analytics.DataFrame := Analytics.mkDataFrame false demo_rows.

Definition only_equipment (e : string) : Analytics.Filters :=
  Analytics.mkFilters (Some e) None None None None.

Definition no_llm : App.LLM := App.mkLLM false false (fun _ ans => ans).

Definition demo_ctx : Context :=
  mkContext demo_orders ["CNC-01"; "CNC-02"; "PRESS-07"] ["Line A"; "Line B"]
    ["BEARING_WEAR"; "SPINDLE_TIMEOUT"; "HYDRAULIC_LEAK"] 2024 no_llm.

Definition demo_events : Data.EventFrame :=
  Data.mkEventFrame (Data.REQUIRED_COLUMNS ++ ["start_ts"; "end_ts"])
    [ Data.mkEvent 1 "CNC-01" "Line A" "BEARING_WEAR" "Noise" "Alice" "first look"
        (App.Timestamp 2024 7 3) (App.Timestamp 2024 7 3);
      Data.mkEvent 2 "CNC-02" "Line A" "SPINDLE_TIMEOUT" "Timeout" "Carol" ""
        (App.Timestamp 2024 7 10) (App.Timestamp 2024 7 10);
      Data.mkEvent 1 "CNC-01" "Line A" "BEARING_WEAR" "Noise" "Bob" "replaced"
        (App.Timestamp 2024 7 2) (App.Timestamp 2024 7 5);
      Data.mkEvent 1 "CNC-01" "Line A" "BEARING_WEAR" "Noise" "Alice" "replaced"
        (App.Timestamp 2024 7 4) (App.Timestamp 2024 7 4) ].

Definition q_top : string := "Which equipment has the most incidents in July for CNC-02?".

Definition f_top : Analytics.Filters :=
  Analytics.mkFilters (Some "CNC-02") None None
    (Some (App.Timestamp 2024 7 1)) (Some (App.Timestamp 2024 8 1)).

(** The words the month pattern can capture: the keys of [_MONTH_MAP] and
    one more. *)
Definition month_words : list string := map fst App._MONTH_MAP ++ ["sepember"].

(** The list [cleaned] that [_concat_comments] joins. *)
Definition cleaned (s : list string) : list string :=
  rev (fst (fold_left Data.concat_step s ([], None))).

(** No two neighbours of the list are equal. *)
Definition no_adjacent_dup (l : list string) : Prop :=
  forall l1 x y l2, l = l1 ++ x :: y :: l2 -> x <> y.

(** One day in the unit of a Timestamp. *)
Definition day : Z := 86400000000000.

(** What the command-line loop prints for an answer of the web entry point. *)
Definition printed (r : result string) : result AppMain.Turn :=
  match r with
  | Ok ans => Ok (AppMain.Print ans)
  | Raise e => Raise e
  end.

Definition q_sepember : string := "Which technician handled the most incidents in sepember?".

(** Every character of a text passes a test. *)
Fixpoint string_forall (p : ascii -> bool) (s : string) : bool :=
  match s with
  | EmptyString => true
  | String c r => p c && string_forall p r
  end.

(** The tokens [search_work_orders] scores with: the tokens of the
    normalised query, minus the lower-cased equipment id of the filter. *)
Definition scoring_tokens (f : Analytics.Filters) (query : string) : list string :=
  let toks := Retrieval._tokenize (Py.lower (Py.strip query)) in
  match Analytics.f_equipment_id f with
  | Some e => if Py.nonempty e
              then filter (fun t => negb (String.eqb t (Py.lower e))) toks
              else toks
  | None => toks
  end.

(** The hit a row gives for a list of tokens and a phrase. *)
Definition hit_of (toks : list string) (phrase : string) (r : Analytics.WorkOrder)
    : Retrieval.Hit :=
  Retrieval.mkHit (Analytics.work_order_id r) (Analytics.equipment_id r)
    (Analytics.symptom_code r) (Analytics.start_ts r)
    (Retrieval._score_text (Retrieval.build_search_text r) toks phrase)
    (Retrieval._make_snippet (Retrieval.build_search_text r) toks 120).

(** Sample rows whose equipment ids are single tokens. *)
Definition plain_rows : list Analytics.WorkOrder :=
  [ Analytics.mkWorkOrder 1 "PRESS7" "Line A" "LEAK" "oil leak"
      (App.Timestamp 2024 7 3) (App.Timestamp 2024 7 4) [Some "Alice"] "" 1;
    Analytics.mkWorkOrder 2 "LATHE2" "Line A" "LEAK" "oil leak at press7"
      (App.Timestamp 2024 7 5) (App.Timestamp 2024 7 6) [Some "Bob"] "" 1 ].

Definition plain_orders : Analytics.DataFrame := Analytics.mkDataFrame true plain_rows.

(** The threshold [min_score] of [search_work_orders]. *)
Definition min_score (toks : list string) : nat :=
  if (2 <=? List.length (Py.unique string_dec toks))%nat then 4 else 2.

(** [ranked.head(k)] when [k] is not [None]. *)
Definition truncate {A : Type} (k : option Z) (l : list A) : list A :=
  match k with
  | Some n => Py.head n l
  | None => l
  end.

(** A paraphrase endpoint that is switched on and reachable, and whose
    rewrite puts the question in front of the answer. *)
Definition echo_llm : App.LLM :=
  App.mkLLM true true (fun question ans => (question ++ " " ++ ans)%string).

Definition echo_ctx : Context :=
  mkContext demo_orders ["CNC-01"; "CNC-02"; "PRESS-07"] ["Line A"; "Line B"]
    ["BEARING_WEAR"; "SPINDLE_TIMEOUT"; "HYDRAULIC_LEAK"] 2024 echo_llm.

Definition q_top_plain : string := "Which equipment has the most incidents?".

Definition q_technician : string := "Which technician handled the most incidents?".

(** An event log whose only technician cell is blank, and the incident
    table [build_work_orders] makes of it. *)
Definition unstaffed_events : Data.EventFrame :=
  Data.mkEventFrame (Data.REQUIRED_COLUMNS ++ ["start_ts"; "end_ts"])
    [ Data.mkEvent 1 "CNC-01" "Line A" "BEARING_WEAR" "Noise" "" "checked"
        (App.Timestamp 2024 7 3) (App.Timestamp 2024 7 3) ].

Definition unstaffed_orders : Analytics.DataFrame :=
  Analytics.mkDataFrame true
    [ Analytics.mkWorkOrder 1 "CNC-01" "Line A" "BEARING_WEAR" "Noise"
        (App.Timestamp 2024 7 3) (App.Timestamp 2024 7 3) [] "checked" 1 ].

Definition unstaffed_ctx : Context :=
  mkContext unstaffed_orders ["CNC-01"] ["Line A"] ["BEARING_WEAR"] 2024 no_llm.

(** The reading of the two global intents in which every such question is
    answered by a text "<id> with <n> work orders" and two questions of
    the same intent get the same answer. *)
Definition global_answers_verbatim (ctx : Context) : Prop :=
  forall q, global_intent (App.intent (Py.strip q)) = true ->
    (exists id n,
       Webapp.answer_question ctx q
       = Ok (id ++ " with " ++ Py.str_of_nat n ++ " work orders")%string)
    /\ (forall q', App.intent (Py.strip q') = App.intent (Py.strip q) ->
          Webapp.answer_question ctx q' = Webapp.answer_question ctx q).

(** * Properties *)

Local Open Scope nat_scope.

(** ** Facts about the Python primitives *)

Section ListFacts.
Context {A : Type} (dec : forall x y : A, {x = y} + {x <> y}).

Lemma unique_In (l : list A) (x : A) : In x (Py.unique dec l) <-> In x l.
Proof.
  unfold Py.unique.
  rewrite <- in_rev, nodup_In, <- in_rev.
  reflexivity.
Qed.

Lemma unique_NoDup (l : list A) : NoDup (Py.unique dec l).
Proof.
  unfold Py.unique.
  apply NoDup_rev, NoDup_nodup.
Qed.

Lemma unique_nil (l : list A) : Py.unique dec l = [] -> l = [].
Proof.
  intros H.
  destruct l as [|a l]; [reflexivity|].
  assert (Hin : In a (Py.unique dec (a :: l))) by (apply unique_In; now left).
  rewrite H in Hin.
  destruct Hin.
Qed.

(** Two duplicate-free lists with the same members have the same length. *)
Lemma NoDup_same_length (l1 l2 : list A) :
  NoDup l1 -> NoDup l2 -> (forall x, In x l1 <-> In x l2) ->
  List.length l1 = List.length l2.
Proof.
  intros H1 H2 Hiff.
  apply Permutation_length, NoDup_Permutation; assumption.
Qed.

Lemma nunique_ext (l1 l2 : list A) :
  (forall x, In x l1 <-> In x l2) -> Py.nunique dec l1 = Py.nunique dec l2.
Proof.
  intros Hiff.
  unfold Py.nunique.
  apply NoDup_same_length; try apply unique_NoDup.
  intros x.
  rewrite !unique_In.
  apply Hiff.
Qed.
End ListFacts.

Section SortFacts.
Context {A : Type} (le : A -> A -> bool).

Lemma insert_perm (x : A) (l : list A) : Permutation (Py.insert le x l) (x :: l).
Proof.
  induction l as [|y r IH]; simpl.
  - apply Permutation_refl.
  - destruct (le x y).
    + apply Permutation_refl.
    + eapply perm_trans; [apply perm_skip, IH | apply perm_swap].
Qed.

Lemma sort_perm (l : list A) : Permutation (Py.sort le l) l.
Proof.
  induction l as [|x r IH]; simpl.
  - constructor.
  - eapply perm_trans; [apply insert_perm | apply perm_skip, IH].
Qed.

Lemma sort_In (l : list A) (x : A) : In x (Py.sort le l) <-> In x l.
Proof.
  split; apply Permutation_in; [| symmetry]; apply sort_perm.
Qed.

Lemma sort_length (l : list A) : List.length (Py.sort le l) = List.length l.
Proof. apply Permutation_length, sort_perm. Qed.

Lemma sort_map_NoDup {B : Type} (g : A -> B) (l : list A) :
  NoDup (map g l) -> NoDup (map g (Py.sort le l)).
Proof.
  apply Permutation_NoDup, Permutation_map.
  symmetry.
  apply sort_perm.
Qed.

Hypothesis le_total : forall a b, le a b = true \/ le b a = true.
Hypothesis le_trans : forall a b c, le a b = true -> le b c = true -> le a c = true.

Lemma insert_sorted (x : A) (l : list A) :
  StronglySorted (fun a b => le a b = true) l ->
  StronglySorted (fun a b => le a b = true) (Py.insert le x l).
Proof.
  induction 1 as [|y r Hr IH Hall]; simpl.
  - repeat constructor.
  - destruct (le x y) eqn:Hxy.
    + constructor; [constructor; assumption|].
      constructor; [exact Hxy|].
      eapply Forall_impl; [|exact Hall].
      intros z Hz.
      exact (le_trans _ _ _ Hxy Hz).
    + constructor; [exact IH|].
      assert (Hyx : le y x = true) by (destruct (le_total x y); [congruence | assumption]).
      eapply Permutation_Forall; [symmetry; apply insert_perm|].
      constructor; assumption.
Qed.

Lemma sort_sorted (l : list A) : StronglySorted (fun a b => le a b = true) (Py.sort le l).
Proof.
  induction l as [|x r IH]; simpl.
  - constructor.
  - apply insert_sorted, IH.
Qed.
End SortFacts.

(** A strict order leaves one way to arrange a given set of elements. *)
Section SortedUnique.
Context {A : Type} (lt : A -> A -> Prop).
Hypothesis lt_irrefl : forall a, ~ lt a a.
Hypothesis lt_trans : forall a b c, lt a b -> lt b c -> lt a c.

Lemma sorted_head_eq (a b : A) (l1 l2 : list A) :
  StronglySorted lt (a :: l1) -> StronglySorted lt (b :: l2) ->
  (forall x, In x (a :: l1) <-> In x (b :: l2)) -> a = b.
Proof.
  intros H1 H2 Hiff.
  apply StronglySorted_inv in H1 as [_ Ha].
  apply StronglySorted_inv in H2 as [_ Hb].
  rewrite Forall_forall in Ha, Hb.
  destruct (proj1 (Hiff a) (or_introl eq_refl)) as [E | Hin]; [now symmetry|].
  destruct (proj2 (Hiff b) (or_introl eq_refl)) as [E | Hin']; [assumption|].
  exfalso.
  apply (lt_irrefl a), (lt_trans a b a); [apply Ha | apply Hb]; assumption.
Qed.

Lemma sorted_unique (l1 l2 : list A) :
  StronglySorted lt l1 -> StronglySorted lt l2 ->
  (forall x, In x l1 <-> In x l2) -> l1 = l2.
Proof.
  revert l2.
  induction l1 as [|a l1 IH]; intros [|b l2] H1 H2 Hiff.
  - reflexivity.
  - destruct (proj2 (Hiff b) (or_introl eq_refl)).
  - destruct (proj1 (Hiff a) (or_introl eq_refl)).
  - assert (a = b) by (eapply sorted_head_eq; eassumption).
    subst b.
    f_equal.
    pose proof (StronglySorted_inv H1) as [S1 F1].
    pose proof (StronglySorted_inv H2) as [S2 F2].
    rewrite Forall_forall in F1, F2.
    apply IH; try assumption.
    intros x; split; intros Hx.
    + destruct (proj1 (Hiff x) (or_intror Hx)) as [E | ?]; [|assumption].
      subst x. destruct (lt_irrefl a (F1 a Hx)).
    + destruct (proj2 (Hiff x) (or_intror Hx)) as [E | ?]; [|assumption].
      subst x. destruct (lt_irrefl a (F2 a Hx)).
Qed.
End SortedUnique.

(** Sorted for a non-strict comparison, with pairwise distinct keys, is
    sorted for the strict one. *)
Lemma sorted_strengthen {A K : Type} (R S : A -> A -> Prop) (key : A -> K) (l : list A) :
  (forall a b, R a b -> key a <> key b -> S a b) ->
  StronglySorted R l -> NoDup (map key l) -> StronglySorted S l.
Proof.
  intros HRS HR.
  induction HR as [|a l Hl IH Hall]; intros Hnd; simpl in Hnd.
  - constructor.
  - apply NoDup_cons_iff in Hnd as [Hnotin Hnd].
    constructor; [apply IH, Hnd|].
    rewrite Forall_forall in Hall |- *.
    intros b Hb.
    apply HRS; [apply Hall, Hb|].
    intros E.
    apply Hnotin.
    rewrite E.
    apply in_map, Hb.
Qed.

(** Code-point order on strings. *)
Lemma str_leb_total (a b : string) : Py.str_leb a b = true \/ Py.str_leb b a = true.
Proof.
  unfold Py.str_leb.
  destruct (String_as_OT.compare_spec a b) as [E | L | G].
  - now left.
  - now left.
  - right.
    destruct (String_as_OT.compare_spec b a) as [E' | L' | G']; try reflexivity.
    exfalso.
    exact (StrictOrder_Irreflexive a (StrictOrder_Transitive _ _ _ G' G)).
Qed.

Lemma str_leb_iff (a b : string) : Py.str_leb a b = true <-> a = b \/ Py.str_lt a b.
Proof.
  unfold Py.str_leb, Py.str_lt.
  destruct (String_as_OT.compare_spec a b) as [E | L | G]; split; intros H;
    try reflexivity; try discriminate; auto.
  exfalso.
  destruct H as [E | L].
  - subst b. exact (StrictOrder_Irreflexive a G).
  - exact (StrictOrder_Irreflexive a (StrictOrder_Transitive _ _ _ L G)).
Qed.

Lemma str_leb_trans (a b c : string) :
  Py.str_leb a b = true -> Py.str_leb b c = true -> Py.str_leb a c = true.
Proof.
  rewrite !str_leb_iff.
  intros [E1 | L1] [E2 | L2]; subst; auto.
  right.
  exact (StrictOrder_Transitive _ _ _ L1 L2).
Qed.

Lemma str_lt_irrefl (a : string) : ~ Py.str_lt a a.
Proof. exact (StrictOrder_Irreflexive a). Qed.

Lemma str_lt_trans (a b c : string) : Py.str_lt a b -> Py.str_lt b c -> Py.str_lt a c.
Proof. exact (StrictOrder_Transitive a b c). Qed.

(** ** [filter_work_orders] *)

Lemma filter_filter {A : Type} (p q : A -> bool) (l : list A) :
  filter q (filter p l) = filter (fun x => p x && q x) l.
Proof.
  induction l as [|a l IH]; simpl; [reflexivity|].
  destruct (p a); simpl; [destruct (q a)|]; now rewrite IH.
Qed.

Lemma filter_true {A : Type} (l : list A) : filter (fun _ => true) l = l.
Proof. induction l; simpl; congruence. Qed.

Lemma keep_str_filter (o : option string) (col : Analytics.WorkOrder -> string)
    (l : list Analytics.WorkOrder) :
  Analytics.keep_str o col l = filter (fun r => str_test o (col r)) l.
Proof.
  unfold Analytics.keep_str, str_test.
  destruct o as [v|]; [destruct (Py.nonempty v)|]; try reflexivity;
    symmetry; apply filter_true.
Qed.

Lemma keep_ts_filter (o : option Analytics.Timestamp) test (l : list Analytics.WorkOrder) :
  Analytics.keep_ts o test l = filter (fun r => ts_test o test (Analytics.start_ts r)) l.
Proof.
  unfold Analytics.keep_ts, ts_test.
  destruct o; [reflexivity | symmetry; apply filter_true].
Qed.

(** The populated fields act as one conjunctive predicate on the rows. *)
Lemma filter_work_orders_rows (wo : Analytics.DataFrame) (f : Analytics.Filters) :
  Analytics.rows (Analytics.filter_work_orders wo f)
  = filter (matches f) (Analytics.rows wo).
Proof.
  unfold Analytics.filter_work_orders, Analytics.with_rows; simpl.
  rewrite !keep_str_filter, !keep_ts_filter, !filter_filter.
  apply filter_ext.
  intros r.
  unfold matches.
  now rewrite !andb_assoc.
Qed.

Lemma filter_work_orders_columns (wo : Analytics.DataFrame) (f : Analytics.Filters) :
  Analytics.has_technicians (Analytics.filter_work_orders wo f)
  = Analytics.has_technicians wo.
Proof. reflexivity. Qed.

Lemma filter_work_orders_no_filter (wo : Analytics.DataFrame) :
  Analytics.rows (Analytics.filter_work_orders wo Analytics.no_filter)
  = Analytics.rows wo.
Proof. rewrite filter_work_orders_rows. apply filter_true. Qed.

Lemma str_test_carries (n w : option string) (v : string) :
  carries_field n w -> str_test n v = true -> str_test w v = true.
Proof.
  intros Hc Hn.
  destruct w as [s|]; [|reflexivity].
  rewrite (Hc s eq_refl) in Hn.
  exact Hn.
Qed.

Lemma ts_test_carries (n w : option Analytics.Timestamp) test v :
  carries_field n w -> ts_test n test v = true -> ts_test w test v = true.
Proof.
  intros Hc Hn.
  destruct w as [b|]; [|reflexivity].
  rewrite (Hc b eq_refl) in Hn.
  exact Hn.
Qed.

Lemma matches_carries (n w : Analytics.Filters) (r : Analytics.WorkOrder) :
  carries n w -> matches n r = true -> matches w r = true.
Proof.
  intros (H1 & H2 & H3 & H4 & H5).
  unfold matches.
  rewrite !andb_true_iff.
  intros ((((T1 & T2) & T3) & T4) & T5).
  repeat split;
    eauto using str_test_carries, ts_test_carries.
Qed.

(** Monotonicity holds as soon as the narrower filter carries the fields of
    the wider one; strictness is not needed. *)
Lemma filter_rows_incl (wo : Analytics.DataFrame) (n w : Analytics.Filters) :
  carries n w ->
  incl (Analytics.rows (Analytics.filter_work_orders wo n))
       (Analytics.rows (Analytics.filter_work_orders wo w)).
Proof.
  intros Hc r.
  rewrite !filter_work_orders_rows, !filter_In.
  intros [Hin Hm].
  split; [exact Hin | eapply matches_carries; eassumption].
Qed.

(** C6.  Filter monotonicity: when the narrower filter has all the
    populated fields of the wider one with the same values, plus at least
    one more populated field, every work_order_id returned by
    [filter_work_orders] under the narrower filter is returned under the
    wider one; and the rows returned for a filter are exactly the rows of
    the table that pass the conjunction of the tests of its fields. *)
Theorem filter_work_orders_monotone (wo : Analytics.DataFrame) (n w : Analytics.Filters) :
  narrower n w ->
  incl (ids (Analytics.filter_work_orders wo n)) (ids (Analytics.filter_work_orders wo w))
  /\ (forall f r, In r (Analytics.rows (Analytics.filter_work_orders wo f))
                  <-> In r (Analytics.rows wo) /\ matches f r = true).
Proof.
  intros [Hc _].
  split.
  - unfold ids.
    apply incl_map, filter_rows_incl, Hc.
  - intros f r.
    rewrite filter_work_orders_rows.
    apply filter_In.
Qed.

(** ** [value_counts] and [most_common_symptoms] *)

Lemma value_counts_In (l : list string) (c : string) (k : nat) :
  In (c, k) (Analytics.value_counts l) <-> In c l /\ k = count_occ string_dec l c.
Proof.
  unfold Analytics.value_counts.
  rewrite sort_In, in_map_iff.
  split.
  - intros (x & E & Hx).
    apply unique_In in Hx.
    inversion E; subst.
    now split.
  - intros [Hc ->].
    exists c.
    split; [reflexivity | now apply unique_In].
Qed.

Lemma value_counts_keys (l : list string) : NoDup (map fst (Analytics.value_counts l)).
Proof.
  unfold Analytics.value_counts.
  apply sort_map_NoDup.
  rewrite map_map; simpl.
  rewrite map_id.
  apply unique_NoDup.
Qed.

Lemma value_counts_head (l : list string) (c0 : string) (m : nat)
    (rest : list (string * nat)) :
  Analytics.value_counts l = (c0, m) :: rest ->
  count_occ string_dec l c0 = m /\ 0 < m /\ forall c, count_occ string_dec l c <= m.
Proof.
  intros E.
  assert (H0 : In c0 l /\ m = count_occ string_dec l c0).
  { apply value_counts_In. rewrite E. now left. }
  destruct H0 as [Hin Hm].
  split; [now symmetry|].
  split; [subst m; now apply count_occ_In|].
  intros c.
  destruct (in_dec string_dec c l) as [Hc | Hc].
  - assert (Hv : In (c, count_occ string_dec l c) (Analytics.value_counts l))
      by (apply value_counts_In; now split).
    assert (S : StronglySorted (fun a b : string * nat => (snd b <=? snd a) = true)
                  (Analytics.value_counts l)).
    { apply (sort_sorted (fun a b : string * nat => snd b <=? snd a)).
      - intros a b.
        destruct (Nat.leb_spec (snd b) (snd a)); [now left | right].
        apply Nat.leb_le. lia.
      - intros a b d H1 H2.
        apply Nat.leb_le in H1, H2.
        apply Nat.leb_le. lia. }
    rewrite E in S, Hv.
    apply StronglySorted_inv in S as [_ F].
    rewrite Forall_forall in F.
    destruct Hv as [Hv | Hv].
    + inversion Hv. lia.
    + apply F in Hv. simpl in Hv. now apply Nat.leb_le in Hv.
  - apply (count_occ_not_In string_dec) in Hc.
    rewrite Hc. lia.
Qed.

Lemma by_code_sorted (l : list (string * nat)) :
  NoDup (map fst l) ->
  StronglySorted code_lt (Py.sort (fun x y => Py.str_leb (fst x) (fst y)) l).
Proof.
  intros Hnd.
  apply (sorted_strengthen
           (fun a b : string * nat => Py.str_leb (fst a) (fst b) = true)
           code_lt fst).
  - intros a b Hle Hne.
    apply str_leb_iff in Hle as [E | L]; [contradiction | exact L].
  - apply (sort_sorted (fun x y : string * nat => Py.str_leb (fst x) (fst y))).
    + intros a b. apply str_leb_total.
    + intros a b c. apply str_leb_trans.
  - now apply sort_map_NoDup.
Qed.

Lemma NoDup_map_filter {A B : Type} (g : A -> B) (p : A -> bool) (l : list A) :
  NoDup (map g l) -> NoDup (map g (filter p l)).
Proof.
  induction l as [|a l IH]; simpl; intros Hnd; [constructor|].
  apply NoDup_cons_iff in Hnd as [Hnotin Hnd].
  destruct (p a); simpl; [|now apply IH].
  constructor; [|now apply IH].
  rewrite in_map_iff in *.
  intros (x & E & Hx).
  apply Hnotin.
  exists x.
  apply filter_In in Hx.
  tauto.
Qed.

Lemma most_common_symptoms_empty (wo : Analytics.DataFrame) (f : option Analytics.Filters) :
  Analytics.rows (Analytics.filter_work_orders wo (Analytics.or_default f)) = [] ->
  Analytics.most_common_symptoms wo f = [].
Proof.
  intros E.
  unfold Analytics.most_common_symptoms, Analytics.empty.
  now rewrite E.
Qed.

Lemma most_common_symptoms_sorted (wo : Analytics.DataFrame) (f : option Analytics.Filters) :
  StronglySorted code_lt (Analytics.most_common_symptoms wo f).
Proof.
  unfold Analytics.most_common_symptoms.
  destruct (Analytics.empty _); [constructor|].
  destruct (Analytics.value_counts _) as [|[c0 m] rest] eqn:E; [constructor|].
  apply by_code_sorted, NoDup_map_filter.
  rewrite <- E.
  apply value_counts_keys.
Qed.

(** On a non-empty filtered set the result holds exactly the codes whose
    frequency is the largest one, each with that frequency. *)
Lemma most_common_symptoms_members (wo : Analytics.DataFrame) (f : option Analytics.Filters) :
  let df := Analytics.filter_work_orders wo (Analytics.or_default f) in
  Analytics.rows df <> [] ->
  exists m, 0 < m
    /\ (forall c, freq df c <= m)
    /\ (exists c, freq df c = m)
    /\ (forall c k, In (c, k) (Analytics.most_common_symptoms wo f)
                    <-> freq df c = m /\ k = m).
Proof.
  intros df Hne.
  unfold Analytics.most_common_symptoms, Analytics.empty.
  fold df.
  destruct (Analytics.rows df) as [|r0 rs] eqn:Erows; [contradiction|].
  rewrite <- Erows.
  set (codes := map Analytics.symptom_code (Analytics.rows df)).
  destruct (Analytics.value_counts codes) as [|[c0 m] rest] eqn:E.
  - exfalso.
    assert (Hin : In (Analytics.symptom_code r0,
                      count_occ string_dec codes (Analytics.symptom_code r0))
                     (Analytics.value_counts codes)).
    { apply value_counts_In. split; [|reflexivity].
      unfold codes. rewrite Erows. now left. }
    rewrite E in Hin. destruct Hin.
  - destruct (value_counts_head _ _ _ _ E) as (Hc0 & Hpos & Hmax).
    exists m.
    split; [exact Hpos|].
    split; [exact Hmax|].
    split; [now exists c0|].
    intros c k.
    rewrite sort_In, filter_In, <- E, value_counts_In; simpl.
    rewrite Nat.eqb_eq.
    unfold freq. fold codes.
    split.
    + intros [[_ Hk] Hkm]. subst. now split.
    + intros [Hf Hk]. subst k.
      repeat split; try now symmetry.
      apply (count_occ_In string_dec). rewrite Hf. exact Hpos.
Qed.

(** Some code differs from two given ones. *)
Lemma fresh_code (A B : string) : exists c : string, c <> A /\ c <> B.
Proof.
  destruct (string_dec "x" A), (string_dec "x" B),
    (string_dec "y" A), (string_dec "y" B),
    (string_dec "z" A), (string_dec "z" B);
    first [ exists "x"; split; congruence
          | exists "y"; split; congruence
          | exists "z"; split; congruence ].
Qed.

(** C1.  [most_common_symptoms] applies the filter first; on an empty
    filtered set it returns the empty list; otherwise it returns exactly the
    symptom codes whose frequency equals the maximum frequency, each paired
    with that maximum, in alphabetical order of the code.  In particular,
    when [A] and [B] (with [A] before [B]) each occur [n] times and every
    other code occurs fewer than [n] times, the result is [[(A, n); (B, n)]]. *)
Theorem most_common_symptoms_ties (wo : Analytics.DataFrame) (f : option Analytics.Filters) :
  let df := Analytics.filter_work_orders wo (Analytics.or_default f) in
  let out := Analytics.most_common_symptoms wo f in
  (Analytics.rows df = [] -> out = [])
  /\ (Analytics.rows df <> [] ->
      exists m, 0 < m
        /\ (forall c, freq df c <= m)
        /\ (exists c, freq df c = m)
        /\ (forall c k, In (c, k) out <-> freq df c = m /\ k = m))
  /\ StronglySorted code_lt out
  /\ (forall A B n,
        Py.str_lt A B -> freq df A = n -> freq df B = n ->
        (forall c, c <> A -> c <> B -> freq df c < n) ->
        out = [(A, n); (B, n)]).
Proof.
  intros df out.
  split; [apply most_common_symptoms_empty|].
  split; [apply most_common_symptoms_members|].
  split; [apply most_common_symptoms_sorted|].
  intros A B n HAB HA HB Hothers.
  assert (Hn : 0 < n).
  { destruct (fresh_code A B) as (c & NA & NB).
    specialize (Hothers c NA NB). lia. }
  assert (Hne : Analytics.rows df <> []).
  { intros E. unfold freq in HA. rewrite E in HA. simpl in HA. lia. }
  destruct (most_common_symptoms_members wo f Hne) as (m & Hm & Hmax & [c0 Hc0] & Hmem).
  fold df in Hmax, Hc0, Hmem.
  fold out in Hmem.
  assert (m = n).
  { pose proof (Hmax A) as HAm.
    destruct (string_dec c0 A) as [-> | NA]; [lia|].
    destruct (string_dec c0 B) as [-> | NB]; [lia|].
    specialize (Hothers c0 NA NB). lia. }
  clear Hc0.
  subst m.
  apply (sorted_unique code_lt).
  - intros a. apply str_lt_irrefl.
  - intros a b c. apply str_lt_trans.
  - apply most_common_symptoms_sorted.
  - repeat constructor. exact HAB.
  - intros [c k].
    rewrite Hmem; simpl.
    split.
    + intros [Hf ->].
      destruct (string_dec c A) as [-> | NA]; [now left|].
      destruct (string_dec c B) as [-> | NB]; [right; now left|].
      specialize (Hothers c NA NB). lia.
    + intros [E | [E | []]]; inversion E; subst; now split.
Qed.

(** ** The technician aggregations *)

Lemma names_In (r : Analytics.WorkOrder) (name : string) :
  In name (names r) <->
  Py.nonempty name = true
  /\ exists s, In (Some s) (Analytics.technicians r) /\ Py.strip s = name.
Proof.
  unfold names.
  rewrite filter_In, in_flat_map.
  split.
  - intros [([s|] & Hin & Hs) Hne]; simpl in Hs; [|destruct Hs].
    destruct Hs as [E | []].
    split; [exact Hne | now exists s].
  - intros [Hne (s & Hin & E)].
    split; [|exact Hne].
    exists (Some s).
    split; [exact Hin | now left].
Qed.

Lemma worked_on_iff (name : string) (r : Analytics.WorkOrder) :
  worked_on name r = true <-> In name (names r).
Proof.
  unfold worked_on.
  rewrite existsb_exists.
  split.
  - intros (x & Hx & E). apply String.eqb_eq in E. now subst.
  - intros H. exists name. split; [exact H | apply String.eqb_refl].
Qed.

(** The cleaned exploded frame pairs each key with the names of its row. *)
Lemma clean_explode_In {K : Type} (key : Analytics.WorkOrder -> K)
    (l : list Analytics.WorkOrder) (i : K) (name : string) :
  In (i, name)
     (Analytics.clean
        (flat_map (fun r => Analytics.explode_row (key r) (Analytics.technicians r)) l))
  <-> exists r, In r l /\ key r = i /\ In name (names r).
Proof.
  unfold Analytics.clean.
  rewrite filter_In, in_flat_map; simpl.
  split.
  - intros [([j [s|]] & Hin & Hp) Hne]; simpl in Hp; [|destruct Hp].
    destruct Hp as [E | []].
    inversion E; subst; clear E.
    apply in_flat_map in Hin as (r & Hr & Hcell).
    exists r.
    split; [exact Hr|].
    unfold Analytics.explode_row in Hcell.
    destruct (Analytics.technicians r) as [|t ts] eqn:Et.
    + destruct Hcell as [E | []]. discriminate.
    + rewrite <- Et in Hcell.
      apply in_map_iff in Hcell as (t' & E & Ht').
      inversion E; subst.
      split; [reflexivity|].
      apply names_In.
      split; [exact Hne | now exists s].
  - intros (r & Hr & <- & Hn).
    apply names_In in Hn as [Hne (s & Hs & E)].
    split; [|exact Hne].
    exists (key r, Some s).
    split; [|simpl; left; now rewrite E].
    apply in_flat_map.
    exists r.
    split; [exact Hr|].
    unfold Analytics.explode_row.
    destruct (Analytics.technicians r) as [|t ts]; [destruct Hs|].
    apply in_map_iff.
    exists (Some s).
    split; [reflexivity | exact Hs].
Qed.

Lemma groupby_nunique_In (l : list (Z * string)) (name : string) (k : nat) :
  In (name, k) (Analytics.groupby_nunique l) <->
  In name (map snd l)
  /\ k = Py.nunique Z.eq_dec (map fst (filter (fun p => String.eqb (snd p) name) l)).
Proof.
  unfold Analytics.groupby_nunique.
  rewrite in_map_iff.
  split.
  - intros (x & E & Hx).
    apply sort_In, unique_In in Hx.
    inversion E; subst.
    now split.
  - intros [Hin ->].
    exists name.
    split; [reflexivity | now apply sort_In, unique_In].
Qed.

Lemma groupby_nunique_keys (l : list (Z * string)) :
  NoDup (map fst (Analytics.groupby_nunique l)).
Proof.
  unfold Analytics.groupby_nunique.
  rewrite map_map; simpl.
  rewrite map_id.
  eapply Permutation_NoDup; [symmetry; apply sort_perm | apply unique_NoDup].
Qed.

Lemma rank_leb_iff (a b : string * nat) :
  Analytics.rank_leb a b = true <->
  snd b < snd a \/ (snd a = snd b /\ Py.str_leb (fst a) (fst b) = true).
Proof.
  unfold Analytics.rank_leb.
  rewrite orb_true_iff, andb_true_iff, Nat.ltb_lt, Nat.eqb_eq.
  reflexivity.
Qed.

Lemma rank_leb_total (a b : string * nat) :
  Analytics.rank_leb a b = true \/ Analytics.rank_leb b a = true.
Proof.
  rewrite !rank_leb_iff.
  destruct (Nat.lt_trichotomy (snd a) (snd b)) as [L | [E | G]].
  - right. now left.
  - destruct (str_leb_total (fst a) (fst b)); [left | right]; right; split;
      auto.
  - left. now left.
Qed.

Lemma rank_leb_trans (a b c : string * nat) :
  Analytics.rank_leb a b = true -> Analytics.rank_leb b c = true ->
  Analytics.rank_leb a c = true.
Proof.
  rewrite !rank_leb_iff.
  intros [L1 | [E1 S1]] [L2 | [E2 S2]].
  - left. lia.
  - left. lia.
  - left. lia.
  - right. split; [lia | eapply str_leb_trans; eassumption].
Qed.

Lemma rank_sorted (l : list (string * nat)) :
  NoDup (map fst l) -> StronglySorted rank_lt (Py.sort Analytics.rank_leb l).
Proof.
  intros Hnd.
  apply (sorted_strengthen (fun a b => Analytics.rank_leb a b = true) rank_lt fst).
  - intros a b Hle Hne.
    apply rank_leb_iff in Hle as [L | [E S]]; [now left | right].
    split; [exact E|].
    apply str_leb_iff in S as [E' | L']; [contradiction | exact L'].
  - apply sort_sorted; [apply rank_leb_total | apply rank_leb_trans].
  - now apply sort_map_NoDup.
Qed.

Lemma head_nil {A : Type} (n : Z) : Py.head n (@nil A) = [].
Proof.
  unfold Py.head.
  destruct (0 <=? n)%Z; apply firstn_nil.
Qed.

(** The count attached to a technician is the number of distinct incidents. *)
Lemma exploded_count (l : list Analytics.WorkOrder) (name : string) :
  Py.nunique Z.eq_dec
    (map fst (filter (fun p => String.eqb (snd p) name)
                (Analytics.clean
                   (flat_map (fun r => Analytics.explode_row
                                         (Analytics.work_order_id r)
                                         (Analytics.technicians r)) l))))
  = distinct_orders l name.
Proof.
  unfold distinct_orders.
  apply nunique_ext.
  intros i.
  rewrite !in_map_iff.
  split.
  - intros ([j nm] & E & Hp); simpl in E; subst j.
    apply filter_In in Hp as [Hp Hnm]; simpl in Hnm.
    apply String.eqb_eq in Hnm; subst nm.
    apply clean_explode_In in Hp as (r & Hr & Hid & Hn).
    exists r.
    split; [exact Hid|].
    apply filter_In.
    split; [exact Hr | now apply worked_on_iff].
  - intros (r & Hid & Hr).
    apply filter_In in Hr as [Hr Hw].
    apply worked_on_iff in Hw.
    exists (i, name).
    split; [reflexivity|].
    apply filter_In.
    split; [|simpl; apply String.eqb_refl].
    apply clean_explode_In.
    now exists r.
Qed.

(** C4.  On a table that has the technicians column, [top_technicians]
    returns the first [n] entries of the ranking of the filtered incidents:
    one entry per non-blank, stripped technician name found in their
    technicians lists, carrying the number of DISTINCT work_order_ids the
    technician appears in, ordered by count descending and then by name
    ascending. *)
Theorem top_technicians_ranking (wo : Analytics.DataFrame) (n : Z)
    (f : option Analytics.Filters) :
  Analytics.has_technicians wo = true ->
  let df := Analytics.rows (Analytics.filter_work_orders wo (Analytics.or_default f)) in
  exists ranking,
    Analytics.top_technicians wo n f = Ok (Py.head n ranking)
    /\ ((0 <= n)%Z -> Py.head n ranking = firstn (Z.to_nat n) ranking)
    /\ StronglySorted rank_lt ranking
    /\ (forall name k,
          In (name, k) ranking <->
          (exists r, In r df /\ In name (names r)) /\ k = distinct_orders df name).
Proof.
  intros Hcol df.
  assert (Hhead : forall l : list (string * nat),
            (0 <= n)%Z -> Py.head n l = firstn (Z.to_nat n) l).
  { intros l Hn. unfold Py.head.
    destruct (Z.leb_spec 0 n); [reflexivity | lia]. }
  unfold Analytics.top_technicians, Analytics.empty.
  rewrite filter_work_orders_columns, Hcol.
  fold df.
  destruct df as [|r0 rs] eqn:Edf.
  - exists [].
    split; [now rewrite head_nil|].
    split; [apply Hhead|].
    split; [constructor|].
    intros name k.
    split; [intros [] | intros [(r & [] & _) _]].
  - rewrite <- Edf.
    simpl negb.
    cbv iota.
    eexists.
    split; [reflexivity|].
    split; [apply Hhead|].
    split; [apply rank_sorted, groupby_nunique_keys|].
    intros name k.
    rewrite sort_In, groupby_nunique_In, exploded_count.
    rewrite in_map_iff.
    split.
    + intros [([i nm] & E & Hp) Hk]; simpl in E; subst nm.
      apply clean_explode_In in Hp as (r & Hr & _ & Hn).
      split; [now exists r | exact Hk].
    + intros [(r & Hr & Hn) Hk].
      split; [|exact Hk].
      exists (Analytics.work_order_id r, name).
      split; [reflexivity|].
      apply clean_explode_In.
      now exists r.
Qed.

(** C9 (amended).  On a table without the technicians column,
    [top_technicians] and [count_distinct_technicians] raise the data-shape
    error exactly when the filtered set is non-empty; when the filter leaves
    no incident they return the empty ranking and 0. *)
Theorem technicians_column_missing (wo : Analytics.DataFrame) (n : Z)
    (f : option Analytics.Filters) :
  Analytics.has_technicians wo = false ->
  let df := Analytics.rows (Analytics.filter_work_orders wo (Analytics.or_default f)) in
  (df <> [] ->
   Analytics.top_technicians wo n f = Raise Analytics.missing_technicians
   /\ Analytics.count_distinct_technicians wo f = Raise Analytics.missing_technicians)
  /\ (df = [] ->
      Analytics.top_technicians wo n f = Ok []
      /\ Analytics.count_distinct_technicians wo f = Ok 0).
Proof.
  intros Hcol df.
  unfold Analytics.top_technicians, Analytics.count_distinct_technicians,
    Analytics.empty.
  rewrite filter_work_orders_columns, Hcol.
  fold df.
  destruct df as [|r0 rs]; split; intros H; try contradiction; try discriminate;
    now split.
Qed.

(** ** [count_mentions] *)

Lemma prefix_app (p s : string) :
  String.prefix p s = true <-> exists q, s = (p ++ q)%string.
Proof.
  revert s.
  induction p as [|a p IH]; intros s.
  - split; [intros _; now exists s | intros _; now destruct s].
  - destruct s as [|b s]; simpl.
    + split; [discriminate | intros [q E]; discriminate].
    + destruct (ascii_dec a b) as [-> | NE].
      * specialize (IH s).
        split.
        -- intros H. apply IH in H as [q E]. exists q. now rewrite E.
        -- intros [q E]. apply IH. exists q. now inversion E.
      * split; [discriminate | intros [q E]; inversion E; congruence].
Qed.

Lemma contains_unfold (sub s : string) :
  Py.contains sub s
  = String.prefix sub s
    || match s with
       | EmptyString => false
       | String _ r => Py.contains sub r
       end.
Proof. destruct s; reflexivity. Qed.

(** [sub in s] holds exactly when [s] can be cut around a copy of [sub]. *)
Lemma contains_app (sub s : string) :
  Py.contains sub s = true <-> exists p q, s = (p ++ sub ++ q)%string.
Proof.
  induction s as [|c s IH]; rewrite contains_unfold, orb_true_iff, prefix_app.
  - split.
    + intros [[q E] | F]; [|discriminate].
      now exists EmptyString, q.
    + intros (p & q & E).
      left.
      destruct p; [now exists q | discriminate].
  - rewrite IH.
    split.
    + intros [[q E] | (p & q & E)].
      * now exists EmptyString, q.
      * exists (String c p), q. simpl. now rewrite E.
    + intros (p & q & E).
      destruct p as [|d p]; simpl in E.
      * left. now exists q.
      * right. inversion E. now exists p, q.
Qed.

Lemma lower_app (a b : string) : Py.lower (a ++ b) = (Py.lower a ++ Py.lower b)%string.
Proof. induction a as [|c a IH]; simpl; [reflexivity | now rewrite IH]. Qed.

Lemma lower_split (t a b : string) :
  Py.lower t = (a ++ b)%string ->
  exists x y, t = (x ++ y)%string /\ Py.lower x = a /\ Py.lower y = b.
Proof.
  revert t.
  induction a as [|c a IH]; intros t E; simpl in E.
  - now exists EmptyString, t.
  - destruct t as [|d t]; [discriminate|].
    simpl in E.
    inversion E as [[Hc Ht]].
    destruct (IH t Ht) as (x & y & -> & Hx & Hy).
    exists (String d x), y.
    simpl.
    now rewrite Hx, Hy.
Qed.

Lemma lower_char_idem (c : ascii) : Py.lower_char (Py.lower_char c) = Py.lower_char c.
Proof.
  destruct c as [[] [] [] [] [] [] [] []]; reflexivity.
Qed.

Lemma lower_idem (s : string) : Py.lower (Py.lower s) = Py.lower s.
Proof.
  induction s as [|c s IH]; simpl; [reflexivity|].
  now rewrite lower_char_idem, IH.
Qed.

(** Searching the lower-cased key in the lower-cased text is the
    case-insensitive literal search. *)
Lemma contains_lower (key t : string) :
  Py.contains (Py.lower key) (Py.lower t) = true <-> ci_substring key t.
Proof.
  rewrite contains_app.
  unfold ci_substring.
  split.
  - intros (p & q & E).
    apply lower_split in E as (x & y & -> & Hx & Hy).
    apply lower_split in Hy as (m & z & -> & Hm & Hz).
    now exists x, m, z.
  - intros (p & m & q & -> & Hm).
    exists (Py.lower p), (Py.lower q).
    now rewrite !lower_app, Hm.
Qed.

Lemma nonempty_lower (s : string) : Py.nonempty (Py.lower s) = Py.nonempty s.
Proof. destruct s; reflexivity. Qed.

Lemma nonempty_false (s : string) : Py.nonempty s = false <-> s = "".
Proof. destruct s; simpl; split; congruence. Qed.

(** C5 (amended).  [count_mentions] strips the keyword first.  When the
    stripped keyword is empty (an empty or whitespace-only keyword) the
    result is 0; otherwise it is the number of filtered incidents whose
    description, newline and comments contain the stripped keyword as a
    case-insensitive literal substring; with no filter, a stripped keyword
    occurring in exactly [k] incidents gives [k]. *)
Theorem count_mentions_stripped (wo : Analytics.DataFrame) (keyword : string)
    (f : option Analytics.Filters) :
  let key := Py.strip keyword in
  let hit := fun r => Py.contains (Py.lower key) (Analytics.hay r) in
  (key = "" -> Analytics.count_mentions wo keyword f = 0)
  /\ (key <> "" ->
      Analytics.count_mentions wo keyword f
      = List.length
          (filter hit
             (Analytics.rows (Analytics.filter_work_orders wo (Analytics.or_default f)))))
  /\ (key <> "" ->
      forall k, List.length (filter hit (Analytics.rows wo)) = k ->
                Analytics.count_mentions wo keyword None = k)
  /\ (forall r, hit r = true <-> ci_substring key (text_of r)).
Proof.
  intros key hit.
  assert (Hgen : forall g, key <> "" ->
            Analytics.count_mentions wo keyword g
            = List.length
                (filter hit
                   (Analytics.rows
                      (Analytics.filter_work_orders wo (Analytics.or_default g))))).
  { intros g Hkey.
    unfold Analytics.count_mentions, Analytics.empty.
    fold key.
    rewrite nonempty_lower.
    destruct (Py.nonempty key) eqn:Hne.
    - cbn [negb].
      destruct (Analytics.rows (Analytics.filter_work_orders wo (Analytics.or_default g)));
        reflexivity.
    - apply nonempty_false in Hne. contradiction. }
  split.
  - intros Hkey.
    unfold Analytics.count_mentions.
    fold key.
    now rewrite Hkey.
  - split; [apply Hgen|].
    split.
    + intros Hkey k Hk.
      rewrite (Hgen None Hkey).
      simpl Analytics.or_default.
      now rewrite filter_work_orders_no_filter.
    + intros r.
      apply contains_lower.
Qed.

(** ** [intent] *)

(** C2 (amended).  [intent] lower-cases the text and evaluates the ordered
    cascade, first match winning: mention/mentions/contain/contains/
    containing, then "which one had more", "which technician handled the
    most", "how many different technicians", "distinct equipment" or
    "different equipment", "most common symptom", "which equipment has the
    most incidents", "how many" or "number of", then the text starting with
    "what about" once its surrounding whitespace is stripped, otherwise
    unknown. *)
Theorem intent_is_cascade (q : string) : App.intent q = intent_cascade q.
Proof.
  unfold App.intent, intent_cascade, cascade, first_match, any_of, existsb.
  rewrite !orb_false_r, !orb_assoc.
  reflexivity.
Qed.

(** ** [build_work_orders] *)

Lemma min_ts_spec (l : list Z) (x : Z) :
  In (Data.min_ts x l) (x :: l) /\ forall y, In y (x :: l) -> (Data.min_ts x l <= y)%Z.
Proof.
  unfold Data.min_ts.
  revert x.
  induction l as [|a l IH]; intros x; simpl.
  - split; [now left | intros y [<- | []]; lia].
  - destruct (IH (Z.min x a)) as [Hin Hle].
    split.
    + destruct Hin as [E | Hin]; [|right; now right].
      rewrite <- E.
      destruct (Z.min_spec x a) as [[_ ->] | [_ ->]]; [now left | right; now left].
    + intros y Hy.
      assert (Hm : (fold_left Z.min l (Z.min x a) <= Z.min x a)%Z)
        by (apply Hle; now left).
      destruct Hy as [<- | [<- | Hy]]; [lia | lia |].
      apply Hle. now right.
Qed.

Lemma max_ts_spec (l : list Z) (x : Z) :
  In (Data.max_ts x l) (x :: l) /\ forall y, In y (x :: l) -> (y <= Data.max_ts x l)%Z.
Proof.
  unfold Data.max_ts.
  revert x.
  induction l as [|a l IH]; intros x; simpl.
  - split; [now left | intros y [<- | []]; lia].
  - destruct (IH (Z.max x a)) as [Hin Hle].
    split.
    + destruct Hin as [E | Hin]; [|right; now right].
      rewrite <- E.
      destruct (Z.max_spec x a) as [[_ ->] | [_ ->]]; [right; now left | now left].
    + intros y Hy.
      assert (Hm : (Z.max x a <= fold_left Z.max l (Z.max x a))%Z)
        by (apply Hle; now left).
      destruct Hy as [<- | [<- | Hy]]; [lia | lia |].
      apply Hle. now right.
Qed.

Lemma validate_ok (events : Data.EventFrame) :
  valid_events events -> Data._validate_columns events = Ok tt.
Proof.
  unfold valid_events, Data._validate_columns.
  rewrite forallb_app.
  intros H.
  apply andb_true_iff in H as [H _].
  replace (filter (fun c => negb (Data.has_column events c)) Data.REQUIRED_COLUMNS)
    with (@nil string); [reflexivity|].
  symmetry.
  rewrite forallb_forall in H.
  induction Data.REQUIRED_COLUMNS as [|c l IH]; simpl; [reflexivity|].
  rewrite (H c (or_introl eq_refl)); simpl.
  apply IH.
  intros x Hx.
  apply H.
  now right.
Qed.

(** The groups of the sorted frame hold the events of the key. *)
Lemma group_In (events : Data.EventFrame) (k : Z) (e : Data.Event) :
  In e (filter (fun e => (Data.work_order_id e =? k)%Z)
          (Py.sort Data.event_leb (Data.rows events)))
  <-> In e (events_of events k).
Proof.
  unfold events_of.
  rewrite !filter_In, sort_In.
  reflexivity.
Qed.

Lemma technicians_sorted (l : list string) :
  StronglySorted Py.str_lt (Py.sort Py.str_leb (Py.unique string_dec l)).
Proof.
  apply (sorted_strengthen (fun a b => Py.str_leb a b = true) Py.str_lt (fun x => x)).
  - intros a b Hle Hne.
    apply str_leb_iff in Hle as [E | L]; [contradiction | exact L].
  - apply sort_sorted; [apply str_leb_total | apply str_leb_trans].
  - rewrite map_id.
    eapply Permutation_NoDup; [symmetry; apply sort_perm | apply unique_NoDup].
Qed.

(** What [aggregate] computes for the group [e :: g] of the key [k]. *)
Lemma aggregate_spec (events : Data.EventFrame) (k : Z) (e : Data.Event)
    (g : list Data.Event) :
  filter (fun e => (Data.work_order_id e =? k)%Z)
    (Py.sort Data.event_leb (Data.rows events)) = e :: g ->
  let r := Data.aggregate e g in
  let evs := events_of events k in
  Analytics.work_order_id r = k
  /\ (exists e', In e' evs /\ Analytics.start_ts r = Data.start_ts e')
  /\ (forall e', In e' evs -> (Analytics.start_ts r <= Data.start_ts e')%Z)
  /\ (exists e', In e' evs /\ Analytics.end_ts r = Data.end_ts e')
  /\ (forall e', In e' evs -> (Data.end_ts e' <= Analytics.end_ts r)%Z)
  /\ (exists ts, Analytics.technicians r = map Some ts
                 /\ StronglySorted Py.str_lt ts
                 /\ forall x, In x ts <->
                              Data.nonblank x = true
                              /\ exists e', In e' evs /\ Data.technician e' = x).
Proof.
  intros Hgrp r evs.
  assert (Hmem : forall x, In x (e :: g) <-> In x evs).
  { intros x. rewrite <- Hgrp. apply group_In. }
  assert (He : Data.work_order_id e = k).
  { assert (Hin : In e (e :: g)) by now left.
    rewrite <- Hgrp in Hin.
    apply filter_In in Hin as [_ Hk].
    now apply Z.eqb_eq in Hk. }
  split; [exact He|].
  destruct (min_ts_spec (map Data.start_ts g) (Data.start_ts e)) as [Hmin_in Hmin_le].
  destruct (max_ts_spec (map Data.end_ts g) (Data.end_ts e)) as [Hmax_in Hmax_le].
  change (Data.start_ts e :: map Data.start_ts g)
    with (map Data.start_ts (e :: g)) in Hmin_in, Hmin_le.
  change (Data.end_ts e :: map Data.end_ts g)
    with (map Data.end_ts (e :: g)) in Hmax_in, Hmax_le.
  split.
  { apply in_map_iff in Hmin_in as (e' & E & Hin).
    exists e'. split; [now apply Hmem | now symmetry]. }
  split.
  { intros e' Hin. apply Hmin_le, in_map, Hmem, Hin. }
  split.
  { apply in_map_iff in Hmax_in as (e' & E & Hin).
    exists e'. split; [now apply Hmem | now symmetry]. }
  split.
  { intros e' Hin. apply Hmax_le, in_map, Hmem, Hin. }
  eexists.
  split; [reflexivity|].
  split; [apply technicians_sorted|].
  intros x.
  rewrite sort_In, unique_In, filter_In, in_map_iff.
  split.
  - intros [(e' & E & Hin) Hnb].
    split; [exact Hnb|].
    exists e'. split; [now apply Hmem | exact E].
  - intros [Hnb (e' & Hin & E)].
    split; [|exact Hnb].
    exists e'. split; [exact E | now apply Hmem].
Qed.

Lemma group_ids (events : Data.EventFrame) (keys : list Z) :
  let ev := Py.sort Data.event_leb (Data.rows events) in
  (forall k, In k keys -> In k (map Data.work_order_id ev)) ->
  map Analytics.work_order_id
    (flat_map (fun k =>
                 match filter (fun e => (Data.work_order_id e =? k)%Z) ev with
                 | [] => []
                 | e :: g => [Data.aggregate e g]
                 end) keys)
  = keys.
Proof.
  intros ev.
  induction keys as [|k keys IH]; intros Hk; simpl; [reflexivity|].
  rewrite map_app, IH by (intros; apply Hk; now right).
  f_equal.
  destruct (filter _ ev) as [|e g] eqn:Eg.
  - exfalso.
    destruct (proj1 (in_map_iff _ _ _) (Hk k (or_introl eq_refl))) as (e & E & Hin).
    assert (Hf : In e (filter (fun e => (Data.work_order_id e =? k)%Z) ev)).
    { apply filter_In. split; [exact Hin | now apply Z.eqb_eq]. }
    rewrite Eg in Hf. destruct Hf.
  - pose proof (proj1 (aggregate_spec events k e g Eg)) as Hid.
    simpl in Hid |- *.
    now rewrite Hid.
Qed.

Lemma group_rows (events : Data.EventFrame) (r : Analytics.WorkOrder) :
  let ev := Py.sort Data.event_leb (Data.rows events) in
  In r (Data.groupby_agg ev) ->
  exists k e g,
    filter (fun e => (Data.work_order_id e =? k)%Z) ev = e :: g
    /\ r = Data.aggregate e g.
Proof.
  intros ev.
  unfold Data.groupby_agg.
  rewrite in_flat_map.
  intros (k & _ & Hr).
  destruct (filter _ ev) as [|e g] eqn:Eg; [destruct Hr|].
  destruct Hr as [<- | []].
  now exists k, e, g.
Qed.

(** C10.  On a valid event table [build_work_orders] returns an incident
    table with exactly one row per distinct work_order_id of the events:
    the ids of its rows are pairwise distinct, they are the ids that occur
    in the events, and there are as many rows as distinct ids; each row is
    backed by at least one event, its start_ts is the minimum and its
    end_ts the maximum over the events of the incident, and its technicians
    are the distinct non-blank technician names of those events in sorted
    order. *)
Theorem build_work_orders_incidents (events : Data.EventFrame) :
  valid_events events ->
  exists wo,
    Data.build_work_orders events = Ok wo
    /\ NoDup (ids wo)
    /\ (forall id, In id (ids wo) <->
                   exists e, In e (Data.rows events) /\ Data.work_order_id e = id)
    /\ List.length (Analytics.rows wo)
       = Py.nunique Z.eq_dec (map Data.work_order_id (Data.rows events))
    /\ (forall r, In r (Analytics.rows wo) ->
          let evs := events_of events (Analytics.work_order_id r) in
          evs <> []
          /\ (exists e, In e evs /\ Analytics.start_ts r = Data.start_ts e)
          /\ (forall e, In e evs -> (Analytics.start_ts r <= Data.start_ts e)%Z)
          /\ (exists e, In e evs /\ Analytics.end_ts r = Data.end_ts e)
          /\ (forall e, In e evs -> (Data.end_ts e <= Analytics.end_ts r)%Z)
          /\ (exists ts, Analytics.technicians r = map Some ts
                         /\ StronglySorted Py.str_lt ts
                         /\ forall x, In x ts <->
                                      Data.nonblank x = true
                                      /\ exists e, In e evs /\ Data.technician e = x)).
Proof.
  intros Hvalid.
  unfold Data.build_work_orders.
  rewrite (validate_ok events Hvalid); simpl bind.
  pose proof Hvalid as Hcols.
  unfold valid_events in Hcols.
  rewrite forallb_app in Hcols.
  apply andb_true_iff in Hcols as [_ Hts].
  simpl in Hts.
  apply andb_true_iff in Hts as [Hs He].
  apply andb_true_iff in He as [He _].
  rewrite Hs, He; simpl negb; cbv iota.
  set (ev := Py.sort Data.event_leb (Data.rows events)).
  set (keys := Py.sort Z.leb (Py.unique Z.eq_dec (map Data.work_order_id ev))).
  set (agg := Data.groupby_agg ev).
  assert (Hkeys : forall k, In k keys <-> In k (map Data.work_order_id ev)).
  { intros k. unfold keys. now rewrite sort_In, unique_In. }
  assert (Hids : map Analytics.work_order_id agg = keys).
  { apply (group_ids events). intros k. apply Hkeys. }
  exists (Analytics.mkDataFrame true agg).
  split; [reflexivity|].
  unfold ids; simpl Analytics.rows.
  split.
  { rewrite Hids. unfold keys.
    eapply Permutation_NoDup; [symmetry; apply sort_perm | apply unique_NoDup]. }
  split.
  { intros id.
    rewrite Hids, Hkeys, in_map_iff.
    split; intros (e & H1 & H2); exists e.
    - split; [apply (sort_In Data.event_leb), H2 | exact H1].
    - split; [exact H2 | apply (sort_In Data.event_leb), H1]. }
  split.
  { rewrite <- (length_map Analytics.work_order_id agg), Hids.
    unfold keys.
    rewrite sort_length.
    apply (nunique_ext Z.eq_dec).
    intros x.
    rewrite !in_map_iff.
    split; intros (e & H1 & H2); exists e; (split; [exact H1|]);
      apply (sort_In Data.event_leb), H2. }
  intros r Hr.
  apply group_rows in Hr as (k & e & g & Eg & ->).
  destruct (aggregate_spec events k e g Eg) as (Hid & Hs1 & Hs2 & He1 & He2 & Ht).
  rewrite Hid.
  cbv zeta.
  split.
  { destruct Hs1 as (e' & Hin & _).
    intros E. rewrite E in Hin. destruct Hin. }
  repeat split; assumption.
Qed.

(** ** Date ranges in [extract_filters] *)

(** The half-year phrases are tried first and settle the range. *)
Lemma extract_filters_half_year (q : string) (eqs pls syms : list string) (dy : Z)
    (lo hi : Analytics.Timestamp) :
  App._half_year_range_from_query q dy = (Some lo, Some hi) ->
  App.extract_filters q eqs pls syms dy
  = Ok (Analytics.mkFilters (App._extract_equipment_id q eqs)
          (App._extract_product_line q pls) (App._extract_symptom_code q syms)
          (Some lo) (Some hi)).
Proof.
  intros H.
  unfold App.extract_filters.
  now rewrite H.
Qed.

(** Without a half-year phrase the month names decide, and an error of the
    month lookup is the error of [extract_filters]. *)
Lemma extract_filters_month (q : string) (eqs pls syms : list string) (dy : Z) :
  App._half_year_range_from_query q dy = (None, None) ->
  App.extract_filters q eqs pls syms dy
  = (r <- App._month_range_from_query q dy ;;
     Ok (Analytics.mkFilters (App._extract_equipment_id q eqs)
           (App._extract_product_line q pls) (App._extract_symptom_code q syms)
           (fst r) (snd r))).
Proof.
  intros H.
  unfold App.extract_filters.
  now rewrite H.
Qed.

Lemma half_year_cases (q : string) (dy : Z) :
  let ql := Py.lower q in
  let y := App._year_from_query ql dy in
  App._half_year_range_from_query q dy
  = if App.is_match (Regex.search App.h1_re ql)
    then (Some (App.Timestamp y 1 1), Some (App.Timestamp y 7 1))
    else if App.is_match (Regex.search App.h2_re ql)
         then (Some (App.Timestamp y 7 1), Some (App.Timestamp (y + 1) 1 1))
         else (None, None).
Proof. reflexivity. Qed.

Example july_defaults_to_modal_year :
  App.extract_filters "How many incidents in July?" [] [] [] 2024
  = Ok (Analytics.mkFilters None None None
          (Some (App.Timestamp 2024 7 1)) (Some (App.Timestamp 2024 8 1))).
Proof. vm_compute. reflexivity. Qed.

Example second_half_of_named_year :
  App.extract_filters "incidents in H2 2023, december included" [] [] [] 2024
  = Ok (Analytics.mkFilters None None None
          (Some (App.Timestamp 2023 7 1)) (Some (App.Timestamp 2024 1 1))).
Proof. vm_compute. reflexivity. Qed.

(** *** What the month and year patterns capture *)

Lemma consumed_refl (r : string) : Regex.consumed r r = "".
Proof.
  unfold Regex.consumed.
  rewrite Nat.sub_diag.
  now destruct r.
Qed.

Lemma consumed_cons (c : ascii) (s r : string) :
  String.length r <= String.length s ->
  Regex.consumed (String c s) r = String c (Regex.consumed s r).
Proof.
  intros H.
  unfold Regex.consumed.
  cbn [String.length].
  replace (S (String.length s) - String.length r)
    with (S (String.length s - String.length r)) by lia.
  reflexivity.
Qed.

(** Symbolic execution of the matcher on an unknown text: [walk H] unfolds
    one layer of [run] in [H] and splits on the next test it is stuck on. *)
Ltac settle b :=
  let v := eval vm_compute in b in
  match v with
  | true => change b with true in *
  | false => change b with false in *
  end.

Ltac walk H :=
  cbn [Regex.run Regex.peek Regex.wordish App.seq App.alts Regex.Str Regex.star
       Regex.match_here xorb negb] in H;
  lazymatch type of H with
  | None = Some _ => discriminate H
  | Some _ = Some _ => fail "a match"
  | context [Ascii.eqb ?a ?b] =>
      first [ settle (Ascii.eqb a b)
            | destruct (Ascii.eqb_spec a b); [subst|] ]
  | context [Py.is_word ?c] =>
      first [ settle (Py.is_word c) | destruct (Py.is_word c) ]
  | context [Py.is_digit ?c] =>
      first [ settle (Py.is_digit c) | destruct (Py.is_digit c) eqn:? ]
  | context [match ?s with EmptyString => _ | String _ _ => _ end] =>
      is_var s; destruct s
  | context [Regex.wordish (Regex.peek ?s)] =>
      destruct (Regex.wordish (Regex.peek s))
  | context [Regex.wordish ?p] => is_var p; destruct (Regex.wordish p)
  end.

Ltac captured H :=
  injection H as <-;
  repeat rewrite consumed_cons by (cbn [String.length]; lia);
  rewrite consumed_refl.

Lemma month_capture (prev : option ascii) (s g : string) :
  Regex.match_here App.month_re prev s = Some g -> In g month_words.
Proof.
  intros H.
  unfold App.month_re in H.
  repeat walk H.
  all: captured H; vm_compute; tauto.
Qed.

Lemma search_from_month (s : string) (prev : option ascii) (g : string) :
  Regex.search_from App.month_re prev s = Some g -> In g month_words.
Proof.
  revert prev.
  induction s as [|c s IH]; intros prev; cbn [Regex.search_from];
    destruct (Regex.match_here App.month_re prev _) eqn:E; intros H;
    try discriminate;
    try (injection H as <-; eapply month_capture; eassumption).
  eapply IH; eassumption.
Qed.

Lemma getitem_month (g : string) :
  In g month_words ->
  g = "sepember" \/ exists mon, App.getitem App._MONTH_MAP g = Ok mon /\ (1 <= mon <= 12)%Z.
Proof.
  unfold month_words.
  cbn [map fst App._MONTH_MAP app].
  intros H.
  repeat (destruct H as [<- | H];
          [right; eexists; split; [vm_compute; reflexivity | lia]|]).
  destruct H as [<- | []].
  now left.
Qed.

(** [_month_range_from_query] can only fail with [KeyError('sepember')],
    and does so exactly when that is the first word the pattern finds. *)
Lemma month_range_failure (q : string) (dy : Z) (e : exn) :
  App._month_range_from_query q dy = Raise e <->
  e = KeyError "sepember"
  /\ Regex.search App.month_re (Py.lower q) = Some "sepember".
Proof.
  unfold App._month_range_from_query.
  destruct (Regex.search App.month_re (Py.lower q)) as [g|] eqn:E.
  - destruct (getitem_month g (search_from_month _ _ _ E)) as [-> | (mon & Hm & _)].
    + cbn. split; [intros H; injection H as <-; now split | intros [-> _]; reflexivity].
    + rewrite Hm. cbn.
      split; [discriminate|].
      intros [_ H]. injection H as ->.
      vm_compute in Hm. discriminate.
  - split; [discriminate | intros [_ H]; discriminate].
Qed.

(** Hence, for a default year that [pd.Timestamp] accepts,
    [extract_filters] raises exactly on the questions without a half-year
    phrase whose first month-like word is "sepember". *)
Lemma extract_filters_failure (q : string) (eqs pls syms : list string) (dy : Z)
    (e : exn) :
  App.extract_filters q eqs pls syms dy = Raise e <->
  e = KeyError "sepember"
  /\ App._half_year_range_from_query q dy = (None, None)
  /\ Regex.search App.month_re (Py.lower q) = Some "sepember".
Proof.
  unfold App.extract_filters.
  destruct (App._half_year_range_from_query q dy) as [[lo|] [hi|]] eqn:Eh; cbn.
  - split; [discriminate | intros (_ & H & _); discriminate].
  - split; [discriminate | intros (_ & H & _); discriminate].
  - split; [discriminate | intros (_ & H & _); discriminate].
  - destruct (App._month_range_from_query q dy) as [r|e'] eqn:Em; cbn.
    + split; [discriminate|].
      intros (-> & _ & Hs).
      assert (Hr : App._month_range_from_query q dy = Raise (KeyError "sepember"))
        by (apply month_range_failure; now split).
      congruence.
    + apply month_range_failure in Em as [-> Hs].
      split; [intros H; injection H as <-; now repeat split|].
      now intros (-> & _ & _).
Qed.

Lemma year_capture (prev : option ascii) (s g : string) :
  Regex.match_here App.year_re prev s = Some g ->
  exists d1 d2,
    Py.is_digit d1 = true /\ Py.is_digit d2 = true
    /\ g = String "2" (String "0" (String d1 (String d2 EmptyString))).
Proof.
  intros H.
  unfold App.year_re in H.
  repeat walk H.
  all: captured H; eauto.
Qed.

Lemma search_from_year (s : string) (prev : option ascii) (g : string) :
  Regex.search_from App.year_re prev s = Some g ->
  exists d1 d2,
    Py.is_digit d1 = true /\ Py.is_digit d2 = true
    /\ g = String "2" (String "0" (String d1 (String d2 EmptyString))).
Proof.
  revert prev.
  induction s as [|c s IH]; intros prev; cbn [Regex.search_from];
    destruct (Regex.match_here App.year_re prev _) eqn:E; intros H;
    try discriminate;
    try (injection H as <-; eapply year_capture; eassumption).
  eapply IH; eassumption.
Qed.

Lemma digit_val_range (d : ascii) :
  Py.is_digit d = true -> (0 <= Py.digit_val d <= 9)%Z.
Proof.
  unfold Py.is_digit, Py.digit_val.
  rewrite andb_true_iff, !Nat.leb_le.
  lia.
Qed.

(** The year is the caller's default or a number from 2000 to 2099. *)
Lemma year_from_query_range (ql : string) (dy : Z) :
  App._year_from_query ql dy = dy
  \/ (2000 <= App._year_from_query ql dy <= 2099)%Z.
Proof.
  unfold App._year_from_query, Regex.search.
  destruct (Regex.search_from App.year_re None ql) as [g|] eqn:E; [right | now left].
  apply search_from_year in E as (d1 & d2 & H1 & H2 & ->).
  apply digit_val_range in H1, H2.
  cbn [Py.int_of_digits].
  change (Py.digit_val "2") with 2%Z.
  change (Py.digit_val "0") with 0%Z.
  lia.
Qed.

(** C3.  The month pattern [sep(?:t)?(?:ember)?] accepts the word
    "sepember", which is not a key of [_MONTH_MAP]: on such a question
    [extract_filters] raises [KeyError] instead of resolving a date range
    or leaving both bounds unset. *)
Theorem extract_filters_sepember :
  Regex.search App.month_re (Py.lower "How many incidents in Sepember?") = Some "sepember"
  /\ App._half_year_range_from_query "How many incidents in Sepember?" 2024 = (None, None)
  /\ App.extract_filters "How many incidents in Sepember?" [] [] [] 2024
     = Raise (KeyError "sepember").
Proof. repeat split; vm_compute; reflexivity. Qed.

(** ** The handler cascades *)

Lemma intent_of_lower (q1 q2 : string) :
  Py.lower q1 = Py.lower q2 -> App.intent q1 = App.intent q2.
Proof.
  intros E.
  unfold App.intent.
  now rewrite E.
Qed.

Lemma intent_empty (user : string) :
  Py.nonempty user = false -> App.intent user = App.Unknown.
Proof.
  intros H.
  apply nonempty_false in H.
  now subst user.
Qed.

Lemma intent_exit (user : string) :
  String.eqb (Py.lower user) "exit" || String.eqb (Py.lower user) "quit" = true ->
  App.intent user = App.Unknown.
Proof.
  intros H.
  apply orb_true_iff in H as [H | H]; apply String.eqb_eq in H.
  - now rewrite (intent_of_lower user "exit").
  - now rewrite (intent_of_lower user "quit").
Qed.

Lemma maybe_llm_off (env : App.LLM) (user ans : string) :
  App.USE_LLM env && App.llm_available env = false ->
  App.maybe_llm env user ans = ans.
Proof.
  intros H.
  unfold App.maybe_llm.
  rewrite H.
  destruct (negb (Py.nonempty ans)); [reflexivity|].
  destruct (Py.isdigit (Py.strip ans)); reflexivity.
Qed.

Lemma reply_off (env : App.LLM) (user : string) (o : option string) :
  App.USE_LLM env && App.llm_available env = false ->
  Webapp.reply env user o = plain o.
Proof.
  intros H.
  destruct o; simpl; [now apply maybe_llm_off | reflexivity].
Qed.

(** What [answer_question] returns for the two global intents. *)
Lemma answer_global (ctx : Context) (q : string) (f : Analytics.Filters) :
  let user := Py.strip q in
  let wo := work_orders ctx in
  App.extract_filters user (known_equipment ctx) (known_product_lines ctx)
    (known_symptoms ctx) (default_year ctx) = Ok f ->
  global_intent (App.intent user) = true ->
  Webapp.answer_question ctx q
  = match App.intent user with
    | App.TopEquipment =>
        Ok (Webapp.reply (llm ctx) user
              (Render.top_answer
                 (Analytics.top_equipment wo 1 (Some Analytics.no_filter))))
    | _ =>
        df <- Analytics.top_technicians wo 1 (Some Analytics.no_filter) ;;
        Ok (Webapp.reply (llm ctx) user (Render.top_answer df))
    end.
Proof.
  intros user wo Hf Hit.
  unfold Webapp.answer_question.
  fold user.
  destruct (Py.nonempty user) eqn:Hne.
  - simpl negb. cbv iota.
    rewrite Hf. simpl bind.
    destruct (App.intent user); try discriminate; reflexivity.
  - rewrite (intent_empty user Hne) in Hit. discriminate.
Qed.

Lemma turn_global (ctx : Context) (q : string) (f : Analytics.Filters) :
  let user := Py.strip q in
  let wo := work_orders ctx in
  App.extract_filters user (known_equipment ctx) (known_product_lines ctx)
    (known_symptoms ctx) (default_year ctx) = Ok f ->
  global_intent (App.intent user) = true ->
  AppMain.turn ctx q
  = match App.intent user with
    | App.TopEquipment =>
        Ok (AppMain.print_opt (llm ctx) user
              (Render.top_answer
                 (Analytics.top_equipment wo 1 (Some Analytics.no_filter))))
    | _ =>
        df <- Analytics.top_technicians wo 1 (Some Analytics.no_filter) ;;
        Ok (AppMain.print_opt (llm ctx) user (Render.top_answer df))
    end.
Proof.
  intros user wo Hf Hit.
  unfold AppMain.turn.
  fold user.
  destruct (Py.nonempty user) eqn:Hne.
  - simpl negb. cbv iota.
    destruct (String.eqb (Py.lower user) "exit" || String.eqb (Py.lower user) "quit")
      eqn:Hexit.
    + rewrite (intent_exit user Hexit) in Hit. discriminate.
    + rewrite Hf. simpl bind.
      destruct (App.intent user); try discriminate; reflexivity.
  - rewrite (intent_empty user Hne) in Hit. discriminate.
Qed.

(** A question of one of the two global intents is answered from the whole
    table unless the date extraction fails on the word "sepember". *)
Lemma answer_global_or_keyerror (ctx : Context) (q : string) :
  let user := Py.strip q in
  let wo := work_orders ctx in
  global_intent (App.intent user) = true ->
  Webapp.answer_question ctx q = Raise (KeyError "sepember")
  \/ Webapp.answer_question ctx q
     = match App.intent user with
       | App.TopEquipment =>
           Ok (Webapp.reply (llm ctx) user
                 (Render.top_answer
                    (Analytics.top_equipment wo 1 (Some Analytics.no_filter))))
       | _ =>
           df <- Analytics.top_technicians wo 1 (Some Analytics.no_filter) ;;
           Ok (Webapp.reply (llm ctx) user (Render.top_answer df))
       end.
Proof.
  intros user wo Hit.
  destruct (App.extract_filters user (known_equipment ctx) (known_product_lines ctx)
              (known_symptoms ctx) (default_year ctx)) as [f|e] eqn:Hf.
  - right. exact (answer_global ctx q f Hf Hit).
  - left.
    pose proof (proj1 (extract_filters_failure _ _ _ _ _ _) Hf) as [-> _].
    unfold Webapp.answer_question.
    fold user.
    destruct (Py.nonempty user) eqn:Hne.
    + cbn [negb]. now rewrite Hf.
    + rewrite (intent_empty user Hne) in Hit. discriminate.
Qed.

(** With [Filters()] the aggregation ranks every incident of the table. *)
Lemma top_equipment_global (wo : Analytics.DataFrame) (n : Z) :
  Analytics.top_equipment wo n (Some Analytics.no_filter)
  = Py.head n (Py.sort Analytics.rank_leb
                 (Analytics.groupby_size (map Analytics.equipment_id (Analytics.rows wo)))).
Proof.
  unfold Analytics.top_equipment, Analytics.empty.
  simpl Analytics.or_default.
  rewrite filter_work_orders_no_filter.
  destruct (Analytics.rows wo); [|reflexivity].
  symmetry.
  exact (head_nil n).
Qed.

(** With [Filters()] the technician ranking is computed from every
    incident of the table. *)
Lemma top_technicians_global (wo : Analytics.DataFrame) (n : Z) :
  Analytics.top_technicians wo n (Some Analytics.no_filter)
  = if Analytics.empty wo then Ok []
    else if negb (Analytics.has_technicians wo) then Raise Analytics.missing_technicians
    else Ok (Py.head n
               (Py.sort Analytics.rank_leb
                  (Analytics.groupby_nunique
                     (Analytics.clean
                        (flat_map (fun r => Analytics.explode_row
                                              (Analytics.work_order_id r)
                                              (Analytics.technicians r))
                           (Analytics.rows wo)))))).
Proof.
  unfold Analytics.top_technicians, Analytics.empty.
  simpl Analytics.or_default.
  now rewrite filter_work_orders_no_filter, filter_work_orders_columns.
Qed.

(** C7, as amended.  For a question classified as top_equipment or
    top_technician whose filter extraction returns a Filter, that Filter
    plays no part.  The web entry point and the command-line loop take the
    ranking the aggregation computes with [Filters()], which is the ranking
    of all rows of the table: when it raises they raise, when it is empty
    the answer is the empty string, and otherwise the answer is
    [maybe_llm] of the question and "<id> with <n> work orders" for its
    first entry, which is that text itself when the paraphrase step is off.
    The same question asked with other known sets or another default year,
    hence another Filter, gets the same answer; and with the paraphrase
    step off every question of the same intent gets the same answer. *)
Theorem top_answers_ignore_filter (ctx : Context) (q : string) (f : Analytics.Filters) :
  let user := Py.strip q in
  let wo := work_orders ctx in
  App.extract_filters user (known_equipment ctx) (known_product_lines ctx)
    (known_symptoms ctx) (default_year ctx) = Ok f ->
  global_intent (App.intent user) = true ->
  match
    match App.intent user with
    | App.TopEquipment => Ok (Analytics.top_equipment wo 1 (Some Analytics.no_filter))
    | _ => Analytics.top_technicians wo 1 (Some Analytics.no_filter)
    end
  with
  | Raise e => Webapp.answer_question ctx q = Raise e /\ AppMain.turn ctx q = Raise e
  | Ok [] =>
      Webapp.answer_question ctx q = Ok "" /\ AppMain.turn ctx q = Ok (AppMain.Print "")
  | Ok ((id, n) :: _) =>
      let ans := (id ++ " with " ++ Py.str_of_nat n ++ " work orders")%string in
      Webapp.answer_question ctx q = Ok (App.maybe_llm (llm ctx) user ans)
      /\ AppMain.turn ctx q = Ok (AppMain.Print (App.maybe_llm (llm ctx) user ans))
      /\ (App.USE_LLM (llm ctx) && App.llm_available (llm ctx) = false ->
          Webapp.answer_question ctx q = Ok ans
          /\ AppMain.turn ctx q = Ok (AppMain.Print ans))
  end
  /\ Analytics.top_equipment wo 1 (Some Analytics.no_filter)
     = Py.head 1 (Py.sort Analytics.rank_leb
                    (Analytics.groupby_size
                       (map Analytics.equipment_id (Analytics.rows wo))))
  /\ Analytics.top_technicians wo 1 (Some Analytics.no_filter)
     = (if Analytics.empty wo then Ok []
        else if negb (Analytics.has_technicians wo)
             then Raise Analytics.missing_technicians
             else Ok (Py.head 1
                        (Py.sort Analytics.rank_leb
                           (Analytics.groupby_nunique
                              (Analytics.clean
                                 (flat_map (fun r => Analytics.explode_row
                                                       (Analytics.work_order_id r)
                                                       (Analytics.technicians r))
                                    (Analytics.rows wo)))))))
  /\ (forall ctx' f',
        work_orders ctx' = wo -> llm ctx' = llm ctx ->
        App.extract_filters user (known_equipment ctx') (known_product_lines ctx')
          (known_symptoms ctx') (default_year ctx') = Ok f' ->
        Webapp.answer_question ctx' q = Webapp.answer_question ctx q
        /\ AppMain.turn ctx' q = AppMain.turn ctx q)
  /\ (App.USE_LLM (llm ctx) && App.llm_available (llm ctx) = false ->
      forall q' f',
        App.extract_filters (Py.strip q') (known_equipment ctx) (known_product_lines ctx)
          (known_symptoms ctx) (default_year ctx) = Ok f' ->
        App.intent (Py.strip q') = App.intent user ->
        Webapp.answer_question ctx q' = Webapp.answer_question ctx q
        /\ AppMain.turn ctx q' = AppMain.turn ctx q).
Proof.
  intros user wo Hf Hg.
  pose proof (answer_global ctx q f Hf Hg) as Ha.
  pose proof (turn_global ctx q f Hf Hg) as Ht.
  cbv zeta in Ha, Ht.
  fold user in Ha, Ht.
  fold wo in Ha, Ht.
  split; [|split; [apply top_equipment_global|split; [apply top_technicians_global|split]]].
  - rewrite Ha, Ht.
    destruct (App.intent user); try discriminate Hg.
    + destruct (Analytics.top_technicians wo 1 (Some Analytics.no_filter))
        as [[|[id n] rest] | e];
        cbn [bind Webapp.reply AppMain.print_opt Render.top_answer Render.with_count].
      * split; reflexivity.
      * split; [reflexivity|].
        split; [reflexivity|].
        intros Hoff.
        now rewrite (maybe_llm_off _ _ _ Hoff).
      * split; reflexivity.
    + destruct (Analytics.top_equipment wo 1 (Some Analytics.no_filter))
        as [|[id n] rest];
        cbn [Webapp.reply AppMain.print_opt Render.top_answer Render.with_count].
      * split; reflexivity.
      * split; [reflexivity|].
        split; [reflexivity|].
        intros Hoff.
        now rewrite (maybe_llm_off _ _ _ Hoff).
  - intros ctx' f' Hwo Hllm Hf'.
    rewrite Ha, Ht.
    rewrite (answer_global ctx' q f' Hf' Hg), (turn_global ctx' q f' Hf' Hg).
    fold user.
    now rewrite Hwo, Hllm.
  - intros Hoff q' f' Hf' Hit'.
    assert (Hg' : global_intent (App.intent (Py.strip q')) = true) by now rewrite Hit'.
    rewrite Ha, Ht.
    rewrite (answer_global ctx q' f' Hf' Hg'), (turn_global ctx q' f' Hf' Hg').
    rewrite Hit'.
    fold wo.
    destruct (App.intent user); try discriminate Hg.
    + destruct (Analytics.top_technicians wo 1 (Some Analytics.no_filter))
        as [[|[id n] rest] | e];
        cbn [bind Webapp.reply AppMain.print_opt Render.top_answer Render.with_count];
        [split; reflexivity | | split; reflexivity].
      now rewrite !(maybe_llm_off _ _ _ Hoff).
    + destruct (Analytics.top_equipment wo 1 (Some Analytics.no_filter))
        as [|[id n] rest];
        cbn [Webapp.reply AppMain.print_opt Render.top_answer Render.with_count];
        [split; reflexivity|].
      now rewrite !(maybe_llm_off _ _ _ Hoff).
Qed.

(** The web entry point has no branch for count_distinct_equipment. *)
Lemma answer_distinct_equipment (ctx : Context) (q : string) (f : Analytics.Filters) :
  App.extract_filters (Py.strip q) (known_equipment ctx) (known_product_lines ctx)
    (known_symptoms ctx) (default_year ctx) = Ok f ->
  App.intent (Py.strip q) = App.CountDistinctEquipment ->
  Webapp.answer_question ctx q = Ok "".
Proof.
  intros Hf Hit.
  unfold Webapp.answer_question.
  destruct (negb _); [reflexivity|].
  now rewrite Hf, Hit.
Qed.

(** C8.  On a table with three distinct equipment ids, the question is
    classified as count_distinct_equipment and the command-line loop prints
    the count "3", while [answer_question] of the web entry point (and its
    copy in the test runner) returns the empty string. *)
Theorem distinct_equipment_web_answer_is_empty :
  App.intent "How many distinct equipment ids are there?" = App.CountDistinctEquipment
  /\ Analytics.count_distinct_equipment (work_orders demo_ctx) None = 3
  /\ AppMain.turn demo_ctx "How many distinct equipment ids are there?"
     = Ok (AppMain.Print "3")
  /\ Webapp.answer_question demo_ctx "How many distinct equipment ids are there?"
     = Ok "".
Proof. repeat split; vm_compute; reflexivity. Qed.

(** ** Worked examples, counterexamples and instances *)

Example demo_ranking :
  Analytics.top_technicians demo_orders 5 None
  = Ok [("Alice", 2); ("Bob", 2); ("Carol", 1)].
Proof. vm_compute. reflexivity. Qed.

(** An incident that lists a technician twice counts once. *)
Example distinct_not_raw :
  exploded_rows demo_rows "Bob" = 3 /\ distinct_orders demo_rows "Bob" = 2.
Proof. split; vm_compute; reflexivity. Qed.

(** The scenario of three events of incident 1 (Alice, Bob, Alice) and one
    event of incident 2 (Carol). *)
Example scenario_two_incidents :
  exists wo,
    Data.build_work_orders demo_events = Ok wo
    /\ List.length (Analytics.rows wo) = 2
    /\ map Analytics.technicians (Analytics.rows wo)
       = [[Some "Alice"; Some "Bob"]; [Some "Carol"]]
    /\ Analytics.count_distinct_technicians wo None = Ok 3
    /\ Analytics.top_technicians wo 1 None = Ok [("Alice", 1)].
Proof. eexists. repeat split; vm_compute; reflexivity. Qed.

Example top_equipment_tie_break :
  Analytics.top_equipment demo_orders 2 None = [("CNC-01", 2); ("CNC-02", 2)].
Proof. vm_compute. reflexivity. Qed.

(** C2, counterexample.  With leading blanks the text does not start with
    "what about", yet [intent] answers what_about. *)
Lemma intent_leading_blanks :
  Py.startswith (Py.lower "  What about CNC-02?") "what about" = false
  /\ intent_verbatim "  What about CNC-02?" = App.Unknown
  /\ App.intent "  What about CNC-02?" = App.WhatAbout
  /\ App.intent "  What about CNC-02?" <> intent_verbatim "  What about CNC-02?".
Proof. repeat split; try (vm_compute; reflexivity). vm_compute. discriminate. Qed.

(** C5, counterexample.  A keyword with surrounding whitespace is not
    searched as given: "leak " occurs literally in one incident but
    [count_mentions] returns 2, and the non-empty keyword " " occurs in four
    incidents but [count_mentions] returns 0. *)
Lemma count_mentions_padded_keyword :
  count_mentions_verbatim demo_orders "leak " None = 1
  /\ Analytics.count_mentions demo_orders "leak " None = 2
  /\ count_mentions_verbatim demo_orders " " None = 4
  /\ Analytics.count_mentions demo_orders " " None = 0.
Proof. repeat split; vm_compute; reflexivity. Qed.

(** C9, counterexample.  The table has no technicians column and the
    filter leaves no incident: both functions return normally. *)
Lemma missing_column_empty_scope :
  Analytics.has_technicians legacy_orders = false
  /\ Analytics.rows (Analytics.filter_work_orders legacy_orders (only_equipment "LATHE-99"))
     = []
  /\ Analytics.top_technicians legacy_orders 5 (Some (only_equipment "LATHE-99")) = Ok []
  /\ Analytics.count_distinct_technicians legacy_orders (Some (only_equipment "LATHE-99"))
     = Ok 0.
Proof. repeat split; vm_compute; reflexivity. Qed.

(** C7, counterexample.  With the paraphrase step on, two top_equipment
    questions that differ in their constraints get different answers, the
    question being part of what the rewrite receives; and on a table built
    from events without a technician name a top_technician question gets
    the empty string, not a text "<id> with <n> work orders". *)
Lemma global_answers_vary :
  (App.intent (Py.strip q_top) = App.TopEquipment
   /\ App.intent (Py.strip q_top_plain) = App.TopEquipment
   /\ Webapp.answer_question echo_ctx q_top
      = Ok (q_top ++ " CNC-01 with 2 work orders")%string
   /\ Webapp.answer_question echo_ctx q_top_plain
      = Ok (q_top_plain ++ " CNC-01 with 2 work orders")%string
   /\ ~ global_answers_verbatim echo_ctx)
  /\ (Data.build_work_orders unstaffed_events = Ok unstaffed_orders
      /\ App.intent (Py.strip q_technician) = App.TopTechnician
      /\ Webapp.answer_question unstaffed_ctx q_technician = Ok ""
      /\ ~ global_answers_verbatim unstaffed_ctx).
Proof.
  split.
  - split; [vm_compute; reflexivity|].
    split; [vm_compute; reflexivity|].
    split; [vm_compute; reflexivity|].
    split; [vm_compute; reflexivity|].
    intros C.
    destruct (C q_top) as [_ Hsame]; [vm_compute; reflexivity|].
    assert (E : Webapp.answer_question echo_ctx q_top_plain
                = Webapp.answer_question echo_ctx q_top)
      by (apply Hsame; vm_compute; reflexivity).
    vm_compute in E.
    discriminate E.
  - split; [vm_compute; reflexivity|].
    split; [vm_compute; reflexivity|].
    split; [vm_compute; reflexivity|].
    intros C.
    destruct (C q_technician) as [(id & n & E) _]; [vm_compute; reflexivity|].
    assert (E0 : Webapp.answer_question unstaffed_ctx q_technician = Ok "")
      by (vm_compute; reflexivity).
    rewrite E0 in E.
    destruct id; discriminate E.
Qed.

(** C1 on the sample table: BEARING_WEAR and SPINDLE_TIMEOUT are tied at 2. *)
Lemma most_common_symptoms_ties_witness :
  Analytics.most_common_symptoms demo_orders None
  = [("BEARING_WEAR", 2); ("SPINDLE_TIMEOUT", 2)].
Proof.
  apply (proj2 (proj2 (proj2 (most_common_symptoms_ties demo_orders None)))).
  - vm_compute. reflexivity.
  - vm_compute. reflexivity.
  - vm_compute. reflexivity.
  - intros c HA HB.
    unfold freq.
    change (map Analytics.symptom_code
              (Analytics.rows
                 (Analytics.filter_work_orders demo_orders (Analytics.or_default None))))
      with ["BEARING_WEAR"; "SPINDLE_TIMEOUT"; "BEARING_WEAR"; "SPINDLE_TIMEOUT";
            "HYDRAULIC_LEAK"].
    destruct (string_dec c "HYDRAULIC_LEAK") as [-> | HC].
    + vm_compute. lia.
    + rewrite !count_occ_cons_neq by congruence.
      simpl. lia.
Defined.

(** C4 on the sample table restricted to CNC-01. *)
Lemma top_technicians_ranking_witness :
  Analytics.has_technicians demo_orders = true
  /\ exists ranking,
       Analytics.top_technicians demo_orders 2 (Some (only_equipment "CNC-01"))
       = Ok (Py.head 2 ranking)
       /\ ((0 <= 2)%Z -> Py.head 2 ranking = firstn (Z.to_nat 2) ranking)
       /\ StronglySorted rank_lt ranking
       /\ (forall name k,
             In (name, k) ranking <->
             (exists r,
                In r (Analytics.rows
                        (Analytics.filter_work_orders demo_orders (only_equipment "CNC-01")))
                /\ In name (names r))
             /\ k = distinct_orders
                      (Analytics.rows
                         (Analytics.filter_work_orders demo_orders (only_equipment "CNC-01")))
                      name).
Proof.
  split; [reflexivity|].
  exact (top_technicians_ranking demo_orders 2 (Some (only_equipment "CNC-01")) eq_refl).
Defined.

(** C5 on the sample table: the padded, mixed-case keyword is found twice. *)
Lemma count_mentions_stripped_witness :
  Py.strip " Leak " <> ""
  /\ Analytics.count_mentions demo_orders " Leak " None = 2.
Proof.
  assert (H : Py.strip " Leak " <> "") by (vm_compute; discriminate).
  split; [exact H|].
  apply (proj1 (proj2 (proj2 (count_mentions_stripped demo_orders " Leak " None))) H).
  vm_compute.
  reflexivity.
Defined.

(** C6 on the sample table: CNC-02 in July 2024 against CNC-02 alone. *)
Lemma filter_work_orders_monotone_witness :
  narrower f_top (only_equipment "CNC-02")
  /\ incl (ids (Analytics.filter_work_orders demo_orders f_top))
          (ids (Analytics.filter_work_orders demo_orders (only_equipment "CNC-02"))).
Proof.
  assert (H : narrower f_top (only_equipment "CNC-02")).
  { split.
    - repeat split; intros v E; simpl in E; try discriminate; exact E.
    - vm_compute. lia. }
  split; [exact H|].
  exact (proj1 (filter_work_orders_monotone demo_orders f_top (only_equipment "CNC-02") H)).
Defined.

(** C7 on the sample context: the question names CNC-02 and July, a scope
    of one incident, and the answer is the top equipment of the whole table,
    as for the question without any constraint. *)
Lemma top_answers_ignore_filter_witness :
  App.extract_filters (Py.strip q_top) (known_equipment demo_ctx)
    (known_product_lines demo_ctx) (known_symptoms demo_ctx) (default_year demo_ctx)
  = Ok f_top
  /\ App.intent (Py.strip q_top) = App.TopEquipment
  /\ Analytics.count_incidents demo_orders (Some f_top) = 1
  /\ Webapp.answer_question demo_ctx q_top = Ok "CNC-01 with 2 work orders"
  /\ Webapp.answer_question demo_ctx q_top_plain = Webapp.answer_question demo_ctx q_top.
Proof.
  assert (H : App.extract_filters (Py.strip q_top) (known_equipment demo_ctx)
                (known_product_lines demo_ctx) (known_symptoms demo_ctx)
                (default_year demo_ctx) = Ok f_top) by (vm_compute; reflexivity).
  assert (Hit : App.intent (Py.strip q_top) = App.TopEquipment) by (vm_compute; reflexivity).
  assert (Hg : global_intent (App.intent (Py.strip q_top)) = true)
    by (vm_compute; reflexivity).
  split; [exact H|].
  split; [exact Hit|].
  split; [vm_compute; reflexivity|].
  split; [vm_compute; reflexivity|].
  pose proof (top_answers_ignore_filter demo_ctx q_top f_top H Hg) as T.
  cbv zeta in T.
  destruct T as (_ & _ & _ & _ & Hsame).
  refine (proj1 (Hsame eq_refl q_top_plain Analytics.no_filter _ _)).
  - vm_compute. reflexivity.
  - vm_compute. reflexivity.
Defined.

(** C9 on the sample table without the technicians column, no filter. *)
Lemma technicians_column_missing_witness :
  Analytics.has_technicians legacy_orders = false
  /\ Analytics.top_technicians legacy_orders 5 None = Raise Analytics.missing_technicians
  /\ Analytics.count_distinct_technicians legacy_orders None
     = Raise Analytics.missing_technicians.
Proof.
  split; [reflexivity|].
  apply (proj1 (technicians_column_missing legacy_orders 5 None eq_refl)).
  vm_compute.
  discriminate.
Defined.

(** C10 on the sample events: two incidents out of four events. *)
Lemma build_work_orders_incidents_witness :
  valid_events demo_events
  /\ exists wo,
       Data.build_work_orders demo_events = Ok wo
       /\ NoDup (ids wo)
       /\ List.length (Analytics.rows wo) = 2.
Proof.
  assert (H : valid_events demo_events) by (vm_compute; reflexivity).
  split; [exact H|].
  destruct (build_work_orders_incidents demo_events H) as (wo & Hb & Hnd & _ & Hlen & _).
  exists wo.
  split; [exact Hb|].
  split; [exact Hnd|].
  rewrite Hlen.
  vm_compute.
  reflexivity.
Defined.

(** * Further properties of the modelled code *)

(** ** Counting functions of src/analytics.py *)

Lemma filter_length_impl {A : Type} (p q : A -> bool) (l : list A) :
  (forall x, In x l -> p x = true -> q x = true) ->
  List.length (filter p l) <= List.length (filter q l).
Proof.
  induction l as [|a l IH]; intros H; simpl; [lia|].
  assert (IH' : List.length (filter p l) <= List.length (filter q l))
    by (apply IH; intros x Hx; apply H; now right).
  destruct (p a) eqn:Hp.
  - rewrite (H a (or_introl eq_refl) Hp). simpl. lia.
  - destruct (q a); simpl; lia.
Qed.

Lemma filter_length_le {A : Type} (p : A -> bool) (l : list A) :
  List.length (filter p l) <= List.length l.
Proof. induction l as [|a l IH]; simpl; [lia | destruct (p a); simpl; lia]. Qed.

Lemma count_incidents_rows (wo : Analytics.DataFrame) (f : option Analytics.Filters) :
  Analytics.count_incidents wo f
  = List.length (filter (matches (Analytics.or_default f)) (Analytics.rows wo)).
Proof.
  unfold Analytics.count_incidents.
  now rewrite filter_work_orders_rows.
Qed.

(** X1.  A filter that carries every populated field of another never
    counts more incidents, no filter counts more than the whole table, and
    without a filter [count_incidents] is the number of rows. *)
Theorem count_incidents_monotone (wo : Analytics.DataFrame) (n w : Analytics.Filters) :
  carries n w ->
  Analytics.count_incidents wo (Some n) <= Analytics.count_incidents wo (Some w)
  /\ Analytics.count_incidents wo (Some w) <= Analytics.count_incidents wo None
  /\ Analytics.count_incidents wo None = List.length (Analytics.rows wo).
Proof.
  intros Hc.
  rewrite !count_incidents_rows.
  simpl Analytics.or_default.
  split; [|split].
  - apply filter_length_impl.
    intros r _.
    now apply matches_carries.
  - apply filter_length_impl.
    reflexivity.
  - now rewrite filter_true.
Qed.

Lemma unique_length_le {A : Type} (dec : forall x y : A, {x = y} + {x <> y})
    (l : list A) :
  List.length (Py.unique dec l) <= List.length l.
Proof.
  apply NoDup_incl_length; [apply unique_NoDup|].
  intros x.
  apply unique_In.
Qed.

(** X2.  [count_distinct_equipment] is the size of the duplicate-free set
    of equipment ids of the filtered incidents; it never exceeds
    [count_incidents] and is 0 exactly when the filter leaves no incident. *)
Theorem count_distinct_equipment_spec (wo : Analytics.DataFrame)
    (f : option Analytics.Filters) :
  let df := Analytics.rows (Analytics.filter_work_orders wo (Analytics.or_default f)) in
  let n := Analytics.count_distinct_equipment wo f in
  n <= Analytics.count_incidents wo f
  /\ (n = 0 <-> df = [])
  /\ exists l, NoDup l /\ List.length l = n
               /\ forall e, In e l <-> exists r, In r df /\ Analytics.equipment_id r = e.
Proof.
  intros df n.
  assert (Hn : n = Py.nunique string_dec (map Analytics.equipment_id df)).
  { unfold n, Analytics.count_distinct_equipment, Analytics.empty.
    fold df.
    now destruct df. }
  split; [|split].
  - rewrite Hn.
    unfold Analytics.count_incidents, Py.nunique.
    fold df.
    rewrite <- (length_map Analytics.equipment_id df).
    apply unique_length_le.
  - rewrite Hn.
    unfold Py.nunique.
    rewrite length_zero_iff_nil.
    split.
    + intros H. apply unique_nil in H. now destruct df.
    + now intros ->.
  - exists (Py.unique string_dec (map Analytics.equipment_id df)).
    split; [apply unique_NoDup|].
    split; [now rewrite Hn|].
    intros e.
    rewrite unique_In, in_map_iff.
    split; intros (r & H1 & H2); exists r; tauto.
Qed.

(** ** Decimal answers and the paraphrase step *)

Lemma uint_digits (d : Decimal.uint) :
  Py.all_digits (NilEmpty.string_of_uint d) = true.
Proof. induction d; simpl; auto. Qed.

Lemma str_of_nat_digits (n : nat) :
  Py.nonempty (Py.str_of_nat n) = true /\ Py.all_digits (Py.str_of_nat n) = true.
Proof.
  unfold Py.str_of_nat, Py.str_of_Z.
  destruct (Z.of_nat n) as [|p|p] eqn:E; try lia.
  - split; reflexivity.
  - unfold Z.to_int, NilZero.string_of_int, NilZero.string_of_uint.
    destruct (Pos.to_uint p) eqn:Ep; try (split; [reflexivity | apply uint_digits]).
    split; reflexivity.
Qed.

Lemma digit_not_space (c : ascii) : Py.is_digit c = true -> Py.is_space c = false.
Proof.
  unfold Py.is_digit, Py.is_space.
  rewrite andb_true_iff, !Nat.leb_le.
  intros [H1 H2].
  apply orb_false_iff.
  split; apply andb_false_iff; rewrite !Nat.leb_gt; lia.
Qed.

Lemma rstrip_digits (s : string) : Py.all_digits s = true -> Py.rstrip s = s.
Proof.
  induction s as [|c s IH]; simpl; [reflexivity|].
  rewrite andb_true_iff.
  intros [Hc Hs].
  rewrite (IH Hs), (digit_not_space c Hc).
  now destruct s.
Qed.

Lemma strip_digits (s : string) : Py.all_digits s = true -> Py.strip s = s.
Proof.
  intros H.
  unfold Py.strip.
  destruct s as [|c s]; [reflexivity|].
  simpl in H.
  apply andb_true_iff in H as [Hc Hs].
  cbn [Py.lstrip].
  rewrite (digit_not_space c Hc).
  apply rstrip_digits.
  simpl.
  now rewrite Hc, Hs.
Qed.

(** X3.  A decimal count is never handed to the language model: whatever
    the [USE_LLM] switch, the reachability of the endpoint and the rewrite
    function, [maybe_llm] returns the text of a natural number unchanged;
    and with the switch off or the endpoint down it returns every answer
    unchanged. *)
Theorem maybe_llm_keeps_counts (env : App.LLM) (user : string) :
  (forall n, App.maybe_llm env user (Py.str_of_nat n) = Py.str_of_nat n)
  /\ (forall ans, App.USE_LLM env && App.llm_available env = false ->
                  App.maybe_llm env user ans = ans)
  /\ App.maybe_llm env user "" = "".
Proof.
  split; [|split].
  - intros n.
    destruct (str_of_nat_digits n) as [Hne Hd].
    unfold App.maybe_llm.
    rewrite Hne, (strip_digits _ Hd).
    unfold Py.isdigit.
    rewrite Hd.
    now destruct (Py.str_of_nat n).
  - intros ans. apply maybe_llm_off.
  - reflexivity.
Qed.

(** ** Rankings of src/analytics.py *)

Lemma list_sum_perm (l l' : list nat) : Permutation l l' -> list_sum l = list_sum l'.
Proof. induction 1; simpl; lia. Qed.

(** Distinct keys that cover a list split it into groups whose sizes add
    up to its length. *)
Lemma one_group {A K : Type} (eqb : K -> K -> bool) (key : A -> K) (a : A)
    (keys : list K) (g : K -> nat) :
  (forall a b, eqb a b = true <-> a = b) ->
  NoDup keys -> In (key a) keys ->
  list_sum (map (fun k => if eqb (key a) k then S (g k) else g k) keys)
  = S (list_sum (map g keys)).
Proof.
  intros Heqb.
  induction keys as [|k keys IH]; intros Hnd Ha; [destruct Ha|].
  apply NoDup_cons_iff in Hnd as [Hk Hnd].
  simpl.
  destruct (eqb (key a) k) eqn:E.
  - apply Heqb in E.
    simpl. f_equal. f_equal.
    f_equal.
    apply map_ext_in.
    intros k' Hk'.
    destruct (eqb (key a) k') eqn:E'; [|reflexivity].
    apply Heqb in E'.
    exfalso. apply Hk. rewrite <- E, E'. exact Hk'.
  - destruct Ha as [Ha | Ha]; [symmetry in Ha; apply Heqb in Ha; congruence|].
    rewrite (IH Hnd Ha).
    lia.
Qed.

Lemma group_sizes_add_up {A K : Type} (eqb : K -> K -> bool) (key : A -> K)
    (keys : list K) (l : list A) :
  (forall a b, eqb a b = true <-> a = b) ->
  NoDup keys -> (forall x, In x l -> In (key x) keys) ->
  list_sum (map (fun k => List.length (filter (fun x => eqb (key x) k) l)) keys)
  = List.length l.
Proof.
  intros Heqb Hnd.
  induction l as [|a l IH]; intros Hcov.
  - simpl. clear. induction keys; simpl; auto.
  - simpl List.length.
    rewrite <- IH by (intros x Hx; apply Hcov; now right).
    rewrite <- (one_group eqb key a keys _ Heqb Hnd (Hcov a (or_introl eq_refl))).
    f_equal.
    apply map_ext.
    intros k.
    simpl.
    now destruct (eqb (key a) k).
Qed.

Lemma count_occ_filter (l : list string) (k : string) :
  count_occ string_dec l k = List.length (filter (fun x => String.eqb x k) l).
Proof.
  induction l as [|a l IH]; simpl; [reflexivity|].
  destruct (string_dec a k) as [-> | NE].
  - rewrite String.eqb_refl. simpl. now rewrite IH.
  - destruct (String.eqb_spec a k); [contradiction | exact IH].
Qed.

Lemma groupby_size_In (keys : list string) (k : string) (c : nat) :
  In (k, c) (Analytics.groupby_size keys) <->
  In k keys /\ c = count_occ string_dec keys k.
Proof.
  unfold Analytics.groupby_size.
  rewrite in_map_iff.
  split.
  - intros (x & E & Hx).
    apply sort_In, unique_In in Hx.
    inversion E; subst.
    now split.
  - intros [Hin ->].
    exists k.
    split; [reflexivity | now apply sort_In, unique_In].
Qed.

Lemma groupby_size_keys (keys : list string) :
  NoDup (map fst (Analytics.groupby_size keys)).
Proof.
  unfold Analytics.groupby_size.
  rewrite map_map; simpl.
  rewrite map_id.
  eapply Permutation_NoDup; [symmetry; apply sort_perm | apply unique_NoDup].
Qed.

Lemma groupby_size_total (keys : list string) :
  list_sum (map snd (Analytics.groupby_size keys)) = List.length keys.
Proof.
  unfold Analytics.groupby_size.
  rewrite map_map; simpl.
  rewrite (list_sum_perm _ (map (count_occ string_dec keys) (Py.unique string_dec keys)))
    by (apply Permutation_map, sort_perm).
  rewrite (map_ext _ (fun k => List.length (filter (fun x => String.eqb x k) keys)))
    by (intros; apply count_occ_filter).
  apply (group_sizes_add_up String.eqb (fun x => x)).
  - apply String.eqb_eq.
  - apply unique_NoDup.
  - intros x Hx. now apply unique_In.
Qed.

(** The ranking behind [top_equipment] and [top_symptoms]. *)
Lemma ranking_spec (keys : list string) :
  let ranking := Py.sort Analytics.rank_leb (Analytics.groupby_size keys) in
  StronglySorted rank_lt ranking
  /\ (forall k c, In (k, c) ranking <-> 0 < c /\ c = count_occ string_dec keys k)
  /\ list_sum (map snd ranking) = List.length keys.
Proof.
  intros ranking.
  split; [apply rank_sorted, groupby_size_keys|].
  split.
  - intros k c.
    unfold ranking.
    rewrite sort_In, groupby_size_In.
    split.
    + intros [Hin ->]. split; [now apply count_occ_In | reflexivity].
    + intros [Hpos ->]. split; [now apply (count_occ_In string_dec) | reflexivity].
  - unfold ranking.
    rewrite (list_sum_perm _ (map snd (Analytics.groupby_size keys)))
      by (apply Permutation_map, sort_perm).
    apply groupby_size_total.
Qed.

(** X4.  [top_equipment] returns the first [n] entries of a ranking that
    has one entry per equipment id of the filtered incidents, carrying the
    number of those incidents, ordered by count descending and, among equal
    counts, by id ascending; the counts of the whole ranking add up to
    [count_incidents]. *)
Theorem top_equipment_ranking (wo : Analytics.DataFrame) (n : Z)
    (f : option Analytics.Filters) :
  let df := Analytics.rows (Analytics.filter_work_orders wo (Analytics.or_default f)) in
  exists ranking,
    Analytics.top_equipment wo n f = Py.head n ranking
    /\ StronglySorted rank_lt ranking
    /\ (forall e k, In (e, k) ranking <->
                    0 < k /\ k = List.length
                                   (filter (fun r => String.eqb (Analytics.equipment_id r) e) df))
    /\ list_sum (map snd ranking) = Analytics.count_incidents wo f.
Proof.
  intros df.
  exists (Py.sort Analytics.rank_leb
            (Analytics.groupby_size (map Analytics.equipment_id df))).
  destruct (ranking_spec (map Analytics.equipment_id df)) as (Hs & Hm & Ht).
  split.
  { unfold Analytics.top_equipment, Analytics.empty.
    fold df.
    destruct df; [symmetry; exact (head_nil n) | reflexivity]. }
  split; [exact Hs|].
  split.
  - intros e k.
    rewrite Hm, count_occ_filter.
    induction df as [|r df IH]; simpl; [reflexivity|].
    clear IH.
    assert (E : forall l, List.length (filter (fun x => String.eqb x e)
                                         (map Analytics.equipment_id l))
                          = List.length
                              (filter (fun r => String.eqb (Analytics.equipment_id r) e) l)).
    { induction l as [|a l IHl]; simpl; [reflexivity|].
      destruct (String.eqb (Analytics.equipment_id a) e); simpl; now rewrite IHl. }
    specialize (E (r :: df)).
    simpl in E.
    now rewrite E.
  - rewrite Ht, length_map.
    reflexivity.
Qed.

(** X5.  The single top symptom is the first of the tied most common
    symptoms: [top_symptoms] with [n = 1] returns the first entry of
    [most_common_symptoms] (both are empty on an empty filtered set). *)
Theorem top_symptom_is_first_most_common (wo : Analytics.DataFrame)
    (f : option Analytics.Filters) :
  Analytics.top_symptoms wo 1 f = firstn 1 (Analytics.most_common_symptoms wo f).
Proof.
  set (df := Analytics.filter_work_orders wo (Analytics.or_default f)).
  destruct (Analytics.rows df) as [|r0 rs] eqn:Erows.
  { rewrite (most_common_symptoms_empty wo f Erows).
    unfold Analytics.top_symptoms, Analytics.empty.
    fold df. now rewrite Erows. }
  assert (Hne : Analytics.rows df <> []) by (rewrite Erows; discriminate).
  destruct (most_common_symptoms_members wo f Hne) as (m & Hm & Hmax & [c0 Hc0] & Hmem).
  fold df in Hmax, Hc0, Hmem.
  pose proof (most_common_symptoms_sorted wo f) as HMs.
  set (codes := map Analytics.symptom_code (Analytics.rows df)).
  destruct (ranking_spec codes) as (HRs & HRm & _).
  assert (Htop : Analytics.top_symptoms wo 1 f
                 = firstn 1 (Py.sort Analytics.rank_leb (Analytics.groupby_size codes))).
  { unfold Analytics.top_symptoms, Analytics.empty.
    fold df. rewrite Erows. rewrite <- Erows. reflexivity. }
  rewrite Htop.
  change (count_occ string_dec codes) with (freq df) in HRm.
  assert (HR0 : In (c0, m) (Py.sort Analytics.rank_leb (Analytics.groupby_size codes)))
    by (apply HRm; split; [exact Hm | now symmetry]).
  assert (HM0 : In (c0, m) (Analytics.most_common_symptoms wo f))
    by (apply Hmem; now split).
  destruct (Py.sort Analytics.rank_leb (Analytics.groupby_size codes))
    as [|[c k] R'] eqn:ER; [destruct HR0|].
  destruct (Analytics.most_common_symptoms wo f) as [|[c' k'] M'] eqn:EM; [destruct HM0|].
  simpl.
  f_equal.
  apply StronglySorted_inv in HRs as [_ HRall].
  apply StronglySorted_inv in HMs as [_ HMall].
  rewrite Forall_forall in HRall, HMall.
  assert (Hk' : freq df c' = m /\ k' = m) by (apply Hmem; now left).
  destruct Hk' as [Hfc' ->].
  assert (Hk : 0 < k /\ k = freq df c) by (apply HRm; now left).
  destruct Hk as [Hkpos Hk].
  assert (Hkm : k = m).
  { pose proof (Hmax c).
    destruct HR0 as [E | Hin]; [now inversion E|].
    apply HRall in Hin.
    destruct Hin as [L | [E _]]; simpl in *; lia. }
  assert (Hfc : freq df c = m) by lia.
  clear Hk.
  subst k.
  assert (HcM : In (c, m) ((c', m) :: M')) by (apply Hmem; now split).
  assert (Hc'R : In (c', m) ((c, m) :: R'))
    by (apply HRm; split; [exact Hm | now symmetry]).
  destruct HcM as [E | HcM]; [now inversion E|].
  destruct Hc'R as [E | Hc'R]; [now inversion E|].
  exfalso.
  apply HMall in HcM.
  apply HRall in Hc'R.
  unfold code_lt in HcM; simpl in HcM.
  destruct Hc'R as [L | [_ L]]; simpl in L; [lia|].
  exact (str_lt_irrefl c (str_lt_trans _ _ _ L HcM)).
Qed.

(** X6.  On a table with the technicians column,
    [count_distinct_technicians] is the length of the full ranking of
    [top_technicians]: the number of distinct non-blank stripped names of
    the filtered incidents; for [n >= 0], [top_technicians] returns
    [min n count] entries. *)
Theorem technicians_count_is_ranking_length (wo : Analytics.DataFrame)
    (f : option Analytics.Filters) :
  Analytics.has_technicians wo = true ->
  let df := Analytics.rows (Analytics.filter_work_orders wo (Analytics.or_default f)) in
  exists c,
    Analytics.count_distinct_technicians wo f = Ok c
    /\ (forall n, (0 <= n)%Z ->
          exists l, Analytics.top_technicians wo n f = Ok l
                    /\ List.length l = Nat.min (Z.to_nat n) c)
    /\ (exists l, NoDup l /\ List.length l = c
                  /\ forall name, In name l <-> exists r, In r df /\ In name (names r)).
Proof.
  intros Hcol df.
  unfold Analytics.top_technicians, Analytics.count_distinct_technicians,
    Analytics.empty.
  rewrite filter_work_orders_columns, Hcol.
  fold df.
  clearbody df.
  destruct df as [|r0 rs].
  { exists 0.
    split; [reflexivity|].
    split.
    - intros n _. exists []. split; [reflexivity|]. simpl. now rewrite Nat.min_0_r.
    - exists []. split; [constructor|]. split; [reflexivity|].
      intros name. split; [intros [] | intros (r & [] & _)]. }
  cbn [negb].
  set (df := r0 :: rs).
  set (P := Analytics.clean
              (flat_map (fun r => Analytics.explode_row (Analytics.work_order_id r)
                                    (Analytics.technicians r)) df)).
  set (Q := Analytics.clean
              (flat_map (fun r => Analytics.explode_row tt (Analytics.technicians r)) df)).
  assert (HP : forall name, In name (map snd P) <-> exists r, In r df /\ In name (names r)).
  { intros name. rewrite in_map_iff. split.
    - intros ([i nm] & E & Hp). simpl in E. subst nm.
      apply clean_explode_In in Hp as (r & Hr & _ & Hn). now exists r.
    - intros (r & Hr & Hn). exists (Analytics.work_order_id r, name).
      split; [reflexivity|]. apply clean_explode_In. now exists r. }
  assert (HQ : forall name, In name (map snd Q) <-> exists r, In r df /\ In name (names r)).
  { intros name. rewrite in_map_iff. split.
    - intros ([i nm] & E & Hp). simpl in E. subst nm.
      apply (clean_explode_In (fun _ => tt)) in Hp as (r & Hr & _ & Hn). now exists r.
    - intros (r & Hr & Hn). exists (tt, name).
      split; [reflexivity|]. apply (clean_explode_In (fun _ => tt)). now exists r. }
  assert (Hlen : List.length (Py.sort Analytics.rank_leb (Analytics.groupby_nunique P))
                 = Py.nunique string_dec (map snd Q)).
  { rewrite sort_length.
    unfold Analytics.groupby_nunique.
    rewrite length_map, sort_length.
    apply (nunique_ext string_dec).
    intros name. now rewrite HP, HQ. }
  exists (Py.nunique string_dec (map snd Q)).
  split; [reflexivity|].
  split.
  - intros n Hn.
    exists (Py.head n (Py.sort Analytics.rank_leb (Analytics.groupby_nunique P))).
    split; [reflexivity|].
    unfold Py.head.
    destruct (Z.leb_spec 0 n); [|lia].
    now rewrite length_firstn, Hlen.
  - exists (Py.unique string_dec (map snd Q)).
    split; [apply unique_NoDup|].
    split; [reflexivity|].
    intros name.
    now rewrite unique_In, HQ.
Qed.

(** ** Keyword normalisation in [count_mentions] *)

Lemma is_space_lower (c : ascii) : Py.is_space (Py.lower_char c) = Py.is_space c.
Proof. destruct c as [[] [] [] [] [] [] [] []]; reflexivity. Qed.

Lemma lstrip_lower (s : string) : Py.lstrip (Py.lower s) = Py.lower (Py.lstrip s).
Proof.
  induction s as [|c s IH]; simpl; [reflexivity|].
  rewrite is_space_lower.
  now destruct (Py.is_space c).
Qed.

Lemma rstrip_lower (s : string) : Py.rstrip (Py.lower s) = Py.lower (Py.rstrip s).
Proof.
  induction s as [|c s IH]; simpl; [reflexivity|].
  rewrite IH, is_space_lower.
  destruct (Py.rstrip s); simpl; [now destruct (Py.is_space c) | reflexivity].
Qed.

Lemma strip_lower (s : string) : Py.strip (Py.lower s) = Py.lower (Py.strip s).
Proof. unfold Py.strip. now rewrite lstrip_lower, rstrip_lower. Qed.

Lemma rstrip_idem (s : string) : Py.rstrip (Py.rstrip s) = Py.rstrip s.
Proof.
  induction s as [|c s IH]; simpl; [reflexivity|].
  destruct (Py.rstrip s) as [|d r] eqn:E.
  - destruct (Py.is_space c) eqn:Hc; simpl; [reflexivity | now rewrite Hc].
  - change (Py.rstrip (String c (String d r))) with
      (match Py.rstrip (String d r) with
       | EmptyString => if Py.is_space c then EmptyString else String c EmptyString
       | r' => String c r'
       end).
    now rewrite IH.
Qed.

(** A text whose first character is not whitespace keeps it under [rstrip]. *)
Lemma lstrip_rstrip (s : string) :
  Py.lstrip s = s -> Py.lstrip (Py.rstrip s) = Py.rstrip s.
Proof.
  destruct s as [|c s]; [reflexivity|].
  simpl.
  destruct (Py.is_space c) eqn:Hc.
  - intros H.
    exfalso.
    assert (Hlen : forall t, String.length (Py.lstrip t) <= String.length t).
    { induction t as [|a t IHt]; simpl; [lia|]. destruct (Py.is_space a); simpl; lia. }
    specialize (Hlen s).
    rewrite H in Hlen.
    simpl in Hlen. lia.
  - intros _.
    destruct (Py.rstrip s); simpl; now rewrite Hc.
Qed.

Lemma lstrip_idem (s : string) : Py.lstrip (Py.lstrip s) = Py.lstrip s.
Proof.
  induction s as [|c s IH]; simpl; [reflexivity|].
  destruct (Py.is_space c) eqn:Hc; [exact IH|].
  simpl. now rewrite Hc.
Qed.

Lemma strip_idem (s : string) : Py.strip (Py.strip s) = Py.strip s.
Proof.
  unfold Py.strip.
  rewrite (lstrip_rstrip (Py.lstrip s)) by apply lstrip_idem.
  apply rstrip_idem.
Qed.

Lemma count_mentions_rows (wo : Analytics.DataFrame) (keyword : string)
    (f : option Analytics.Filters) :
  Analytics.count_mentions wo keyword f
  = if Py.nonempty (Py.strip keyword)
    then List.length
           (filter (fun r => matches (Analytics.or_default f) r
                             && Py.contains (Py.lower (Py.strip keyword)) (Analytics.hay r))
              (Analytics.rows wo))
    else 0.
Proof.
  unfold Analytics.count_mentions, Analytics.empty.
  rewrite nonempty_lower, filter_work_orders_rows.
  destruct (Py.nonempty (Py.strip keyword)); [|reflexivity].
  cbn [negb].
  rewrite <- filter_filter.
  now destruct (filter (matches (Analytics.or_default f)) (Analytics.rows wo)).
Qed.

(** X7.  [count_mentions] does not depend on the case of the keyword nor
    on whitespace around it; it never exceeds [count_incidents] for the same
    filter, and a filter that carries every populated field of another
    never finds more mentions. *)
Theorem count_mentions_normalised (wo : Analytics.DataFrame) (keyword : string)
    (f : option Analytics.Filters) :
  Analytics.count_mentions wo (Py.lower keyword) f = Analytics.count_mentions wo keyword f
  /\ Analytics.count_mentions wo (Py.strip keyword) f = Analytics.count_mentions wo keyword f
  /\ Analytics.count_mentions wo keyword f <= Analytics.count_incidents wo f
  /\ (forall n w, carries n w ->
        Analytics.count_mentions wo keyword (Some n)
        <= Analytics.count_mentions wo keyword (Some w)).
Proof.
  split; [|split; [|split]].
  - rewrite !count_mentions_rows.
    now rewrite strip_lower, nonempty_lower, lower_idem.
  - rewrite !count_mentions_rows.
    now rewrite strip_idem.
  - rewrite count_mentions_rows, count_incidents_rows.
    destruct (Py.nonempty (Py.strip keyword)); [|lia].
    apply filter_length_impl.
    intros r _ H.
    now apply andb_true_iff in H as [H _].
  - intros n w Hc.
    rewrite !count_mentions_rows.
    destruct (Py.nonempty (Py.strip keyword)); [|lia].
    apply filter_length_impl.
    intros r _ H.
    apply andb_true_iff in H as [H1 H2].
    simpl Analytics.or_default in *.
    rewrite (matches_carries n w r Hc H1).
    exact H2.
Qed.

(** ** More on [build_work_orders] *)

Lemma validate_iff (events : Data.EventFrame) :
  Data._validate_columns events = Ok tt <->
  forallb (Data.has_column events) Data.REQUIRED_COLUMNS = true.
Proof.
  unfold Data._validate_columns.
  induction Data.REQUIRED_COLUMNS as [|c l IH]; simpl; [tauto|].
  destruct (Data.has_column events c); simpl; [exact IH|].
  split; discriminate.
Qed.

Lemma validate_error (events : Data.EventFrame) :
  Data._validate_columns events = Ok tt
  \/ exists msg, Data._validate_columns events = Raise (ValueError msg).
Proof.
  unfold Data._validate_columns.
  destruct (filter _ Data.REQUIRED_COLUMNS); [now left | right; eauto].
Qed.

(** X8.  [build_work_orders] returns a table exactly for the event frames
    that carry the eleven required columns and the two timestamp columns,
    and that table has the technicians column; a missing required column is
    a [ValueError], and with the required columns present a missing
    [start_ts] (then [end_ts]) column is a [KeyError] naming it. *)
Theorem build_work_orders_errors (events : Data.EventFrame) :
  ((exists wo, Data.build_work_orders events = Ok wo) <-> valid_events events)
  /\ (forall wo, Data.build_work_orders events = Ok wo ->
                 Analytics.has_technicians wo = true)
  /\ ((exists c, In c Data.REQUIRED_COLUMNS /\ Data.has_column events c = false) ->
      exists msg, Data.build_work_orders events = Raise (ValueError msg))
  /\ (forallb (Data.has_column events) Data.REQUIRED_COLUMNS = true ->
      (Data.has_column events "start_ts" = false ->
       Data.build_work_orders events = Raise (KeyError "start_ts"))
      /\ (Data.has_column events "start_ts" = true ->
          Data.has_column events "end_ts" = false ->
          Data.build_work_orders events = Raise (KeyError "end_ts"))).
Proof.
  unfold valid_events.
  rewrite forallb_app.
  cbn [forallb].
  rewrite andb_true_r.
  unfold Data.build_work_orders.
  destruct (validate_error events) as [Hok | [msg Herr]].
  - pose proof (proj1 (validate_iff events) Hok) as Hreq.
    rewrite Hok, Hreq.
    cbn [bind andb].
    destruct (Data.has_column events "start_ts"), (Data.has_column events "end_ts");
      cbn [negb andb].
    all: split; [split; [intros [wo H]; try discriminate; reflexivity
                        | intros H; try discriminate; eauto]|].
    all: split; [intros wo H; try discriminate; now inversion H|].
    all: split; [intros (c & Hc & Hf);
                 rewrite forallb_forall in Hreq; rewrite (Hreq c Hc) in Hf;
                 discriminate|].
    all: intros _; split; intros; try discriminate; reflexivity.
  - assert (Hreq : forallb (Data.has_column events) Data.REQUIRED_COLUMNS = false).
    { destruct (forallb _ _) eqn:E; [|reflexivity].
      apply validate_iff in E. congruence. }
    rewrite Herr, Hreq.
    cbn [bind andb].
    split; [split; [intros [wo H]; discriminate | discriminate]|].
    split; [intros wo H; discriminate|].
    split; [intros _; eauto | discriminate].
Qed.

Lemma Zleb_total (a b : Z) : (a <=? b)%Z = true \/ (b <=? a)%Z = true.
Proof. rewrite !Z.leb_le. lia. Qed.

Lemma Zleb_trans (a b c : Z) :
  (a <=? b)%Z = true -> (b <=? c)%Z = true -> (a <=? c)%Z = true.
Proof. rewrite !Z.leb_le. lia. Qed.

Lemma build_work_orders_ok (events : Data.EventFrame) (wo : Analytics.DataFrame) :
  Data.build_work_orders events = Ok wo ->
  wo = Analytics.mkDataFrame true
         (Data.groupby_agg (Py.sort Data.event_leb (Data.rows events))).
Proof.
  unfold Data.build_work_orders.
  destruct (Data._validate_columns events); [|discriminate].
  cbn [bind].
  destruct (negb _); [discriminate|].
  destruct (negb _); [discriminate|].
  now intros [= <-].
Qed.

Lemma build_ids (events : Data.EventFrame) (wo : Analytics.DataFrame) :
  Data.build_work_orders events = Ok wo ->
  ids wo = Py.sort Z.leb
             (Py.unique Z.eq_dec
                (map Data.work_order_id (Py.sort Data.event_leb (Data.rows events)))).
Proof.
  intros H.
  rewrite (build_work_orders_ok events wo H).
  unfold ids; simpl.
  apply (group_ids events).
  intros k Hk.
  now apply sort_In, unique_In in Hk.
Qed.

(** X9.  The incidents come out in strictly increasing order of
    work_order_id. *)
Theorem build_work_orders_sorted_ids (events : Data.EventFrame) (wo : Analytics.DataFrame) :
  Data.build_work_orders events = Ok wo ->
  StronglySorted Z.lt (ids wo).
Proof.
  intros H.
  rewrite (build_ids events wo H).
  apply (sorted_strengthen (fun a b => (a <=? b)%Z = true) Z.lt (fun x => x)).
  - intros a b Hle Hne. apply Z.leb_le in Hle. lia.
  - apply sort_sorted; [apply Zleb_total | apply Zleb_trans].
  - rewrite map_id.
    eapply Permutation_NoDup; [symmetry; apply sort_perm | apply unique_NoDup].
Qed.

Lemma filter_perm {A : Type} (p : A -> bool) (l l' : list A) :
  Permutation l l' -> Permutation (filter p l) (filter p l').
Proof.
  induction 1 as [|x l l' H IH|x y l|l l' l'' H1 IH1 H2 IH2]; simpl.
  - constructor.
  - destruct (p x); [now constructor | exact IH].
  - destruct (p x), (p y); try apply Permutation_refl. apply perm_swap.
  - eapply perm_trans; eassumption.
Qed.

Lemma groupby_agg_updates (ev : list Data.Event) (keys : list Z) :
  map Analytics.n_updates
    (flat_map (fun k =>
                 match filter (fun e => (Data.work_order_id e =? k)%Z) ev with
                 | [] => []
                 | e :: g => [Data.aggregate e g]
                 end) keys)
  = filter (fun n => negb (n =? 0))
      (map (fun k => List.length (filter (fun e => (Data.work_order_id e =? k)%Z) ev)) keys).
Proof.
  induction keys as [|k keys IH]; simpl; [reflexivity|].
  rewrite map_app, IH.
  destruct (filter _ ev); reflexivity.
Qed.

Lemma list_sum_nonzero (l : list nat) :
  list_sum (filter (fun n => negb (n =? 0)) l) = list_sum l.
Proof.
  induction l as [|n l IH]; simpl; [reflexivity|].
  destruct n; simpl; lia.
Qed.

(** X10.  Every event is counted in exactly one incident: [n_updates] of
    an incident is the number of events with its work_order_id, it is at
    least 1, and the [n_updates] of all incidents add up to the number of
    events. *)
Theorem build_work_orders_updates (events : Data.EventFrame) (wo : Analytics.DataFrame) :
  Data.build_work_orders events = Ok wo ->
  list_sum (map Analytics.n_updates (Analytics.rows wo)) = List.length (Data.rows events)
  /\ forall r, In r (Analytics.rows wo) ->
       1 <= Analytics.n_updates r
       /\ Analytics.n_updates r
          = List.length (events_of events (Analytics.work_order_id r)).
Proof.
  intros H.
  rewrite (build_work_orders_ok events wo H).
  cbn [Analytics.rows].
  set (ev := Py.sort Data.event_leb (Data.rows events)).
  split.
  - unfold Data.groupby_agg.
    rewrite groupby_agg_updates, list_sum_nonzero.
    rewrite (group_sizes_add_up Z.eqb Data.work_order_id).
    + apply sort_length.
    + apply Z.eqb_eq.
    + eapply Permutation_NoDup; [symmetry; apply sort_perm | apply unique_NoDup].
    + intros x Hx. apply sort_In, unique_In, in_map, Hx.
  - intros r Hr.
    apply (group_rows events) in Hr as (k & e & g & Eg & ->).
    pose proof (proj1 (aggregate_spec events k e g Eg)) as Hid.
    rewrite Hid.
    change (Analytics.n_updates (Data.aggregate e g)) with (List.length (e :: g)).
    split; [simpl; lia|].
    rewrite <- Eg.
    apply Permutation_length, filter_perm, sort_perm.
Qed.

Lemma event_leb_iff (a b : Data.Event) :
  Data.event_leb a b = true <->
  (Data.work_order_id a < Data.work_order_id b)%Z
  \/ (Data.work_order_id a = Data.work_order_id b
      /\ ((Data.start_ts a < Data.start_ts b)%Z
          \/ (Data.start_ts a = Data.start_ts b
              /\ (Data.end_ts a <= Data.end_ts b)%Z))).
Proof.
  unfold Data.event_leb.
  rewrite !orb_true_iff, !andb_true_iff, !orb_true_iff, !andb_true_iff,
    !Z.ltb_lt, !Z.eqb_eq, Z.leb_le.
  reflexivity.
Qed.

Lemma event_leb_total (a b : Data.Event) :
  Data.event_leb a b = true \/ Data.event_leb b a = true.
Proof. rewrite !event_leb_iff. unfold Analytics.Timestamp in *. lia. Qed.

Lemma event_leb_trans (a b c : Data.Event) :
  Data.event_leb a b = true -> Data.event_leb b c = true -> Data.event_leb a c = true.
Proof. rewrite !event_leb_iff. unfold Analytics.Timestamp in *. lia. Qed.

Lemma sorted_filter {A : Type} (R : A -> A -> Prop) (p : A -> bool) (l : list A) :
  StronglySorted R l -> StronglySorted R (filter p l).
Proof.
  induction 1 as [|a l Hl IH Hall]; simpl; [constructor|].
  destruct (p a); [|exact IH].
  constructor; [exact IH|].
  rewrite Forall_forall in *.
  intros x Hx.
  apply filter_In in Hx as [Hx _].
  now apply Hall.
Qed.

(** X11.  The descriptive fields of an incident are those of its earliest
    event: the event of the incident that comes first by start_ts and then
    by end_ts supplies equipment_id, product_line, symptom_code and
    description, and its start_ts is the start_ts of the incident. *)
Theorem build_work_orders_representative (events : Data.EventFrame)
    (wo : Analytics.DataFrame) :
  Data.build_work_orders events = Ok wo ->
  forall r, In r (Analytics.rows wo) ->
    exists e,
      In e (events_of events (Analytics.work_order_id r))
      /\ Analytics.equipment_id r = Data.equipment_id e
      /\ Analytics.product_line r = Data.product_line e
      /\ Analytics.symptom_code r = Data.symptom_code e
      /\ Analytics.description r = Data.description e
      /\ Analytics.start_ts r = Data.start_ts e
      /\ forall e', In e' (events_of events (Analytics.work_order_id r)) ->
           (Data.start_ts e < Data.start_ts e')%Z
           \/ (Data.start_ts e = Data.start_ts e'
               /\ (Data.end_ts e <= Data.end_ts e')%Z).
Proof.
  intros H r Hr.
  rewrite (build_work_orders_ok events wo H) in Hr.
  cbn [Analytics.rows] in Hr.
  apply (group_rows events) in Hr as (k & e & g & Eg & ->).
  destruct (aggregate_spec events k e g Eg) as (Hid & Hs1 & Hs2 & _).
  rewrite Hid.
  assert (Hmem : forall x, In x (e :: g) <-> In x (events_of events k)).
  { intros x. rewrite <- Eg. apply group_In. }
  assert (Hkey : forall x, In x (e :: g) -> Data.work_order_id x = k).
  { intros x Hx. rewrite <- Eg in Hx.
    apply filter_In in Hx as [_ Hx]. now apply Z.eqb_eq. }
  assert (Hsorted : StronglySorted (fun a b => Data.event_leb a b = true) (e :: g)).
  { rewrite <- Eg.
    apply sorted_filter, sort_sorted; [apply event_leb_total | apply event_leb_trans]. }
  apply StronglySorted_inv in Hsorted as [_ Hall].
  rewrite Forall_forall in Hall.
  assert (Hfirst : forall e', In e' (events_of events k) ->
            (Data.start_ts e < Data.start_ts e')%Z
            \/ (Data.start_ts e = Data.start_ts e'
                /\ (Data.end_ts e <= Data.end_ts e')%Z)).
  { intros e' He'.
    apply Hmem in He' as [<- | He']; [right; split; [reflexivity | lia]|].
    pose proof (Hkey e (or_introl eq_refl)) as K1.
    pose proof (Hkey e' (or_intror He')) as K2.
    apply Hall, event_leb_iff in He'.
    lia. }
  exists e.
  split; [apply Hmem; now left|].
  do 4 (split; [reflexivity|]).
  split; [|exact Hfirst].
  destruct Hs1 as (e1 & He1 & Hst).
  pose proof (Hs2 e (proj1 (Hmem e) (or_introl eq_refl))) as Hle.
  pose proof (Hfirst e1 He1) as Hf.
  unfold Analytics.Timestamp in *.
  lia.
Qed.

(** ** [_concat_comments] *)

Lemma no_adjacent_dup_rev (l : list string) :
  no_adjacent_dup l -> no_adjacent_dup (rev l).
Proof.
  intros H l1 x y l2 E.
  apply (f_equal (@rev string)) in E.
  rewrite rev_involutive, rev_app_distr in E.
  simpl in E.
  rewrite <- !app_assoc in E.
  simpl in E.
  intros Hxy.
  apply (H (rev l2) y x (rev l1) E).
  now symmetry.
Qed.

Lemma concat_step_cases (acc : list string) (last : option string) (x : string) :
  last = hd_error acc ->
  no_adjacent_dup acc ->
  (Py.nonempty (Py.strip x) = false /\ Data.concat_step (acc, last) x = (acc, last))
  \/ (Py.nonempty (Py.strip x) = true /\ In (Py.strip x) acc
      /\ Data.concat_step (acc, last) x = (acc, last))
  \/ (Py.nonempty (Py.strip x) = true
      /\ Data.concat_step (acc, last) x = (Py.strip x :: acc, Some (Py.strip x))
      /\ no_adjacent_dup (Py.strip x :: acc)).
Proof.
  intros Hlast Hadj.
  unfold Data.concat_step.
  cbn [fst snd].
  destruct (Py.nonempty (Py.strip x)) eqn:Hne; cbn [negb]; [right | now left].
  destruct acc as [|h acc']; simpl in Hlast; subst last.
  - right. repeat split.
    intros l1 a b l2 E.
    destruct l1 as [|c [|d l1]]; discriminate.
  - destruct (String.eqb_spec (Py.strip x) h) as [-> | NE].
    + left. repeat split. now left.
    + right. repeat split.
      intros l1 a b l2 E.
      destruct l1 as [|c l1]; simpl in E.
      * inversion E; subst. exact NE.
      * inversion E as [[Hc Hrest]].
        exact (Hadj l1 a b l2 Hrest).
Qed.

(** The loop keeps [last] equal to the head of [cleaned] (built in reverse),
    adds only stripped non-blank inputs, adds every such input unless it
    repeats its predecessor, and never puts two equal texts side by side. *)
Lemma concat_loop (s : list string) (acc : list string) (last : option string) :
  last = hd_error acc ->
  no_adjacent_dup acc ->
  no_adjacent_dup (fst (fold_left Data.concat_step s (acc, last)))
  /\ (forall t, In t (fst (fold_left Data.concat_step s (acc, last))) <->
                In t acc \/ exists x, In x s /\ t = Py.strip x /\ Py.nonempty t = true)
  /\ List.length (fst (fold_left Data.concat_step s (acc, last)))
     <= List.length acc + List.length s.
Proof.
  revert acc last.
  induction s as [|x s IH]; intros acc last Hlast Hadj; cbn [fold_left].
  - split; [exact Hadj|].
    split; [|simpl; lia].
    intros t. split; [now left | intros [H | (y & [] & _)]; exact H].
  - destruct (concat_step_cases acc last x Hlast Hadj)
      as [[Hne ->] | [(Hne & Hin & ->) | (Hne & -> & Hadj')]].
    + destruct (IH acc last Hlast Hadj) as (I2 & I3 & I4).
      split; [exact I2|].
      split; [|simpl; lia].
      intros t. rewrite I3.
      split.
      * intros [H | (y & Hy & E)]; [now left | right; exists y; simpl; tauto].
      * intros [H | (y & [<- | Hy] & E & Hn)]; [now left | | right; now exists y].
        subst t. congruence.
    + destruct (IH acc last Hlast Hadj) as (I2 & I3 & I4).
      split; [exact I2|].
      split; [|simpl; lia].
      intros t. rewrite I3.
      split.
      * intros [H | (y & Hy & E)]; [now left | right; exists y; simpl; tauto].
      * intros [H | (y & [<- | Hy] & E & Hn)]; [now left | | right; now exists y].
        left. now subst t.
    + destruct (IH (Py.strip x :: acc) (Some (Py.strip x)) eq_refl Hadj')
        as (I2 & I3 & I4).
      split; [exact I2|].
      split; [|simpl in *; lia].
      intros t. rewrite I3.
      split.
      * intros [[<- | H] | (y & Hy & E)].
        -- right. exists x. simpl. tauto.
        -- now left.
        -- right. exists y. simpl. tauto.
      * intros [H | (y & [<- | Hy] & E & Hn)].
        -- left. now right.
        -- left. left. now symmetry.
        -- right. now exists y.
Qed.

(** X12.  [_concat_comments] joins with newlines a list of comment texts
    that holds exactly the stripped non-blank comments of the input, never
    has two equal texts next to each other and is no longer than the input;
    blank comments only give the empty string. *)
Theorem concat_comments_cleaned (s : list string) :
  Data._concat_comments s = Py.join Analytics.newline (cleaned s)
  /\ (forall t, In t (cleaned s) <->
                exists x, In x s /\ t = Py.strip x /\ Py.nonempty t = true)
  /\ no_adjacent_dup (cleaned s)
  /\ List.length (cleaned s) <= List.length s
  /\ ((forall x, In x s -> Data.nonblank x = false) -> Data._concat_comments s = "").
Proof.
  assert (Hnil : no_adjacent_dup []).
  { intros l1 x y l2 E. destruct l1; discriminate. }
  destruct (concat_loop s [] None eq_refl Hnil) as (I2 & I3 & I4).
  assert (Hmem : forall t, In t (cleaned s) <->
                   exists x, In x s /\ t = Py.strip x /\ Py.nonempty t = true).
  { intros t. unfold cleaned. rewrite <- in_rev, I3.
    split; [intros [[] | H]; exact H | now right]. }
  split; [reflexivity|].
  split; [exact Hmem|].
  split; [now apply no_adjacent_dup_rev|].
  split; [unfold cleaned; rewrite length_rev; simpl in I4; lia|].
  intros Hblank.
  change (Data._concat_comments s) with (Py.join Analytics.newline (cleaned s)).
  destruct (cleaned s) as [|t l] eqn:E; [reflexivity|].
  exfalso.
  destruct (proj1 (Hmem t) (or_introl eq_refl)) as (x & Hx & -> & Hn).
  specialize (Hblank x Hx).
  unfold Data.nonblank in Hblank.
  congruence.
Qed.

(** ** What [extract_filters] can return *)

Lemma first_known_Some (ql : string) (known : list string) (v : string) :
  App.first_known ql known = Some v ->
  In v known /\ Py.contains (Py.lower v) ql = true.
Proof.
  induction known as [|k known IH]; simpl; [discriminate|].
  destruct (Py.contains (Py.lower k) ql) eqn:E.
  - intros [= <-]. split; [now left | exact E].
  - intros H. apply IH in H as [H1 H2]. split; [now right | exact H2].
Qed.

Lemma first_known_None (ql : string) (known : list string) :
  App.first_known ql known = None <->
  forall v, In v known -> Py.contains (Py.lower v) ql = false.
Proof.
  induction known as [|k known IH]; simpl.
  - split; [intros _ v [] | reflexivity].
  - destruct (Py.contains (Py.lower k) ql) eqn:E.
    + split; [discriminate|].
      intros H. rewrite (H k (or_introl eq_refl)) in E. discriminate.
    + rewrite IH.
      split.
      * intros H v [<- | Hv]; [exact E | now apply H].
      * intros H v Hv. apply H. now right.
Qed.

Lemma first_phrase_Some (ql : string) (known : list string)
    (m : list (string * string)) (code : string) :
  App.first_phrase ql known m = Some code ->
  In code known /\ exists phrase, In (phrase, code) m /\ Py.contains phrase ql = true.
Proof.
  induction m as [|[p c] m IH]; simpl; [discriminate|].
  destruct (Py.contains p ql && existsb (String.eqb c) known) eqn:E.
  - intros [= <-].
    apply andb_true_iff in E as [E1 E2].
    apply existsb_exists in E2 as (x & Hx & Ex).
    apply String.eqb_eq in Ex. subst x.
    split; [exact Hx|].
    exists p. split; [now left | exact E1].
  - intros H. apply IH in H as [H1 (ph & H2 & H3)].
    split; [exact H1|].
    exists ph. split; [now right | exact H3].
Qed.

(** X13.  [extract_filters] never invents a value: the equipment id, the
    product line and the symptom code of the Filter it returns are members
    of the known sets passed in; the equipment id and the product line occur
    in the question up to case, and the equipment field is left unset
    exactly when no known equipment id occurs in the question. *)
Theorem extract_filters_known_values (q : string) (eqs pls syms : list string) (dy : Z)
    (f : Analytics.Filters) :
  App.extract_filters q eqs pls syms dy = Ok f ->
  (forall v, Analytics.f_equipment_id f = Some v ->
             In v eqs /\ Py.contains (Py.lower v) (Py.lower q) = true)
  /\ (forall v, Analytics.f_product_line f = Some v ->
                In v pls /\ Py.contains (Py.lower v) (Py.lower q) = true)
  /\ (forall v, Analytics.f_symptom_code f = Some v -> In v syms)
  /\ (Analytics.f_equipment_id f = None <->
      forall v, In v eqs -> Py.contains (Py.lower v) (Py.lower q) = false).
Proof.
  unfold App.extract_filters.
  destruct (App._half_year_range_from_query q dy) as [lo hi].
  destruct (match lo, hi with
            | None, None => App._month_range_from_query q dy
            | _, _ => Ok (lo, hi)
            end) as [r|e]; cbn [bind]; [|discriminate].
  intros [= <-].
  cbn [Analytics.f_equipment_id Analytics.f_product_line Analytics.f_symptom_code].
  split; [intros v; apply first_known_Some|].
  split; [intros v; apply first_known_Some|].
  split; [|apply first_known_None].
  intros v.
  unfold App._extract_symptom_code.
  destruct (App.first_known (Py.lower q) syms) as [s|] eqn:E.
  - intros [= <-]. now apply first_known_Some in E.
  - intros H. now apply first_phrase_Some in H.
Qed.

(** *** Date ranges *)

Ltac civil :=
  unfold App.next_month_begin;
  repeat match goal with
         | |- context [Z.eqb (Zpos ?a) (Zpos ?b)] =>
             let v := eval vm_compute in (Z.eqb (Zpos a) (Zpos b)) in
             change (Z.eqb (Zpos a) (Zpos b)) with v
         end;
  cbv iota;
  repeat match goal with
         | |- context [(Zpos ?p + 1)%Z] =>
             let v := eval vm_compute in (Zpos p + 1)%Z in
             change (Zpos p + 1)%Z with v
         end;
  unfold App.Timestamp, App.days_from_civil, day;
  cbn -[Z.div Z.mul Z.add Z.sub];
  repeat match goal with
         | |- context [(?y + 1 - 1)%Z] => replace (y + 1 - 1)%Z with y by lia
         end;
  Z.to_euclidean_division_equations; lia.

Lemma first_half_length (y : Z) :
  (181 * day <= App.Timestamp y 7 1 - App.Timestamp y 1 1 <= 182 * day)%Z.
Proof. civil. Qed.

Lemma second_half_length (y : Z) :
  (App.Timestamp (y + 1) 1 1 - App.Timestamp y 7 1 = 184 * day)%Z.
Proof. civil. Qed.

Lemma month_length (y mon : Z) :
  (1 <= mon <= 12)%Z ->
  (28 * day <= App.next_month_begin y mon - App.Timestamp y mon 1 <= 31 * day)%Z.
Proof.
  intros H.
  assert (C : (mon = 1 \/ mon = 2 \/ mon = 3 \/ mon = 4 \/ mon = 5 \/ mon = 6
               \/ mon = 7 \/ mon = 8 \/ mon = 9 \/ mon = 10 \/ mon = 11 \/ mon = 12)%Z)
    by lia.
  clear H.
  repeat (destruct C as [C | C]); subst mon; civil.
Qed.

Lemma month_range_ok (q : string) (dy : Z) (r : App.range) :
  App._month_range_from_query q dy = Ok r ->
  r = (None, None)
  \/ exists mon, (1 <= mon <= 12)%Z
       /\ r = (Some (App.Timestamp (App._year_from_query (Py.lower q) dy) mon 1),
               Some (App.next_month_begin (App._year_from_query (Py.lower q) dy) mon)).
Proof.
  unfold App._month_range_from_query.
  destruct (Regex.search App.month_re (Py.lower q)) as [g|] eqn:E.
  - destruct (getitem_month g (search_from_month _ _ _ E)) as [-> | (mon & Hm & Hr)].
    + cbn. discriminate.
    + rewrite Hm. cbn [bind].
      intros [= <-]. right. now exists mon.
  - intros [= <-]. now left.
Qed.

(** X14.  The date bounds of a returned Filter are either both unset or a
    non-empty range that starts at midnight of the first day of a month of
    the referenced year (the default year, or a year from 2000 to 2099 read
    from the question): a calendar month, 28 to 31 days long, or a half
    year, 181 to 184 days long. *)
Theorem extract_filters_range (q : string) (eqs pls syms : list string) (dy : Z)
    (f : Analytics.Filters) :
  App.extract_filters q eqs pls syms dy = Ok f ->
  (Analytics.start_ts_min f = None /\ Analytics.start_ts_max f = None)
  \/ exists y mon lo hi,
       Analytics.start_ts_min f = Some lo /\ Analytics.start_ts_max f = Some hi
       /\ (y = dy \/ 2000 <= y <= 2099)%Z
       /\ (1 <= mon <= 12)%Z
       /\ lo = App.Timestamp y mon 1
       /\ (lo < hi)%Z
       /\ ((28 * day <= hi - lo <= 31 * day)%Z \/ (181 * day <= hi - lo <= 184 * day)%Z).
Proof.
  unfold App.extract_filters.
  rewrite half_year_cases.
  cbv zeta.
  set (y := App._year_from_query (Py.lower q) dy).
  assert (Hy : (y = dy \/ 2000 <= y <= 2099)%Z) by apply year_from_query_range.
  assert (Hday : (0 < day)%Z) by reflexivity.
  destruct (App.is_match (Regex.search App.h1_re (Py.lower q))).
  { cbn [bind fst snd]. intros [= <-]. right.
    pose proof (first_half_length y).
    exists y, 1%Z, (App.Timestamp y 1 1), (App.Timestamp y 7 1).
    cbn [Analytics.start_ts_min Analytics.start_ts_max].
    repeat split; try reflexivity; try assumption; try lia. }
  destruct (App.is_match (Regex.search App.h2_re (Py.lower q))).
  { cbn [bind fst snd]. intros [= <-]. right.
    pose proof (second_half_length y).
    exists y, 7%Z, (App.Timestamp y 7 1), (App.Timestamp (y + 1) 1 1).
    cbn [Analytics.start_ts_min Analytics.start_ts_max].
    repeat split; try reflexivity; try assumption; try lia. }
  destruct (App._month_range_from_query q dy) as [r|e] eqn:Em; cbn [bind]; [|discriminate].
  intros [= <-].
  cbn [Analytics.start_ts_min Analytics.start_ts_max].
  apply month_range_ok in Em as [-> | (mon & Hmon & ->)]; [now left | right].
  fold y.
  pose proof (month_length y mon Hmon).
  exists y, mon, (App.Timestamp y mon 1), (App.next_month_begin y mon).
  cbn [fst snd].
  repeat split; try reflexivity; try assumption; try lia.
Qed.

(** ** The two front ends *)

Lemma print_opt_reply (env : App.LLM) (user : string) (o : option string) :
  AppMain.print_opt env user o = AppMain.Print (Webapp.reply env user o).
Proof. now destruct o. Qed.

(** X15.  The command-line loop and the web entry point give the same
    answer: for an input that is not blank, not "exit" or "quit", and not
    classified as count_distinct_equipment, one turn of the loop prints
    exactly what [answer_question] returns, and raises when it raises. *)
Theorem cli_agrees_with_web (ctx : Context) (q : string) :
  Py.nonempty (Py.strip q) = true ->
  String.eqb (Py.lower (Py.strip q)) "exit" || String.eqb (Py.lower (Py.strip q)) "quit"
  = false ->
  App.intent (Py.strip q) <> App.CountDistinctEquipment ->
  AppMain.turn ctx q = printed (Webapp.answer_question ctx q).
Proof.
  intros Hne Hexit Hit.
  unfold AppMain.turn, Webapp.answer_question.
  rewrite Hne, Hexit.
  cbn [negb].
  destruct (App.extract_filters _ _ _ _ _) as [f|e]; cbn [bind printed]; [|reflexivity].
  destruct (App.intent (Py.strip q)); try contradiction; cbn [printed];
    rewrite ?print_opt_reply; try reflexivity.
  - now destruct (Analytics.top_technicians _ _ _); cbn; rewrite ?print_opt_reply.
  - now destruct (Analytics.count_distinct_technicians _ _).
Qed.

Lemma technicians_raise (wo : Analytics.DataFrame) (n : Z) (f : option Analytics.Filters)
    (e : exn) :
  Analytics.top_technicians wo n f = Raise e
  \/ Analytics.count_distinct_technicians wo f = Raise e ->
  e = Analytics.missing_technicians /\ Analytics.has_technicians wo = false.
Proof.
  unfold Analytics.top_technicians, Analytics.count_distinct_technicians.
  rewrite filter_work_orders_columns.
  destruct (Analytics.empty _); [intros [H | H]; discriminate|].
  destruct (Analytics.has_technicians wo); cbn [negb].
  - intros [H | H]; discriminate.
  - intros [H | H]; inversion H; now split.
Qed.

(** X16.  [answer_question] can fail in two ways only: with
    [KeyError('sepember')] from the date extraction, or with the
    missing-column [ValueError] of a technician question asked on a table
    that has no technicians column. *)
Theorem answer_question_failures (ctx : Context) (q : string) (e : exn) :
  Webapp.answer_question ctx q = Raise e ->
  (e = KeyError "sepember"
   /\ Regex.search App.month_re (Py.lower (Py.strip q)) = Some "sepember")
  \/ (e = Analytics.missing_technicians
      /\ Analytics.has_technicians (work_orders ctx) = false
      /\ (App.intent (Py.strip q) = App.TopTechnician
          \/ App.intent (Py.strip q) = App.CountDistinctTechnicians)).
Proof.
  unfold Webapp.answer_question.
  destruct (negb _); [discriminate|].
  destruct (App.extract_filters _ _ _ _ _) as [f|e'] eqn:Hf; cbn [bind].
  - destruct (App.intent (Py.strip q)); try discriminate.
    + destruct (Analytics.top_technicians _ _ _) as [df|e'] eqn:Ht; cbn [bind];
        [discriminate|].
      intros [= <-]. right.
      destruct (technicians_raise _ _ _ _ (or_introl Ht)) as [-> Hc].
      repeat split; auto.
    + destruct (Analytics.count_distinct_technicians _ _) as [n|e'] eqn:Ht; cbn [bind];
        [discriminate|].
      intros [= <-]. right.
      destruct (technicians_raise _ 0%Z _ _ (or_intror Ht)) as [-> Hc].
      repeat split; auto.
  - intros [= <-]. left.
    apply extract_filters_failure in Hf as (-> & _ & Hs).
    now split.
Qed.

Lemma maybe_llm_count (env : App.LLM) (user : string) (n : nat) :
  App.maybe_llm env user (Py.str_of_nat n) = Py.str_of_nat n.
Proof.
  destruct (str_of_nat_digits n) as [Hne Hd].
  unfold App.maybe_llm.
  rewrite Hne, (strip_digits _ Hd).
  unfold Py.isdigit.
  rewrite Hd.
  now destruct (Py.str_of_nat n).
Qed.

(** X17.  For the counting intents the answer of [answer_question] is the
    decimal text of the count computed under the extracted Filter, whatever
    the paraphrase settings: count_incidents, count_mentions (with the
    keyword extracted from the question) and count_distinct_technicians. *)
Theorem counting_answers (ctx : Context) (q : string) (f : Analytics.Filters) :
  let user := Py.strip q in
  let wo := work_orders ctx in
  App.extract_filters user (known_equipment ctx) (known_product_lines ctx)
    (known_symptoms ctx) (default_year ctx) = Ok f ->
  (App.intent user = App.CountIncidents ->
   Webapp.answer_question ctx q
   = Ok (Py.str_of_nat (Analytics.count_incidents wo (Some f))))
  /\ (App.intent user = App.CountMentions ->
      Webapp.answer_question ctx q
      = Ok (Py.str_of_nat
              (Analytics.count_mentions wo (App.extract_mention_keyword user) (Some f))))
  /\ (App.intent user = App.CountDistinctTechnicians ->
      Webapp.answer_question ctx q
      = (n <- Analytics.count_distinct_technicians wo (Some f) ;; Ok (Py.str_of_nat n)))
  /\ (forall n, Py.isdigit (Py.str_of_nat n) = true).
Proof.
  intros user wo Hf.
  subst wo.
  assert (Hne : forall t, App.intent user = t -> t <> App.Unknown ->
                          Py.nonempty user = true).
  { intros t Ht Hu.
    destruct (Py.nonempty user) eqn:E; [reflexivity|].
    rewrite (intent_empty user E) in Ht. congruence. }
  unfold Webapp.answer_question.
  fold user.
  split; [|split; [|split]].
  - intros Hit.
    rewrite (Hne _ Hit) by discriminate.
    cbn [negb]. rewrite Hf. cbn [bind]. rewrite Hit.
    now rewrite maybe_llm_count.
  - intros Hit.
    rewrite (Hne _ Hit) by discriminate.
    cbn [negb]. rewrite Hf. cbn [bind]. rewrite Hit.
    now rewrite maybe_llm_count.
  - intros Hit.
    rewrite (Hne _ Hit) by discriminate.
    cbn [negb]. rewrite Hf. cbn [bind]. rewrite Hit.
    destruct (Analytics.count_distinct_technicians (work_orders ctx) (Some f));
      cbn [bind]; [now rewrite maybe_llm_count | reflexivity].
  - intros n.
    destruct (str_of_nat_digits n) as [H1 H2].
    unfold Py.isdigit.
    rewrite H2.
    now destruct (Py.str_of_nat n).
Qed.

Lemma append_nonempty (a b : string) : Py.nonempty b = true -> (a ++ b)%string <> "".
Proof.
  intros H E.
  destruct a; simpl in E; [subst b|]; discriminate.
Qed.

Lemma tied_answer_nonempty (tied : list (string * nat)) (s : string) :
  Render.tied_answer tied = Some s -> s <> "".
Proof.
  unfold Render.tied_answer, Render.with_count.
  destruct tied as [|[c n] rest]; [discriminate|].
  cbn [map fst].
  destruct (map fst rest); intros [= <-].
  - now apply append_nonempty.
  - now apply append_nonempty.
Qed.

Lemma most_common_symptoms_nil (wo : Analytics.DataFrame) (f : option Analytics.Filters) :
  Analytics.most_common_symptoms wo f = [] <->
  Analytics.rows (Analytics.filter_work_orders wo (Analytics.or_default f)) = [].
Proof.
  split; [|apply most_common_symptoms_empty].
  intros H.
  destruct (Analytics.rows _) as [|r0 rs] eqn:E; [reflexivity|].
  exfalso.
  assert (Hne : Analytics.rows (Analytics.filter_work_orders wo (Analytics.or_default f))
                <> []) by (rewrite E; discriminate).
  destruct (most_common_symptoms_members wo f Hne) as (m & _ & _ & [c0 Hc0] & Hmem).
  assert (Hin : In (c0, m) (Analytics.most_common_symptoms wo f))
    by (apply Hmem; now split).
  rewrite H in Hin.
  destruct Hin.
Qed.

(** X18.  With the paraphrase step off, the answer to a most_common_symptom
    question is empty exactly when the extracted Filter leaves no incident;
    a single winner is rendered "<code> with <n> work orders" and tied
    winners "<code1> and <code2> ..., each with <n> work orders". *)
Theorem most_common_symptom_answer (ctx : Context) (q : string) (f : Analytics.Filters) :
  let user := Py.strip q in
  let wo := work_orders ctx in
  let tied := Analytics.most_common_symptoms wo (Some f) in
  App.extract_filters user (known_equipment ctx) (known_product_lines ctx)
    (known_symptoms ctx) (default_year ctx) = Ok f ->
  App.intent user = App.MostCommonSymptom ->
  App.USE_LLM (llm ctx) && App.llm_available (llm ctx) = false ->
  Webapp.answer_question ctx q = Ok (plain (Render.tied_answer tied))
  /\ (Webapp.answer_question ctx q = Ok ""
      <-> Analytics.rows (Analytics.filter_work_orders wo f) = [])
  /\ (forall c n, tied = [(c, n)] ->
        Webapp.answer_question ctx q
        = Ok (c ++ " with " ++ Py.str_of_nat n ++ " work orders")%string)
  /\ (forall c1 n1 c2 n2 rest, tied = (c1, n1) :: (c2, n2) :: rest ->
        Webapp.answer_question ctx q
        = Ok (Py.join " and " (c1 :: c2 :: map fst rest) ++ ", each with "
              ++ Py.str_of_nat n1 ++ " work orders")%string).
Proof.
  intros user wo tied Hf Hit Hoff.
  assert (Ha : Webapp.answer_question ctx q = Ok (plain (Render.tied_answer tied))).
  { unfold Webapp.answer_question.
    fold user.
    destruct (Py.nonempty user) eqn:Hne.
    - cbn [negb]. rewrite Hf. cbn [bind]. rewrite Hit.
      now rewrite reply_off.
    - rewrite (intent_empty user Hne) in Hit. discriminate. }
  split; [exact Ha|].
  split; [|split].
  - rewrite Ha.
    rewrite <- (most_common_symptoms_nil wo (Some f)).
    fold tied.
    split.
    + intros [= H].
      destruct (Render.tied_answer tied) as [s|] eqn:E.
      * simpl in H. now apply tied_answer_nonempty in E.
      * unfold Render.tied_answer in E.
        destruct tied as [|[c n] rest]; [reflexivity|].
        cbn [map fst] in E. destruct (map fst rest); discriminate.
    + now intros ->.
  - intros c n E. rewrite Ha, E. reflexivity.
  - intros c1 n1 c2 n2 rest E. rewrite Ha, E. reflexivity.
Qed.

(** X19.  For a count_distinct_equipment question the command-line loop
    prints the decimal text of [count_distinct_equipment] under the
    extracted Filter: its inline copy of the filter computes the same
    number as the analytics function, whatever the paraphrase settings. *)
Theorem cli_distinct_equipment (ctx : Context) (q : string) (f : Analytics.Filters) :
  App.extract_filters (Py.strip q) (known_equipment ctx) (known_product_lines ctx)
    (known_symptoms ctx) (default_year ctx) = Ok f ->
  App.intent (Py.strip q) = App.CountDistinctEquipment ->
  AppMain.turn ctx q
  = Ok (AppMain.Print
          (Py.str_of_nat (Analytics.count_distinct_equipment (work_orders ctx) (Some f)))).
Proof.
  intros Hf Hit.
  unfold AppMain.turn.
  destruct (Py.nonempty (Py.strip q)) eqn:Hne;
    [|rewrite (intent_empty _ Hne) in Hit; discriminate].
  cbn [negb].
  destruct (String.eqb (Py.lower (Py.strip q)) "exit"
            || String.eqb (Py.lower (Py.strip q)) "quit") eqn:Hexit;
    [rewrite (intent_exit _ Hexit) in Hit; discriminate|].
  rewrite Hf. cbn [bind]. rewrite Hit.
  rewrite maybe_llm_count.
  do 3 f_equal.
  unfold Analytics.count_distinct_equipment, Analytics.empty,
    Analytics.filter_work_orders, Analytics.with_rows.
  cbn [Analytics.rows Analytics.or_default].
  now destruct (Analytics.keep_ts _ _ _).
Qed.

(** ** The question history *)

Lemma last_n_length {A : Type} (n : nat) (l : list A) :
  List.length (History.last_n n l) = Nat.min n (List.length l).
Proof. unfold History.last_n. rewrite length_skipn. lia. Qed.

Lemma last_n_suffix {A : Type} (n : nat) (l : list A) :
  exists dropped, l = dropped ++ History.last_n n l
                  /\ List.length dropped = List.length l - n.
Proof.
  exists (firstn (List.length l - n) l).
  unfold History.last_n.
  rewrite firstn_skipn, length_firstn.
  split; [reflexivity | lia].
Qed.

Lemma last_n_snoc {A : Type} (n : nat) (l : list A) (x : A) :
  0 < n -> History.last_n n (l ++ [x]) = History.last_n (n - 1) l ++ [x].
Proof.
  intros Hn.
  unfold History.last_n.
  rewrite length_app. simpl List.length.
  rewrite skipn_app.
  replace (List.length l + 1 - n) with (List.length l - (n - 1)) by lia.
  replace (List.length l - (n - 1) - List.length l) with 0 by lia.
  reflexivity.
Qed.

(** X20.  [push_history] appends the new entry and keeps the last 30: the
    stored history ends with the new entry, is a suffix of the old history
    followed by it, has [min 30 (old length + 1)] entries, and loses nothing
    while the old history has fewer than 30 entries.  The POST handler
    stores the stripped question with its answer, and leaves the session
    untouched for a blank question. *)
Theorem push_history_keeps_last_30 (session : History.Session) (now q a : string) :
  let old := History.get_history session in
  let new := History.get_history (History.push_history session now q a) in
  (exists kept, new = kept ++ [History.mkEntry now q a])
  /\ (exists dropped, old ++ [History.mkEntry now q a] = dropped ++ new)
  /\ List.length new = Nat.min 30 (List.length old + 1)
  /\ (List.length old < 30 -> new = old ++ [History.mkEntry now q a])
  /\ (forall answer form,
        (Py.nonempty (Py.strip form) = false ->
         History.home_post answer session now form = Ok session)
        /\ (forall ans, Py.nonempty (Py.strip form) = true ->
              answer (Py.strip form) = Ok ans ->
              History.home_post answer session now form
              = Ok (History.push_history session now (Py.strip form) ans))).
Proof.
  intros old new.
  unfold new, History.push_history.
  fold old.
  cbn [History.get_history].
  split; [|split; [|split; [|split]]].
  - exists (History.last_n 29 old).
    now rewrite last_n_snoc by lia.
  - destruct (last_n_suffix 30 (old ++ [History.mkEntry now q a])) as (d & Hd & _).
    now exists d.
  - rewrite last_n_length, length_app. simpl. lia.
  - intros Hlt.
    unfold History.last_n.
    rewrite length_app. simpl List.length.
    replace (List.length old + 1 - 30) with 0 by lia.
    reflexivity.
  - intros answer form.
    unfold History.home_post.
    split.
    + now intros ->.
    + intros ans -> ->. reflexivity.
Qed.

(** ** src/retrieval.py: tokens and scores *)

Lemma string_forall_app (p : ascii -> bool) (a b : string) :
  string_forall p (a ++ b) = string_forall p a && string_forall p b.
Proof.
  induction a as [|c a IH]; simpl; [reflexivity|].
  now rewrite IH, andb_assoc.
Qed.

Lemma append_assoc_s (a b c : string) : ((a ++ b) ++ c = a ++ (b ++ c))%string.
Proof. induction a as [|x a IH]; simpl; [reflexivity | now rewrite IH]. Qed.

Lemma append_empty_r (a : string) : (a ++ "")%string = a.
Proof. induction a as [|x a IH]; simpl; [reflexivity | now rewrite IH]. Qed.

Lemma nonempty_snoc (a : string) (c : ascii) :
  Py.nonempty (a ++ String c EmptyString) = true.
Proof. now destruct a. Qed.

(** Every token is a non-empty run of [[a-z0-9]] cut out of the text read
    so far. *)
Lemma findall_tokens (s cur : string) :
  string_forall Retrieval.is_tok_char cur = true ->
  forall t, In t (Retrieval.findall cur s) ->
    Py.nonempty t = true
    /\ string_forall Retrieval.is_tok_char t = true
    /\ exists p q, (cur ++ s = p ++ t ++ q)%string.
Proof.
  revert cur.
  induction s as [|c s IH]; intros cur Hcur t; cbn [Retrieval.findall].
  - destruct (Py.nonempty cur) eqn:Hne; [|intros []].
    intros [<- | []].
    repeat split; try assumption.
    exists EmptyString, EmptyString. simpl. now rewrite !append_empty_r.
  - destruct (Retrieval.is_tok_char c) eqn:Hc.
    + intros Ht.
      apply IH in Ht as (H1 & H2 & p & q & E).
      * repeat split; try assumption.
        exists p, q. rewrite <- E. now rewrite append_assoc_s.
      * rewrite string_forall_app, Hcur. simpl. now rewrite Hc.
    + assert (Hrest : In t (Retrieval.findall EmptyString s) ->
                Py.nonempty t = true
                /\ string_forall Retrieval.is_tok_char t = true
                /\ exists p q, (cur ++ String c s = p ++ t ++ q)%string).
      { intros Ht.
        apply (IH EmptyString eq_refl) in Ht as (H1 & H2 & p & q & E).
        repeat split; try assumption.
        exists (cur ++ String c p)%string, q.
        simpl in E. rewrite E, append_assoc_s. reflexivity. }
      destruct (Py.nonempty cur) eqn:Hne; [|exact Hrest].
      intros [<- | Ht]; [|now apply Hrest].
      repeat split; try assumption.
      now exists EmptyString, (String c s).
Qed.

Lemma findall_nil (s cur : string) :
  Retrieval.findall cur s = [] <->
  cur = "" /\ string_forall (fun c => negb (Retrieval.is_tok_char c)) s = true.
Proof.
  revert cur.
  induction s as [|c s IH]; intros cur; cbn [Retrieval.findall string_forall].
  - destruct cur; simpl; split; try tauto; try discriminate.
    intros [H _]. discriminate.
  - destruct (Retrieval.is_tok_char c) eqn:Hc; cbn [negb andb].
    + rewrite IH.
      split; [intros [H _] | intros [_ H]; discriminate].
      destruct cur; discriminate.
    + destruct cur as [|d cur]; cbn [Py.nonempty].
      * rewrite IH. tauto.
      * split; [discriminate | intros [H _]; discriminate].
Qed.

Lemma tokenize_tokens_aux (text : string) :
  (forall t, In t (Retrieval._tokenize text) ->
     Py.nonempty t = true
     /\ string_forall Retrieval.is_tok_char t = true
     /\ Py.contains t (Py.lower text) = true)
  /\ Retrieval._tokenize (Py.lower text) = Retrieval._tokenize text
  /\ (Retrieval._tokenize text = [] <->
      string_forall (fun c => negb (Retrieval.is_tok_char c)) (Py.lower text) = true).
Proof.
  unfold Retrieval._tokenize.
  split; [|split].
  - intros t Ht.
    apply (findall_tokens _ EmptyString eq_refl) in Ht as (H1 & H2 & p & q & E).
    repeat split; try assumption.
    apply contains_app.
    now exists p, q.
  - now rewrite lower_idem.
  - rewrite findall_nil. tauto.
Qed.

(** X21.  [_tokenize] returns non-empty runs of lower-case letters and
    digits, each of which occurs in the lower-cased text; it ignores the
    case of the text, and returns no token exactly when the text holds no
    letter or digit. *)
Theorem tokenize_tokens (text : string) :
  (forall t, In t (Retrieval._tokenize text) ->
     Py.nonempty t = true
     /\ string_forall Retrieval.is_tok_char t = true
     /\ Py.contains t (Py.lower text) = true)
  /\ Retrieval._tokenize (Py.lower text) = Retrieval._tokenize text
  /\ (Retrieval._tokenize text = [] <->
      string_forall (fun c => negb (Retrieval.is_tok_char c)) (Py.lower text) = true).
Proof. exact (tokenize_tokens_aux text). Qed.

Lemma fold_score (p : string -> bool) (l : list string) (a : nat) :
  fold_left (fun score tok => if p tok then score + 2 else score) l a
  = a + 2 * List.length (filter p l).
Proof.
  revert a.
  induction l as [|t l IH]; intros a; simpl; [lia|].
  rewrite IH.
  destruct (p t); simpl; lia.
Qed.

Lemma score_text_formula (doc : string) (toks : list string) (phrase : string) :
  Retrieval._score_text doc toks phrase
  = 2 * List.length (filter (fun t => Py.nonempty t && Py.contains t doc)
                       (Py.unique string_dec toks))
    + (if Py.nonempty phrase && Py.contains phrase doc then 5 else 0).
Proof.
  unfold Retrieval._score_text.
  rewrite fold_score.
  destruct (Py.nonempty phrase && Py.contains phrase doc); lia.
Qed.

Lemma unique_perm {A : Type} (dec : forall x y : A, {x = y} + {x <> y})
    (l l' : list A) :
  (forall x, In x l <-> In x l') -> Permutation (Py.unique dec l) (Py.unique dec l').
Proof.
  intros H.
  apply NoDup_Permutation; try apply unique_NoDup.
  intros x. rewrite !unique_In. apply H.
Qed.

(** X22.  [_score_text] treats the query tokens as a set: 2 points per
    distinct non-empty token found in the document plus 5 for the phrase.
    Two token lists with the same members score alike, the score is at most
    twice the number of distinct tokens plus 5, it is at least 2 as soon as
    one token is found, and it is 0 exactly when no token and no phrase is
    found. *)
Theorem score_text_bounds (doc : string) (toks : list string) (phrase : string) :
  (forall toks', (forall t, In t toks <-> In t toks') ->
     Retrieval._score_text doc toks' phrase = Retrieval._score_text doc toks phrase)
  /\ Retrieval._score_text doc toks phrase <= 2 * Py.nunique string_dec toks + 5
  /\ (forall t, In t toks -> Py.nonempty t = true -> Py.contains t doc = true ->
        2 <= Retrieval._score_text doc toks phrase)
  /\ (Retrieval._score_text doc toks phrase = 0 <->
      (forall t, In t toks -> Py.nonempty t = true -> Py.contains t doc = false)
      /\ Py.nonempty phrase && Py.contains phrase doc = false).
Proof.
  rewrite score_text_formula.
  set (hit := fun t => Py.nonempty t && Py.contains t doc).
  split; [|split; [|split]].
  - intros toks' H.
    rewrite score_text_formula.
    fold hit.
    f_equal. f_equal.
    apply Permutation_length, filter_perm, unique_perm.
    intros t. symmetry. apply H.
  - pose proof (filter_length_le hit (Py.unique string_dec toks)).
    unfold Py.nunique.
    destruct (Py.nonempty phrase && Py.contains phrase doc); lia.
  - intros t Hin Hne Hc.
    assert (Hf : In t (filter hit (Py.unique string_dec toks))).
    { apply filter_In. split; [now apply unique_In|]. unfold hit. now rewrite Hne, Hc. }
    destruct (filter hit (Py.unique string_dec toks)); [destruct Hf | simpl; lia].
  - split.
    + intros H.
      assert (Hnil : filter hit (Py.unique string_dec toks) = []).
      { destruct (filter hit _); [reflexivity | simpl in H; lia]. }
      split.
      * intros t Hin Hne.
        destruct (Py.contains t doc) eqn:Hc; [|reflexivity].
        assert (Hf : In t (filter hit (Py.unique string_dec toks))).
        { apply filter_In. split; [now apply unique_In|]. unfold hit. now rewrite Hne, Hc. }
        rewrite Hnil in Hf. destruct Hf.
      * destruct (Py.nonempty phrase && Py.contains phrase doc); [lia | reflexivity].
    + intros [Hno ->].
      replace (filter hit (Py.unique string_dec toks)) with (@nil string); [reflexivity|].
      symmetry.
      destruct (filter hit (Py.unique string_dec toks)) as [|t l] eqn:E; [reflexivity|].
      assert (Hf : In t (filter hit (Py.unique string_dec toks))) by (rewrite E; now left).
      apply filter_In in Hf as [Hin Hh].
      apply unique_In in Hin.
      unfold hit in Hh.
      apply andb_true_iff in Hh as [Hne Hc].
      rewrite (Hno t Hin Hne) in Hc. discriminate.
Qed.

(** ** src/retrieval.py: [search_work_orders] *)

Lemma search_cases (wo : Analytics.DataFrame) (query : string) (k : option Z)
    (f : option Analytics.Filters) :
  let F := Analytics.or_default f in
  let df := Analytics.rows (Analytics.filter_work_orders wo F) in
  let phrase := Py.lower (Py.strip query) in
  let toks := scoring_tokens F query in
  Retrieval.search_work_orders wo query k f
  = match df, Retrieval._tokenize phrase with
    | [], _ => Ok []
    | _ :: _, [] => Raise Retrieval.empty_query
    | _ :: _, _ :: _ =>
        Ok (truncate k
              (Py.sort Retrieval.hit_leb
                 (filter (fun h => min_score toks <=? Retrieval.score h)
                    (map (hit_of toks phrase) df))))
    end.
Proof.
  intros F df phrase toks.
  unfold Retrieval.search_work_orders, Analytics.empty.
  fold F. fold df. fold phrase.
  destruct df as [|r0 rs] eqn:Edf; [reflexivity|].
  unfold toks, scoring_tokens.
  fold phrase.
  destruct (Retrieval._tokenize phrase) as [|t ts]; [reflexivity|].
  destruct k; reflexivity.
Qed.

Lemma firstn_incl {A : Type} (n : nat) (l : list A) (x : A) :
  In x (firstn n l) -> In x l.
Proof.
  intros H.
  rewrite <- (firstn_skipn n l).
  apply in_or_app.
  now left.
Qed.

Lemma head_incl {A : Type} (n : Z) (l : list A) (x : A) : In x (Py.head n l) -> In x l.
Proof.
  unfold Py.head.
  destruct (0 <=? n)%Z; apply firstn_incl.
Qed.

Lemma truncate_incl {A : Type} (k : option Z) (l : list A) (x : A) :
  In x (truncate k l) -> In x l.
Proof. destruct k; [apply head_incl | trivial]. Qed.

Lemma sorted_firstn {A : Type} (R : A -> A -> Prop) (n : nat) (l : list A) :
  StronglySorted R l -> StronglySorted R (firstn n l).
Proof.
  revert n.
  induction l as [|a l IH]; intros n H; [now rewrite firstn_nil|].
  destruct n; [constructor|].
  simpl.
  apply StronglySorted_inv in H as [H1 H2].
  constructor; [now apply IH|].
  rewrite Forall_forall in *.
  intros x Hx.
  apply H2.
  now apply firstn_incl in Hx.
Qed.

Lemma sorted_truncate {A : Type} (R : A -> A -> Prop) (k : option Z) (l : list A) :
  StronglySorted R l -> StronglySorted R (truncate k l).
Proof.
  destruct k as [n|]; [|trivial].
  unfold truncate, Py.head.
  destruct (0 <=? n)%Z; apply sorted_firstn.
Qed.

Lemma hit_leb_iff (a b : Retrieval.Hit) :
  Retrieval.hit_leb a b = true <->
  Retrieval.score b < Retrieval.score a
  \/ (Retrieval.score a = Retrieval.score b
      /\ (Retrieval.start_ts b <= Retrieval.start_ts a)%Z).
Proof.
  unfold Retrieval.hit_leb.
  rewrite orb_true_iff, andb_true_iff, Nat.ltb_lt, Nat.eqb_eq, Z.leb_le.
  reflexivity.
Qed.

Lemma hit_leb_total (a b : Retrieval.Hit) :
  Retrieval.hit_leb a b = true \/ Retrieval.hit_leb b a = true.
Proof. rewrite !hit_leb_iff. unfold Analytics.Timestamp in *. lia. Qed.

Lemma hit_leb_trans (a b c : Retrieval.Hit) :
  Retrieval.hit_leb a b = true -> Retrieval.hit_leb b c = true ->
  Retrieval.hit_leb a c = true.
Proof. rewrite !hit_leb_iff. unfold Analytics.Timestamp in *. lia. Qed.

Lemma min_score_ge_2 (toks : list string) : 2 <= min_score toks.
Proof. unfold min_score. destruct (2 <=? _); lia. Qed.

Lemma sorted_impl {A : Type} (R S : A -> A -> Prop) (l : list A) :
  (forall a b, R a b -> S a b) -> StronglySorted R l -> StronglySorted S l.
Proof.
  intros HRS.
  induction 1 as [|a l Hl IH Hall]; constructor; [exact IH|].
  eapply Forall_impl; [|exact Hall].
  intros b. apply HRS.
Qed.

Lemma truncate_nil {A : Type} (k : option Z) : truncate k (@nil A) = [].
Proof. destruct k; [apply head_nil | reflexivity]. Qed.

Lemma search_ok (wo : Analytics.DataFrame) (query : string) (k : option Z)
    (f : option Analytics.Filters) (hits : list Retrieval.Hit) :
  Retrieval.search_work_orders wo query k f = Ok hits ->
  let F := Analytics.or_default f in
  let toks := scoring_tokens F query in
  hits = truncate k
           (Py.sort Retrieval.hit_leb
              (filter (fun h => min_score toks <=? Retrieval.score h)
                 (map (hit_of toks (Py.lower (Py.strip query)))
                    (Analytics.rows (Analytics.filter_work_orders wo F))))).
Proof.
  intros H F toks.
  rewrite search_cases in H.
  fold F in H. fold toks in H.
  revert H.
  generalize (Analytics.rows (Analytics.filter_work_orders wo F)).
  intros df H.
  destruct df as [|r0 rs].
  - assert (E : hits = []) by congruence.
    rewrite E. symmetry. apply truncate_nil.
  - destruct (Retrieval._tokenize _); [discriminate|].
    congruence.
Qed.

(** X23.  Every row [search_work_orders] returns comes from an incident
    that passes the filter, with the score and snippet of that incident for
    the query; its score reaches the threshold (4 with two or more distinct
    scoring tokens, 2 otherwise), hence is positive; the rows are ordered by
    score descending, then start_ts descending; and for [k >= 0] there are
    at most [k] of them. *)
Theorem search_hits (wo : Analytics.DataFrame) (query : string) (k : option Z)
    (f : option Analytics.Filters) (hits : list Retrieval.Hit) :
  Retrieval.search_work_orders wo query k f = Ok hits ->
  let F := Analytics.or_default f in
  let toks := scoring_tokens F query in
  (forall h, In h hits ->
     min_score toks <= Retrieval.score h
     /\ 0 < Retrieval.score h
     /\ exists r, In r (Analytics.rows wo) /\ matches F r = true
                  /\ h = hit_of toks (Py.lower (Py.strip query)) r)
  /\ StronglySorted
       (fun a b => Retrieval.score b < Retrieval.score a
                   \/ (Retrieval.score a = Retrieval.score b
                       /\ (Retrieval.start_ts b <= Retrieval.start_ts a)%Z)) hits
  /\ (forall n, k = Some n -> (0 <= n)%Z -> List.length hits <= Z.to_nat n).
Proof.
  intros H F toks.
  rewrite (search_ok wo query k f hits H).
  fold F. fold toks.
  split; [|split].
  - intros h Hh.
    apply truncate_incl, sort_In, filter_In in Hh as [Hh Hs].
    apply Nat.leb_le in Hs.
    pose proof (min_score_ge_2 toks).
    split; [exact Hs|].
    split; [lia|].
    apply in_map_iff in Hh as (r & <- & Hr).
    rewrite filter_work_orders_rows in Hr.
    apply filter_In in Hr as [Hr Hm].
    now exists r.
  - apply sorted_truncate.
    eapply sorted_impl.
    2: { apply (sort_sorted Retrieval.hit_leb);
         [apply hit_leb_total | apply hit_leb_trans]. }
    intros a b Hab. now apply hit_leb_iff.
  - intros n -> Hn.
    unfold truncate, Py.head.
    destruct (Z.leb_spec 0 n); [|lia].
    rewrite length_firstn. lia.
Qed.

(** X24.  [search_work_orders] raises only for a query without letter or
    digit asked on a non-empty filtered set; when the filter leaves no
    incident it returns the empty result for every query, such a query
    included. *)
Theorem search_errors (wo : Analytics.DataFrame) (query : string) (k : option Z)
    (f : option Analytics.Filters) :
  let df := Analytics.rows (Analytics.filter_work_orders wo (Analytics.or_default f)) in
  (df = [] -> Retrieval.search_work_orders wo query k f = Ok [])
  /\ (forall e, Retrieval.search_work_orders wo query k f = Raise e <->
                e = Retrieval.empty_query
                /\ df <> []
                /\ string_forall (fun c => negb (Retrieval.is_tok_char c))
                     (Py.lower (Py.strip query)) = true).
Proof.
  intros df.
  rewrite search_cases.
  fold df.
  pose proof (proj2 (proj2 (tokenize_tokens_aux (Py.lower (Py.strip query))))) as Htok.
  rewrite lower_idem in Htok.
  destruct df as [|r0 rs].
  - split; [reflexivity|].
    intros e. split; [discriminate | intros (_ & H & _); now elim H].
  - split; [discriminate|].
    intros e.
    destruct (Retrieval._tokenize _) as [|t ts].
    + split.
      * intros [= <-]. repeat split; [discriminate | now apply Htok].
      * now intros (-> & _).
    + split; [discriminate|].
      intros (_ & _ & H).
      apply Htok in H. discriminate.
Qed.

(** *** Filtered against unfiltered search *)

Lemma tok_char_not_space (c : ascii) :
  Retrieval.is_tok_char c = true -> Py.is_space c = false.
Proof.
  unfold Retrieval.is_tok_char, Py.is_lower_letter, Py.is_digit, Py.is_space.
  rewrite orb_true_iff, !andb_true_iff, !Nat.leb_le.
  intros H.
  apply orb_false_iff.
  split; apply andb_false_iff; rewrite !Nat.leb_gt; lia.
Qed.

Lemma squeeze_prefix (t y : string) :
  string_forall (fun c => negb (Py.is_space c)) t = true ->
  Py.nonempty t = true ->
  Retrieval.squeeze false (t ++ y) = (t ++ Retrieval.squeeze false y)%string.
Proof.
  induction t as [|c t IH]; [discriminate|].
  cbn [string_forall].
  rewrite andb_true_iff, negb_true_iff.
  intros [Hc Ht] _.
  cbn [append Retrieval.squeeze].
  rewrite Hc.
  destruct t as [|d t]; [reflexivity|].
  now rewrite IH.
Qed.

Lemma rstrip_prefix (t y : string) :
  string_forall (fun c => negb (Py.is_space c)) t = true ->
  Py.nonempty t = true ->
  exists z, Py.rstrip (t ++ y) = (t ++ z)%string.
Proof.
  induction t as [|c t IH]; [discriminate|].
  cbn [string_forall].
  rewrite andb_true_iff, negb_true_iff.
  intros [Hc Ht] _.
  cbn [append Py.rstrip].
  destruct t as [|d t].
  - cbn [append].
    destruct (Py.rstrip y) as [|a r]; [|now exists (String a r)].
    rewrite Hc. now exists EmptyString.
  - destruct (IH Ht eq_refl) as [z Hz].
    rewrite Hz.
    cbn [append].
    now exists z.
Qed.

Lemma strip_prefix (t y : string) :
  string_forall (fun c => negb (Py.is_space c)) t = true ->
  Py.nonempty t = true ->
  exists z, Py.strip (t ++ y) = (t ++ z)%string.
Proof.
  intros Ht Hne.
  unfold Py.strip.
  replace (Py.lstrip (t ++ y)) with (t ++ y)%string; [now apply rstrip_prefix|].
  destruct t as [|c t]; [discriminate|].
  cbn [string_forall] in Ht.
  apply andb_true_iff in Ht as [Hc _].
  apply negb_true_iff in Hc.
  cbn [append Py.lstrip].
  now rewrite Hc.
Qed.

Lemma length_append_s (a b : string) :
  String.length (a ++ b)%string = String.length a + String.length b.
Proof.
  induction a as [|c a IH]; simpl; [reflexivity|].
  now rewrite IH.
Qed.

Lemma strip_no_space (s : string) :
  string_forall (fun c => negb (Py.is_space c)) s = true -> Py.strip s = s.
Proof.
  intros H.
  destruct s as [|c s]; [reflexivity|].
  destruct (strip_prefix (String c s) EmptyString H eq_refl) as [z Hz].
  rewrite append_empty_r in Hz.
  assert (Hlen : forall u, String.length (Py.strip u) <= String.length u).
  { intros u. unfold Py.strip.
    assert (L : forall v, String.length (Py.lstrip v) <= String.length v).
    { induction v as [|a v IHv]; simpl; [lia|]. destruct (Py.is_space a); simpl; lia. }
    assert (R : forall v, String.length (Py.rstrip v) <= String.length v).
    { induction v as [|a v IHv]; simpl; [lia|].
      destruct (Py.rstrip v); [destruct (Py.is_space a)|]; simpl in *; lia. }
    specialize (L u). specialize (R (Py.lstrip u)). lia. }
  specialize (Hlen (String c s)).
  rewrite Hz in Hlen |- *.
  assert (Hz0 : z = "").
  { destruct z; [reflexivity|].
    exfalso.
    rewrite length_append_s in Hlen. simpl in Hlen. lia. }
  rewrite Hz0.
  apply append_empty_r.
Qed.

Lemma lower_no_space (e : string) :
  string_forall (fun c => negb (Py.is_space c)) (Py.lower e)
  = string_forall (fun c => negb (Py.is_space c)) e.
Proof.
  induction e as [|c e IH]; simpl; [reflexivity|].
  now rewrite is_space_lower, IH.
Qed.

Lemma tok_no_space (t : string) :
  string_forall Retrieval.is_tok_char t = true ->
  string_forall (fun c => negb (Py.is_space c)) t = true.
Proof.
  induction t as [|c t IH]; simpl; [reflexivity|].
  rewrite andb_true_iff.
  intros [Hc Ht].
  now rewrite (tok_char_not_space c Hc), IH.
Qed.

(** The search text of a row contains its equipment id when that id is a
    single token up to case. *)
Lemma search_text_has_equipment (r : Analytics.WorkOrder) :
  string_forall Retrieval.is_tok_char (Py.lower (Analytics.equipment_id r)) = true ->
  Py.nonempty (Analytics.equipment_id r) = true ->
  Py.contains (Py.lower (Analytics.equipment_id r)) (Retrieval.build_search_text r) = true.
Proof.
  intros Htok Hne.
  set (e := Analytics.equipment_id r) in *.
  assert (Hns : string_forall (fun c => negb (Py.is_space c)) (Py.lower e) = true)
    by now apply tok_no_space.
  assert (Hse : Py.strip e = e)
    by (apply strip_no_space; now rewrite <- lower_no_space).
  unfold Retrieval.build_search_text.
  fold e.
  rewrite Hse, lower_app.
  rewrite squeeze_prefix; [|exact Hns | now rewrite nonempty_lower].
  destruct (strip_prefix (Py.lower e)
              (Retrieval.squeeze false
                 (Py.lower (" " ++ Py.strip (Analytics.product_line r) ++ " "
                            ++ Py.strip (Analytics.symptom_code r) ++ Analytics.newline
                            ++ Py.strip (Analytics.description r) ++ Analytics.newline
                            ++ Py.strip (Analytics.comments r))))
              Hns) as [z Hz]; [now rewrite nonempty_lower|].
  rewrite Hz.
  apply contains_app.
  now exists EmptyString, z.
Qed.

Lemma filter_keeps_all {A : Type} (p : A -> bool) (l : list A) :
  (forall x, In x l -> p x = true) -> filter p l = l.
Proof.
  induction l as [|a l IH]; intros H; simpl; [reflexivity|].
  rewrite (H a (or_introl eq_refl)), IH; [reflexivity|].
  intros x Hx. apply H. now right.
Qed.

(** Removing a token that occurs in the list lowers the number of distinct
    tokens by one, and the number of distinct tokens found in a document
    that contains it by one as well. *)
Lemma remove_token (toks : list string) (t : string) (hit : string -> bool) :
  In t toks ->
  let rest := filter (fun x => negb (String.eqb x t)) toks in
  List.length (Py.unique string_dec toks) = S (List.length (Py.unique string_dec rest))
  /\ List.length (filter hit (Py.unique string_dec toks))
     = (if hit t then 1 else 0) + List.length (filter hit (Py.unique string_dec rest)).
Proof.
  intros Hin rest.
  assert (Hperm : Permutation (Py.unique string_dec toks)
                    (t :: Py.unique string_dec rest)).
  { apply NoDup_Permutation.
    - apply unique_NoDup.
    - constructor; [|apply unique_NoDup].
      rewrite unique_In. unfold rest. rewrite filter_In.
      intros [_ H]. now rewrite String.eqb_refl in H.
    - intros x. cbn [In]. rewrite !unique_In. unfold rest. rewrite filter_In.
      destruct (String.eqb_spec x t) as [-> | NE]; cbn [negb].
      + split; [now left | intros _; exact Hin].
      + split; [intros H; right; now split | intros [E | [H _]]; congruence]. }
  split.
  - now rewrite (Permutation_length Hperm).
  - rewrite (Permutation_length (filter_perm hit _ _ Hperm)).
    cbn [filter].
    now destruct (hit t).
Qed.

Lemma score_transfer (n w : Analytics.Filters) (query : string) (r : Analytics.WorkOrder) :
  carries n w -> matches n r = true ->
  let doc := Retrieval.build_search_text r in
  let phrase := Py.lower (Py.strip query) in
  min_score (scoring_tokens n query)
  <= Retrieval._score_text doc (scoring_tokens n query) phrase ->
  min_score (scoring_tokens w query)
  <= Retrieval._score_text doc (scoring_tokens w query) phrase.
Proof.
  intros (Hc & _) Hm doc phrase.
  unfold scoring_tokens at 3 4.
  destruct (Analytics.f_equipment_id w) as [v|] eqn:Ew.
  { unfold scoring_tokens. now rewrite (Hc v eq_refl). }
  unfold scoring_tokens.
  fold phrase.
  destruct (Analytics.f_equipment_id n) as [e|] eqn:En; [|trivial].
  destruct (Py.nonempty e) eqn:Hne; [|trivial].
  set (T := Retrieval._tokenize phrase).
  destruct (in_dec string_dec (Py.lower e) T) as [Hin | Hnot].
  - assert (Heq : Analytics.equipment_id r = e).
    { unfold matches in Hm.
      rewrite !andb_true_iff in Hm.
      destruct Hm as ((((H1 & _) & _) & _) & _).
      unfold str_test in H1. rewrite En, Hne in H1.
      now apply String.eqb_eq. }
    destruct (proj1 (tokenize_tokens_aux phrase) (Py.lower e) Hin) as (Htne & Htok & _).
    assert (Hdoc : Py.contains (Py.lower e) doc = true).
    { unfold doc. rewrite <- Heq in *. now apply search_text_has_equipment. }
    rewrite !score_text_formula.
    unfold min_score.
    destruct (remove_token T (Py.lower e)
                (fun t => Py.nonempty t && Py.contains t doc) Hin) as [H1 H2].
    cbv zeta in H1, H2.
    rewrite Htne, Hdoc in H2.
    cbn [andb] in H2.
    rewrite H1, H2.
    destruct (Py.nonempty phrase && Py.contains phrase doc);
      destruct (Nat.leb_spec 2 (List.length
                  (Py.unique string_dec
                     (filter (fun x => negb (String.eqb x (Py.lower e))) T))));
      destruct (Nat.leb_spec 2 (S (List.length
                  (Py.unique string_dec
                     (filter (fun x => negb (String.eqb x (Py.lower e))) T)))));
      lia.
  - rewrite filter_keeps_all; [trivial|].
    intros x Hx.
    destruct (String.eqb_spec x (Py.lower e)) as [-> | NE]; [contradiction | reflexivity].
Qed.

(** X25.  Narrowing the filter never brings in new incidents: without
    truncation ([k = None]), the work_order_ids found under a filter that
    carries every populated field of another are among those found under
    the other one, also when the narrower filter names an equipment id and
    that id is dropped from the scoring tokens. *)
Theorem filtered_search_subset (wo : Analytics.DataFrame) (query : string)
    (n w : Analytics.Filters) (hn hw : list Retrieval.Hit) :
  carries n w ->
  Retrieval.search_work_orders wo query None (Some n) = Ok hn ->
  Retrieval.search_work_orders wo query None (Some w) = Ok hw ->
  incl (map Retrieval.work_order_id hn) (map Retrieval.work_order_id hw).
Proof.
  intros Hc Hn Hw id Hid.
  apply search_ok in Hn, Hw.
  cbn [Analytics.or_default truncate] in Hn, Hw.
  subst hn hw.
  apply in_map_iff in Hid as (h & <- & Hh).
  apply sort_In, filter_In in Hh as [Hh Hs].
  apply in_map_iff in Hh as (r & <- & Hr).
  apply Nat.leb_le in Hs.
  cbn [hit_of Retrieval.score Retrieval.work_order_id] in *.
  rewrite filter_work_orders_rows in Hr.
  apply filter_In in Hr as [Hr Hm].
  apply in_map_iff.
  exists (hit_of (scoring_tokens w query) (Py.lower (Py.strip query)) r).
  split; [reflexivity|].
  apply sort_In, filter_In.
  split.
  - apply in_map.
    rewrite filter_work_orders_rows.
    apply filter_In.
    split; [exact Hr | now apply (matches_carries n w)].
  - apply Nat.leb_le.
    cbn [hit_of Retrieval.score].
    now apply (score_transfer n w query r Hc Hm).
Qed.

(** ** src/retrieval.py: [_make_snippet] *)

Lemma substring_prefix (n : nat) (s : string) :
  exists q, s = (String.substring 0 n s ++ q)%string.
Proof.
  revert n.
  induction s as [|c s IH]; intros n.
  - exists EmptyString. now destruct n.
  - destruct n as [|n]; cbn [String.substring].
    + now exists (String c s).
    + destruct (IH n) as [q E].
      exists q. cbn [append]. now rewrite <- E.
Qed.

Lemma substring_piece (a n : nat) (s : string) :
  exists p q, s = (p ++ String.substring a n s ++ q)%string.
Proof.
  revert a.
  induction s as [|c s IH]; intros a.
  - exists EmptyString, EmptyString. now destruct a, n.
  - destruct a as [|a].
    + destruct (substring_prefix n (String c s)) as [q E].
      now exists EmptyString, q.
    + cbn [String.substring].
      destruct (IH a) as (p & q & E).
      exists (String c p), q. cbn [append]. now rewrite <- E.
Qed.

Lemma substring_length_le (a n : nat) (s : string) :
  String.length (String.substring a n s) <= n.
Proof.
  revert a n.
  induction s as [|c s IH]; intros a n.
  - destruct a, n; cbn; lia.
  - destruct a as [|a].
    + destruct n as [|n]; cbn [String.substring String.length]; [lia|].
      specialize (IH 0 n). lia.
    + cbn [String.substring]. apply IH.
Qed.

Lemma lstrip_piece (s : string) : exists p, s = (p ++ Py.lstrip s)%string.
Proof.
  induction s as [|c s [p E]].
  - now exists EmptyString.
  - cbn [Py.lstrip].
    destruct (Py.is_space c).
    + exists (String c p). cbn [append]. now rewrite <- E.
    + now exists EmptyString.
Qed.

Lemma rstrip_piece (s : string) : exists q, s = (Py.rstrip s ++ q)%string.
Proof.
  induction s as [|c s [q E]].
  - now exists EmptyString.
  - cbn [Py.rstrip].
    destruct (Py.rstrip s) as [|d r] eqn:R.
    + destruct (Py.is_space c).
      * now exists (String c s).
      * exists s. reflexivity.
    + exists q. cbn [append] in *. now rewrite <- E.
Qed.

Lemma strip_piece (s : string) : exists p q, s = (p ++ Py.strip s ++ q)%string.
Proof.
  destruct (lstrip_piece s) as [p Ep].
  destruct (rstrip_piece (Py.lstrip s)) as [q Eq].
  exists p, q.
  unfold Py.strip.
  now rewrite <- Eq.
Qed.

Lemma piece_length (s p x q : string) :
  s = (p ++ x ++ q)%string -> String.length x <= String.length s.
Proof. intros ->. rewrite !length_append_s. lia. Qed.

Lemma contains_trans (x y z : string) :
  Py.contains x y = true -> Py.contains y z = true -> Py.contains x z = true.
Proof.
  rewrite !contains_app.
  intros (p & q & ->) (p' & q' & ->).
  exists (p' ++ p)%string, (q ++ q')%string.
  now rewrite !append_assoc_s.
Qed.

Lemma contains_slice_strip (s : string) (a b : Z) :
  Py.contains (Py.strip (Retrieval.slice s a b)) s = true.
Proof.
  apply (contains_trans _ (Retrieval.slice s a b)).
  - apply contains_app, strip_piece.
  - apply contains_app, substring_piece.
Qed.

Lemma slice_strip_length (s : string) (a b : Z) (n : nat) :
  Z.to_nat (Retrieval.clamp (Z.of_nat (String.length s)) b
            - Retrieval.clamp (Z.of_nat (String.length s)) a) <= n ->
  String.length (Py.strip (Retrieval.slice s a b)) <= n.
Proof.
  intros H.
  destruct (strip_piece (Retrieval.slice s a b)) as (p & q & E).
  apply piece_length in E.
  unfold Retrieval.slice in E.
  cbv zeta in E.
  pose proof (substring_length_le
                (Z.to_nat (Retrieval.clamp (Z.of_nat (String.length s)) a))
                (Z.to_nat (Retrieval.clamp (Z.of_nat (String.length s)) b
                           - Retrieval.clamp (Z.of_nat (String.length s)) a)) s) as L.
  unfold Retrieval.slice. cbv zeta.
  lia.
Qed.

Lemma find_from_range (i : Z) (sub s : string) :
  Retrieval.find_from i sub s = (-1)%Z \/ (i <= Retrieval.find_from i sub s)%Z.
Proof.
  revert i.
  induction s as [|c s IH]; intros i; cbn [Retrieval.find_from].
  - destruct (String.prefix sub ""); [right; lia | now left].
  - destruct (String.prefix sub (String c s)); [right; lia|].
    destruct (IH (i + 1)%Z) as [E | L]; [now left | right; lia].
Qed.

(** X26.  For a non-negative window, the snippet is a piece of the document
    text, at most twice the window long, with no whitespace at either
    end. *)
Theorem make_snippet_spec (doc_text : string) (query_tokens : list string) (window : Z) :
  (0 <= window)%Z ->
  let s := Retrieval._make_snippet doc_text query_tokens window in
  Py.contains s doc_text = true
  /\ (Z.of_nat (String.length s) <= 2 * window)%Z
  /\ Py.strip s = s.
Proof.
  intros Hw s.
  subst s.
  unfold Retrieval._make_snippet.
  destruct (Retrieval.snippet_loop doc_text query_tokens window) as [s|] eqn:L.
  - induction query_tokens as [|tok rest IH]; [discriminate|].
    cbn [Retrieval.snippet_loop] in L.
    cbv zeta in L.
    destruct (Z.eqb_spec (Retrieval.find doc_text tok) (-1)) as [E | NE]; cbn [negb] in L.
    + now apply IH.
    + injection L as <-.
      split; [apply contains_slice_strip|].
      split; [|apply strip_idem].
      assert (P : (0 <= Retrieval.find doc_text tok)%Z).
      { unfold Retrieval.find in *.
        destruct (find_from_range 0 tok doc_text); [contradiction | assumption]. }
      assert (B : String.length
                    (Py.strip (Retrieval.slice doc_text
                                 (Z.max 0 (Retrieval.find doc_text tok - window))
                                 (Z.min (Z.of_nat (String.length doc_text))
                                    (Retrieval.find doc_text tok + window))))
                  <= Z.to_nat (2 * window)).
      { apply slice_strip_length. unfold Retrieval.clamp.
        destruct (Z.ltb_spec (Z.min (Z.of_nat (String.length doc_text))
                                (Retrieval.find doc_text tok + window)) 0);
          destruct (Z.ltb_spec (Z.max 0 (Retrieval.find doc_text tok - window)) 0); lia. }
      lia.
  - split; [apply contains_slice_strip|].
    split; [|apply strip_idem].
    assert (B : String.length (Py.strip (Retrieval.slice doc_text 0 (2 * window)))
                <= Z.to_nat (2 * window)).
    { apply slice_strip_length. unfold Retrieval.clamp.
      destruct (Z.ltb_spec (2 * window) 0); destruct (Z.ltb_spec 0 0); lia. }
    lia.
Qed.

(** ** src/app.py: [extract_mention_keyword] *)

Lemma quoted_no_match (prev : option ascii) (s : string) :
  string_forall (fun c => negb (App.is_quote c)) s = true ->
  Regex.search_from App.quoted_re prev s = None.
Proof.
  revert prev.
  induction s as [|c s IH]; intros prev H.
  - reflexivity.
  - cbn [string_forall] in H.
    apply andb_true_iff in H as [Hc Hs].
    apply negb_true_iff in Hc.
    cbn [Regex.search_from].
    replace (Regex.match_here App.quoted_re prev (String c s)) with (@None string).
    + now apply IH.
    + unfold Regex.match_here, App.quoted_re.
      cbn [App.seq Regex.run].
      now rewrite Hc.
Qed.

(** A greedy class run over [g] stops at the first character outside the
    class and hands over there. *)
Lemma star_greedy (p : ascii -> bool) (g : string) (b : ascii) (rest : string)
    (prev : option ascii) (cap : option string) (k : Regex.cont) (x : string) :
  string_forall p g = true ->
  p b = false ->
  (forall prev', k prev' (String b rest) cap = Some x) ->
  Regex.star p prev (g ++ String b rest) cap k = Some x.
Proof.
  revert prev.
  induction g as [|c g IH]; intros prev Hg Hb Hk.
  - cbn [append Regex.star].
    rewrite Hb. apply Hk.
  - cbn [string_forall] in Hg.
    apply andb_true_iff in Hg as [Hc Hg].
    cbn [append Regex.star].
    rewrite Hc.
    now rewrite (IH (Some c) Hg Hb Hk).
Qed.

Lemma consumed_app (g r : string) : Regex.consumed (g ++ r) r = g.
Proof.
  induction g as [|c g IH]; cbn [append].
  - apply consumed_refl.
  - rewrite consumed_cons, IH; [reflexivity|].
    rewrite length_append_s. lia.
Qed.

Lemma quoted_match (prev : option ascii) (a b c : ascii) (g rest : string) :
  App.is_quote a = true -> App.is_quote b = true ->
  string_forall (fun c => negb (App.is_quote c)) (String c g) = true ->
  Regex.match_here App.quoted_re prev (String a (String c g ++ String b rest))
  = Some (String c g).
Proof.
  intros Ha Hb Hg.
  unfold Regex.match_here, App.quoted_re, Regex.Plus.
  cbn [App.seq Regex.run append].
  rewrite Ha.
  cbn [string_forall] in Hg.
  apply andb_true_iff in Hg as [Hc Hg].
  rewrite Hc.
  apply star_greedy; [exact Hg | now rewrite Hb |].
  intros prev'.
  rewrite Hb.
  change (String c (g ++ String b rest)) with (String c g ++ String b rest)%string.
  now rewrite consumed_app.
Qed.

Lemma quoted_search (prev : option ascii) (p : string) (a b c : ascii) (g rest : string) :
  string_forall (fun c => negb (App.is_quote c)) p = true ->
  App.is_quote a = true -> App.is_quote b = true ->
  string_forall (fun c => negb (App.is_quote c)) (String c g) = true ->
  Regex.search_from App.quoted_re prev (p ++ String a (String c g ++ String b rest))
  = Some (String c g).
Proof.
  intros Hp Ha Hb Hg.
  pose proof (fun prev => quoted_match prev a b c g rest Ha Hb Hg) as M.
  revert M.
  generalize (String a (String c g ++ String b rest)).
  intros tail M.
  revert prev.
  induction p as [|d p IH]; intros prev.
  - cbn [append].
    destruct tail; cbn [Regex.search_from]; now rewrite M.
  - cbn [string_forall] in Hp.
    apply andb_true_iff in Hp as [Hd Hp].
    apply negb_true_iff in Hd.
    cbn [append Regex.search_from].
    replace (Regex.match_here App.quoted_re prev (String d (p ++ tail)))
      with (@None string).
    + now apply IH.
    + unfold Regex.match_here, App.quoted_re.
      cbn [App.seq Regex.run].
      now rewrite Hd.
Qed.

(** X27.  A quoted phrase wins: when the first quote character of the
    question (single or double) is followed by a non-empty run without
    quote characters and a closing quote of either kind, the keyword is
    that run without its surrounding whitespace, whatever the rest of the
    question says. *)
Theorem mention_keyword_quoted (p g rest : string) (a b : ascii) :
  string_forall (fun c => negb (App.is_quote c)) p = true ->
  App.is_quote a = true -> App.is_quote b = true ->
  Py.nonempty g = true ->
  string_forall (fun c => negb (App.is_quote c)) g = true ->
  App.extract_mention_keyword (p ++ String a (g ++ String b rest)) = Py.strip g.
Proof.
  intros Hp Ha Hb Hne Hg.
  destruct g as [|c g]; [discriminate|].
  unfold App.extract_mention_keyword, Regex.search.
  now rewrite quoted_search.
Qed.

(** X28.  Without any quote character, a question that says leak, in any
    letter case, asks for the keyword leak, also when it says bearing or
    names another word after mentions; failing that, one that says
    bearing asks for bearing. *)
Theorem mention_keyword_defaults (q : string) :
  string_forall (fun c => negb (App.is_quote c)) q = true ->
  (Py.contains "leak" (Py.lower q) = true -> App.extract_mention_keyword q = "leak")
  /\ (Py.contains "leak" (Py.lower q) = false ->
      Py.contains "bearing" (Py.lower q) = true ->
      App.extract_mention_keyword q = "bearing").
Proof.
  intros Hq.
  unfold App.extract_mention_keyword, Regex.search.
  rewrite (quoted_no_match None q Hq).
  cbv zeta.
  split.
  - now intros ->.
  - now intros -> ->.
Qed.

(** ** The further properties at the sample data *)

Lemma count_incidents_monotone_witness :
  carries f_top (only_equipment "CNC-02")
  /\ Analytics.count_incidents demo_orders (Some f_top)
     <= Analytics.count_incidents demo_orders (Some (only_equipment "CNC-02")).
Proof.
  assert (H : carries f_top (only_equipment "CNC-02"))
    by (repeat split; intros v E; simpl in E; try discriminate; exact E).
  split; [exact H|].
  exact (proj1 (count_incidents_monotone demo_orders f_top (only_equipment "CNC-02") H)).
Defined.

Lemma technicians_count_is_ranking_length_witness :
  Analytics.has_technicians demo_orders = true
  /\ exists c l,
       Analytics.count_distinct_technicians demo_orders None = Ok c
       /\ Analytics.top_technicians demo_orders 2 None = Ok l
       /\ List.length l = Nat.min 2 c.
Proof.
  split; [reflexivity|].
  pose proof (technicians_count_is_ranking_length demo_orders None eq_refl) as H.
  cbv zeta in H.
  destruct H as (c & Hc & Hn & _).
  destruct (Hn 2%Z) as (l & Hl & Hlen); [lia|].
  exists c, l.
  split; [exact Hc|].
  split; [exact Hl | exact Hlen].
Defined.

Lemma build_work_orders_sorted_ids_witness :
  exists wo, Data.build_work_orders demo_events = Ok wo /\ StronglySorted Z.lt (ids wo).
Proof.
  destruct (Data.build_work_orders demo_events) as [wo | e] eqn:E.
  - exists wo.
    split; [reflexivity|].
    exact (build_work_orders_sorted_ids demo_events wo E).
  - vm_compute in E. discriminate.
Defined.

Lemma build_work_orders_updates_witness :
  exists wo,
    Data.build_work_orders demo_events = Ok wo
    /\ list_sum (map Analytics.n_updates (Analytics.rows wo)) = 4.
Proof.
  destruct (Data.build_work_orders demo_events) as [wo | e] eqn:E.
  - exists wo.
    split; [reflexivity|].
    rewrite (proj1 (build_work_orders_updates demo_events wo E)).
    reflexivity.
  - vm_compute in E. discriminate.
Defined.

Lemma build_work_orders_representative_witness :
  exists wo,
    Data.build_work_orders demo_events = Ok wo
    /\ forall r, In r (Analytics.rows wo) ->
         exists e, In e (events_of demo_events (Analytics.work_order_id r))
                   /\ Analytics.start_ts r = Data.start_ts e.
Proof.
  destruct (Data.build_work_orders demo_events) as [wo | e] eqn:E.
  - exists wo.
    split; [reflexivity|].
    intros r Hr.
    destruct (build_work_orders_representative demo_events wo E r Hr)
      as (ev & Hin & _ & _ & _ & _ & Hts & _).
    now exists ev.
  - vm_compute in E. discriminate.
Defined.

Lemma extract_filters_known_values_witness :
  App.extract_filters (Py.strip q_top) (known_equipment demo_ctx)
    (known_product_lines demo_ctx) (known_symptoms demo_ctx) (default_year demo_ctx)
  = Ok f_top
  /\ In "CNC-02" (known_equipment demo_ctx)
  /\ Py.contains (Py.lower "CNC-02") (Py.lower (Py.strip q_top)) = true.
Proof.
  assert (H : App.extract_filters (Py.strip q_top) (known_equipment demo_ctx)
                (known_product_lines demo_ctx) (known_symptoms demo_ctx)
                (default_year demo_ctx) = Ok f_top) by (vm_compute; reflexivity).
  split; [exact H|].
  exact (proj1 (extract_filters_known_values _ _ _ _ _ _ H) "CNC-02" eq_refl).
Defined.

Lemma extract_filters_range_witness :
  App.extract_filters (Py.strip q_top) (known_equipment demo_ctx)
    (known_product_lines demo_ctx) (known_symptoms demo_ctx) (default_year demo_ctx)
  = Ok f_top
  /\ exists lo hi,
       Analytics.start_ts_min f_top = Some lo /\ Analytics.start_ts_max f_top = Some hi
       /\ (lo < hi)%Z.
Proof.
  assert (H : App.extract_filters (Py.strip q_top) (known_equipment demo_ctx)
                (known_product_lines demo_ctx) (known_symptoms demo_ctx)
                (default_year demo_ctx) = Ok f_top) by (vm_compute; reflexivity).
  split; [exact H|].
  destruct (extract_filters_range _ _ _ _ _ _ H)
    as [[E _] | (y & mon & lo & hi & Hlo & Hhi & _ & _ & _ & Hlt & _)].
  - discriminate E.
  - now exists lo, hi.
Defined.

Lemma cli_agrees_with_web_witness :
  Py.nonempty (Py.strip q_top) = true
  /\ App.intent (Py.strip q_top) = App.TopEquipment
  /\ AppMain.turn demo_ctx q_top = printed (Webapp.answer_question demo_ctx q_top).
Proof.
  split; [reflexivity|].
  assert (Hit : App.intent (Py.strip q_top) = App.TopEquipment) by (vm_compute; reflexivity).
  split; [exact Hit|].
  apply cli_agrees_with_web.
  - reflexivity.
  - vm_compute. reflexivity.
  - rewrite Hit. discriminate.
Defined.

Lemma answer_question_failures_witness :
  Webapp.answer_question demo_ctx q_sepember = Raise (KeyError "sepember")
  /\ Regex.search App.month_re (Py.lower (Py.strip q_sepember)) = Some "sepember".
Proof.
  assert (H : Webapp.answer_question demo_ctx q_sepember = Raise (KeyError "sepember"))
    by (vm_compute; reflexivity).
  split; [exact H|].
  destruct (answer_question_failures demo_ctx q_sepember _ H) as [[_ Hm] | [He _]].
  - exact Hm.
  - discriminate He.
Defined.

Lemma counting_answers_witness :
  App.extract_filters (Py.strip "How many incidents in July for CNC-02?")
    (known_equipment demo_ctx) (known_product_lines demo_ctx) (known_symptoms demo_ctx)
    (default_year demo_ctx)
  = Ok f_top
  /\ App.intent (Py.strip "How many incidents in July for CNC-02?") = App.CountIncidents
  /\ Webapp.answer_question demo_ctx "How many incidents in July for CNC-02?"
     = Ok (Py.str_of_nat (Analytics.count_incidents demo_orders (Some f_top))).
Proof.
  assert (H : App.extract_filters (Py.strip "How many incidents in July for CNC-02?")
                (known_equipment demo_ctx) (known_product_lines demo_ctx)
                (known_symptoms demo_ctx) (default_year demo_ctx) = Ok f_top)
    by (vm_compute; reflexivity).
  assert (Hit : App.intent (Py.strip "How many incidents in July for CNC-02?")
                = App.CountIncidents) by (vm_compute; reflexivity).
  split; [exact H|].
  split; [exact Hit|].
  exact (proj1 (counting_answers demo_ctx "How many incidents in July for CNC-02?"
                  f_top H) Hit).
Defined.

Lemma most_common_symptom_answer_witness :
  App.extract_filters (Py.strip "What is the most common symptom for CNC-01?")
    (known_equipment demo_ctx) (known_product_lines demo_ctx) (known_symptoms demo_ctx)
    (default_year demo_ctx)
  = Ok (only_equipment "CNC-01")
  /\ App.intent (Py.strip "What is the most common symptom for CNC-01?")
     = App.MostCommonSymptom
  /\ Webapp.answer_question demo_ctx "What is the most common symptom for CNC-01?"
     = Ok "BEARING_WEAR with 2 work orders".
Proof.
  assert (H : App.extract_filters (Py.strip "What is the most common symptom for CNC-01?")
                (known_equipment demo_ctx) (known_product_lines demo_ctx)
                (known_symptoms demo_ctx) (default_year demo_ctx)
              = Ok (only_equipment "CNC-01")) by (vm_compute; reflexivity).
  assert (Hit : App.intent (Py.strip "What is the most common symptom for CNC-01?")
                = App.MostCommonSymptom) by (vm_compute; reflexivity).
  split; [exact H|].
  split; [exact Hit|].
  rewrite (proj1 (most_common_symptom_answer demo_ctx
                    "What is the most common symptom for CNC-01?"
                    (only_equipment "CNC-01") H Hit eq_refl)).
  vm_compute.
  reflexivity.
Defined.

Lemma cli_distinct_equipment_witness :
  App.intent (Py.strip "How many different equipment had incidents in July?")
  = App.CountDistinctEquipment
  /\ AppMain.turn demo_ctx "How many different equipment had incidents in July?"
     = Ok (AppMain.Print "2").
Proof.
  assert (H : App.extract_filters
                (Py.strip "How many different equipment had incidents in July?")
                (known_equipment demo_ctx) (known_product_lines demo_ctx)
                (known_symptoms demo_ctx) (default_year demo_ctx)
              = Ok (Analytics.mkFilters None None None
                      (Some (App.Timestamp 2024 7 1)) (Some (App.Timestamp 2024 8 1))))
    by (vm_compute; reflexivity).
  assert (Hit : App.intent (Py.strip "How many different equipment had incidents in July?")
                = App.CountDistinctEquipment) by (vm_compute; reflexivity).
  split; [exact Hit|].
  rewrite (cli_distinct_equipment demo_ctx
             "How many different equipment had incidents in July?" _ H Hit).
  vm_compute.
  reflexivity.
Defined.

Lemma search_hits_witness :
  exists hits,
    Retrieval.search_work_orders plain_orders "oil leak" (Some 5%Z) None = Ok hits
    /\ (forall h, In h hits -> 4 <= Retrieval.score h)
    /\ List.length hits <= 5.
Proof.
  destruct (Retrieval.search_work_orders plain_orders "oil leak" (Some 5%Z) None)
    as [hits | e] eqn:E.
  - exists hits.
    split; [reflexivity|].
    pose proof (search_hits plain_orders "oil leak" (Some 5%Z) None hits E) as H.
    cbv zeta in H.
    destruct H as (Hall & _ & Hk).
    split.
    + intros h Hh. exact (proj1 (Hall h Hh)).
    + apply (Hk 5%Z eq_refl). lia.
  - vm_compute in E. discriminate.
Defined.

Lemma filtered_search_subset_witness :
  carries (only_equipment "PRESS7") Analytics.no_filter
  /\ exists hn hw,
       Retrieval.search_work_orders plain_orders "press7 leak" None
         (Some (only_equipment "PRESS7")) = Ok hn
       /\ Retrieval.search_work_orders plain_orders "press7 leak" None
            (Some Analytics.no_filter) = Ok hw
       /\ incl (map Retrieval.work_order_id hn) (map Retrieval.work_order_id hw).
Proof.
  assert (H : carries (only_equipment "PRESS7") Analytics.no_filter)
    by (repeat split; intros v E; simpl in E; discriminate).
  split; [exact H|].
  destruct (Retrieval.search_work_orders plain_orders "press7 leak" None
              (Some (only_equipment "PRESS7"))) as [hn | e] eqn:En;
    [|vm_compute in En; discriminate].
  destruct (Retrieval.search_work_orders plain_orders "press7 leak" None
              (Some Analytics.no_filter)) as [hw | e] eqn:Ew;
    [|vm_compute in Ew; discriminate].
  exists hn, hw.
  split; [reflexivity|].
  split; [reflexivity|].
  exact (filtered_search_subset plain_orders "press7 leak" _ _ hn hw H En Ew).
Defined.

Lemma make_snippet_spec_witness :
  (0 <= 120)%Z
  /\ Py.contains (Retrieval._make_snippet "oil leak at press7" ["leak"] 120)
       "oil leak at press7" = true
  /\ (Z.of_nat (String.length (Retrieval._make_snippet "oil leak at press7" ["leak"] 120))
      <= 240)%Z.
Proof.
  assert (H : (0 <= 120)%Z) by lia.
  split; [exact H|].
  pose proof (make_snippet_spec "oil leak at press7" ["leak"] 120 H) as S.
  cbv zeta in S.
  destruct S as (Hc & Hl & _).
  split; [exact Hc | exact Hl].
Defined.

Lemma mention_keyword_quoted_witness :
  App.is_quote "'" = true
  /\ string_forall (fun c => negb (App.is_quote c)) " oil leak " = true
  /\ App.extract_mention_keyword "How many mention ' oil leak ' or leak?" = "oil leak".
Proof.
  split; [reflexivity|].
  split; [reflexivity|].
  exact (mention_keyword_quoted "How many mention " " oil leak " " or leak?" "'" "'"
           eq_refl eq_refl eq_refl eq_refl eq_refl).
Defined.

Lemma mention_keyword_defaults_witness :
  string_forall (fun c => negb (App.is_quote c)) "Any bearing Leak?" = true
  /\ App.extract_mention_keyword "Any bearing Leak?" = "leak".
Proof.
  split; [reflexivity|].
  exact (proj1 (mention_keyword_defaults "Any bearing Leak?" eq_refl) eq_refl).
Defined.
